(** * Derived-data layer of the budget tracker (src/utils/helpers.ts)

    A shallow embedding of the helper functions that turn the expense, budget
    and savings records into the displayed aggregates, of the funding handler
    of [AddFundsForm.tsx] and of [updateSavingsAmount] of the application
    context, with the properties the specification states about them.

    Conventions of the embedding.
    - A TypeScript [number] holding an amount is an exact rational ([Qc]);
      infinities and NaN are outside the model.  A division is written
      [a /? b] and has no value when [b] is zero.  Where a property depends
      on the rounding of IEEE-754 doubles, the aggregation is run on the
      primitive binary64 numbers ([Module Double]).
    - A TypeScript object used as a dictionary is a [gmap] over its own keys;
      a missing key is JavaScript's [undefined].  The keys are categories, of
      the closed type [ExpenseCategory]; [getPrettyCategoryName], which is
      also meant for unrecognised strings, is given with the members that
      every object inherits from [Object.prototype].
    - The core functions are given twice: on values, and, where aliasing and
      writes in place matter, as programs on a heap of objects with a clock
      ([Module Js]).
    - Strings are [string]; [startsWith] is [String.prefix].
    - The wall clock ([new Date()]) and the random source
      ([crypto.randomUUID()]) are explicit arguments.
    - A [Date] is its local calendar fields; [setMonth] follows the abstract
      operations of ECMA-262 ([MakeDay], [YearFromTime], [MonthFromTime],
      [DateFromTime]), and [format(date, 'yyyy-MM')] follows date-fns.
    - [async] functions run to completion in one step; the answer of the
      persistence service is an argument. *)

From Stdlib Require Import ZArith QArith Qcanon Lia.
From Stdlib Require Import Floats.PrimFloat.
From stdpp Require Import base numbers strings list gmap fin_maps sorting.

Local Open Scope Qc_scope.

(** ** Numbers *)

Module Num.

(** [x > 0] on numbers. *)
Definition gt0 (x : Qc) : bool := bool_decide (0 < x).

(** Truthiness of a number: [0] is falsy (so is NaN, which the model lacks). *)
Definition truthy (x : Qc) : bool := negb (bool_decide (x = 0)).

(** [a / b]; undefined on a zero divisor. *)
Definition div (a b : Qc) : option Qc :=
  if bool_decide (b = 0) then None else Some (a / b).

(** [o || d] where [o] is a possibly missing number. *)
Definition or_default (o : option Qc) (d : Qc) : Qc :=
  match o with
  | Some v => if truthy v then v else d
  | None => d
  end.

End Num.

Infix "/?" := Num.div (at level 40, left associativity).

(** ** Records of types/index.ts *)

(** The union of string literals [ExpenseCategory]; at run time a string. *)
Abbreviation ExpenseCategory := string (only parsing).

Record Expense := mkExpense {
  e_id : string;
  amount : Qc;
  description : string;
  category : ExpenseCategory;
  date : string;
  createdAt : string;
  e_userId : string
}.

Record Budget := mkBudget {
  b_id : string;
  month : string;
  categories : gmap string Qc;
  totalBudget : Qc;
  b_userId : option string
}.

Record SavingsGoal := mkSavingsGoal {
  g_id : string;
  name : string;
  targetAmount : Qc;
  currentAmount : Qc;
  startDate : string;
  targetDate : string;
  g_category : option string;
  icon : option string;
  g_userId : string
}.

Record MonthlyTotal := mkMonthlyTotal {
  mt_month : string;
  total : Qc;
  mt_categories : gmap string Qc
}.

(** ** Aggregation functions *)

(** [expenses.filter(expense => expense.date.startsWith(month))] *)
Definition filterExpensesByMonth (expenses : list Expense) (m : string) : list Expense :=
  filter (λ e, String.prefix m (date e) = true) expenses.

(** [.reduce((total, expense) => total + expense.amount, 0)] *)
Definition sumAmounts (es : list Expense) : Qc :=
  fold_left (λ acc e, acc + amount e) es 0.

Definition calculateMonthlyTotal (expenses : list Expense) (m : string) : Qc :=
  sumAmounts (filterExpensesByMonth expenses m).

(** One round of the [forEach] body:
    [if (!result[c]) result[c] = 0; result[c] += expense.amount]. *)
Definition addToCategory (result : gmap string Qc) (e : Expense) : gmap string Qc :=
  let c := category e in
  let result1 :=
    match result !! c with
    | Some v => if Num.truthy v then result else <[c := 0]> result
    | None => <[c := 0]> result
    end in
  match result1 !! c with
  | Some v => <[c := v + amount e]> result1
  | None => result1
  end.

Definition calculateExpensesByCategory (expenses : list Expense) (m : string)
  : gmap string Qc :=
  fold_left addToCategory (filterExpensesByMonth expenses m) ∅.

(** ** Budgets *)

(** [budgets.find(b => b.month === currentMonth)], else a default budget whose
    id is the value [uuid] drawn by [crypto.randomUUID()]. *)
Definition getCurrentBudget (budgets : list Budget) (currentMonth : string)
    (uuid : string) : Budget :=
  match List.find (λ b, bool_decide (month b = currentMonth)) budgets with
  | Some existingBudget => existingBudget
  | None =>
      {| b_id := uuid; month := currentMonth; categories := ∅;
         totalBudget := 0; b_userId := None |}
  end.

(** ** Progress calculators *)

(** [budget.totalBudget > 0 ? (monthlyTotal / budget.totalBudget) * 100 : 0] *)
Definition calculateBudgetProgress (budget : Budget) (expenses : list Expense)
  : option Qc :=
  let monthlyTotal := calculateMonthlyTotal expenses (month budget) in
  if Num.gt0 (totalBudget budget)
  then q ← monthlyTotal /? totalBudget budget; Some (q * Qc_of_Z 100)
  else Some 0.

(** [categoryBudget > 0 ? (categoryExpenses / categoryBudget) * 100 : 0],
    with [categoryBudget = budget.categories[category] || 0]. *)
Definition calculateCategoryBudgetProgress (budget : Budget)
    (expenses : list Expense) (c : ExpenseCategory) : option Qc :=
  let categoryBudget := Num.or_default (categories budget !! c) 0 in
  let categoryExpenses :=
    fold_left (λ total expense, total + amount expense)
      (filter (λ e, category e = c)
         (filterExpensesByMonth expenses (month budget))) 0 in
  if Num.gt0 categoryBudget
  then q ← categoryExpenses /? categoryBudget; Some (q * Qc_of_Z 100)
  else Some 0.

(** [goal.targetAmount > 0 ? (goal.currentAmount / goal.targetAmount) * 100 : 0] *)
Definition calculateSavingsProgress (goal : SavingsGoal) : option Qc :=
  if Num.gt0 (targetAmount goal)
  then q ← currentAmount goal /? targetAmount goal; Some (q * Qc_of_Z 100)
  else Some 0.

(** ** Dates

    A JavaScript [Date] read in local time: calendar fields and the time
    within the day.  [getMonth] is zero-based, as in JavaScript. *)

Module JsDate.
Local Open Scope Z_scope.

Record t := mk {
  fullYear : Z;
  monthIndex : Z;
  dayOfMonth : Z;
  msInDay : Z
}.

Definition isLeap (y : Z) : bool :=
  (y mod 4 =? 0) && (negb (y mod 100 =? 0) || (y mod 400 =? 0)).

(** Days of month [m] (zero-based) of year [y]. *)
Definition daysInMonth (y m : Z) : Z :=
  if m =? 1 then (if isLeap y then 29 else 28)
  else if (m =? 3) || (m =? 5) || (m =? 8) || (m =? 10) then 30
  else 31.

Definition valid (d : t) : Prop :=
  0 ≤ monthIndex d ≤ 11 ∧
  1 ≤ dayOfMonth d ≤ daysInMonth (fullYear d) (monthIndex d) ∧
  0 ≤ msInDay d < 86400000.

(** The abstract operations of ECMA-262 on day numbers (days since
    1970-01-01): [DayFromYear], [YearFromTime], [DayWithinYear],
    [MonthFromTime], [DateFromTime]. *)
Definition daysInYear (y : Z) : Z := if isLeap y then 366 else 365.

Definition dayFromYear (y : Z) : Z :=
  365 * (y - 1970) + (y - 1969) / 4 - (y - 1901) / 100 + (y - 1601) / 400.

(** The largest year [y] with [dayFromYear y <= day]: an estimate from the
    mean length of a year, corrected by one year at most. *)
Definition yearFromDay (day : Z) : Z :=
  let y0 := 1970 + (400 * day) / 146097 in
  if day <? dayFromYear y0 then y0 - 1
  else if dayFromYear (y0 + 1) <=? day then y0 + 1
  else y0.

(** 1 in a leap year, 0 otherwise. *)
Definition leapFlag (y : Z) : Z := if isLeap y then 1 else 0.

Definition inLeapYear (day : Z) : Z := leapFlag (yearFromDay day).

Definition dayWithinYear (day : Z) : Z := day - dayFromYear (yearFromDay day).

(** Day within the year of the first of month [m] (zero-based), [leap] being
    1 in a leap year and 0 otherwise. *)
Definition monthStart (m leap : Z) : Z :=
  if m =? 0 then 0
  else if m =? 1 then 31
  else if m =? 2 then 59 + leap
  else if m =? 3 then 90 + leap
  else if m =? 4 then 120 + leap
  else if m =? 5 then 151 + leap
  else if m =? 6 then 181 + leap
  else if m =? 7 then 212 + leap
  else if m =? 8 then 243 + leap
  else if m =? 9 then 273 + leap
  else if m =? 10 then 304 + leap
  else 334 + leap.

Definition monthFromDay (day : Z) : Z :=
  let dwy := dayWithinYear day in
  let leap := inLeapYear day in
  if dwy <? 31 then 0
  else if dwy <? 59 + leap then 1
  else if dwy <? 90 + leap then 2
  else if dwy <? 120 + leap then 3
  else if dwy <? 151 + leap then 4
  else if dwy <? 181 + leap then 5
  else if dwy <? 212 + leap then 6
  else if dwy <? 243 + leap then 7
  else if dwy <? 273 + leap then 8
  else if dwy <? 304 + leap then 9
  else if dwy <? 334 + leap then 10
  else 11.

Definition dateFromDay (day : Z) : Z :=
  dayWithinYear day - monthStart (monthFromDay day) (inLeapYear day) + 1.

(** ECMAScript [MakeDay(year, month, date)]: the month is carried into the
    year, and the date counts on from the first of that month, so a date past
    the month's end lands in the following month. *)
Definition makeDay (y m dt : Z) : Z :=
  let ym := y + m / 12 in
  let mn := m mod 12 in
  dayFromYear ym + monthStart mn (leapFlag ym) + dt - 1.

Definition getMonth (d : t) : Z := monthIndex d.

(** [date.setMonth(m)]: the day number made of the same year, the month [m]
    and the same day of month, read back as a date; the time of day stays. *)
Definition setMonth (d : t) (m : Z) : t :=
  let day := makeDay (fullYear d) m (dayOfMonth d) in
  {| fullYear := yearFromDay day; monthIndex := monthFromDay day;
     dayOfMonth := dateFromDay day; msInDay := msInDay d |}.

(** Decimal digits of a natural number, [n.toString()]. *)
Definition digit (n : nat) : Ascii.ascii :=
  Ascii.ascii_of_nat (48 + n).

Fixpoint digitsFuel (fuel : nat) (n : nat) (acc : string) : string :=
  match fuel with
  | O => acc
  | S fuel' =>
      let acc' := String (digit (n mod 10)) acc in
      if (n / 10 =? 0)%nat then acc' else digitsFuel fuel' (n / 10) acc'
  end.

Definition toDecimal (n : nat) : string := digitsFuel (S n) n EmptyString.

Fixpoint zeros (k : nat) : string :=
  match k with O => EmptyString | S k' => String (digit 0) (zeros k') end.

(** date-fns [addLeadingZeros(number, targetLength)]. *)
Definition addLeadingZeros (n : Z) (targetLength : nat) : string :=
  let sign := if n <? 0 then "-"%string else EmptyString in
  let output := toDecimal (Z.to_nat (Z.abs n)) in
  (sign ++ zeros (targetLength - String.length output) ++ output)%string.

(** date-fns [format(date, 'yyyy-MM')]: the year of the era on four digits
    at least, a dash, the one-based month on two digits. *)
Definition formatYearMonth (d : t) : string :=
  let signedYear := fullYear d in
  let y := if 0 <? signedYear then signedYear else 1 - signedYear in
  (addLeadingZeros y 4 ++ "-" ++ addLeadingZeros (monthIndex d + 1) 2)%string.

End JsDate.

(** ** Rolling summary *)

(** Body of the loop of [getLastSixMonthsSummary] at offset [i]:
    the month key of [currentDate] moved back [i] months with [setMonth], and
    the total and the per-category sums of the expenses of that key. *)
Definition summaryEntry (currentDate : JsDate.t) (expenses : list Expense)
    (i : Z) : MonthlyTotal :=
  let date := JsDate.setMonth currentDate (JsDate.getMonth currentDate - i)%Z in
  let monthStr := JsDate.formatYearMonth date in
  let monthlyExpenses := filterExpensesByMonth expenses monthStr in
  let total := fold_left (λ sum exp, sum + amount exp) monthlyExpenses 0 in
  let categories := fold_left addToCategory monthlyExpenses ∅ in
  {| mt_month := monthStr; total := total; mt_categories := categories |}.

(** [for (let i = 0; i < 6; i++) { ...; result.push(entry) }], with [steps]
    iterations left. *)
Fixpoint summaryLoop (currentDate : JsDate.t) (expenses : list Expense)
    (steps : nat) (i : Z) (result : list MonthlyTotal) : list MonthlyTotal :=
  match steps with
  | O => result
  | S steps' =>
      summaryLoop currentDate expenses steps' (i + 1)%Z
        (result ++ [summaryEntry currentDate expenses i])
  end.

(** [getLastSixMonthsSummary(expenses)], where [currentDate] is the value of
    [new Date()] at the call. *)
Definition getLastSixMonthsSummary (currentDate : JsDate.t)
    (expenses : list Expense) : list MonthlyTotal :=
  rev (summaryLoop currentDate expenses 6 0%Z []).

(** ** Category taxonomy *)

Local Open Scope string_scope.

Definition getCategories : list ExpenseCategory :=
  [ "housing"; "transportation"; "food"; "utilities"; "insurance";
    "healthcare"; "entertainment"; "personal"; "education"; "debt";
    "savings"; "gifts"; "other" ].

Definition categoryMap : gmap string string :=
  list_to_map
    [ ("housing", "Housing");
      ("transportation", "Transportation");
      ("food", "Food & Dining");
      ("utilities", "Utilities");
      ("insurance", "Insurance");
      ("healthcare", "Healthcare");
      ("entertainment", "Entertainment");
      ("personal", "Personal");
      ("education", "Education");
      ("debt", "Debt Payments");
      ("savings", "Savings");
      ("gifts", "Gifts & Donations");
      ("other", "Other") ].

(** Truthiness of a string: only the empty string is falsy. *)
Definition truthyString (s : string) : bool :=
  match s with EmptyString => false | String _ _ => true end.

(** The names of the members that an object literal inherits from
    [Object.prototype].  A lookup of one of them on the literal finds the
    inherited member: a function, for [__proto__] the prototype object
    itself; each of them is truthy. *)
Definition objectPrototypeKeys : list string :=
  [ "constructor"; "hasOwnProperty"; "isPrototypeOf"; "propertyIsEnumerable";
    "toLocaleString"; "toString"; "valueOf"; "__proto__";
    "__defineGetter__"; "__defineSetter__"; "__lookupGetter__";
    "__lookupSetter__" ].

(** What [getPrettyCategoryName] returns: a string, or the member of
    [Object.prototype] of the given name. *)
Inductive PrettyName :=
  | NameString (s : string)
  | InheritedMember (name : string).

(** [categoryMap[category] || category].  The lookup goes through the own
    keys of the literal first and then through its prototype. *)
Definition getPrettyCategoryName (c : ExpenseCategory) : PrettyName :=
  match categoryMap !! c with
  | Some label => if truthyString label then NameString label else NameString c
  | None =>
      if bool_decide (c ∈ objectPrototypeKeys) then InheritedMember c
      else NameString c
  end.

Definition getCategoryColors : gmap string string :=
  list_to_map
    [ ("housing", "#0D9488");
      ("transportation", "#8B5CF6");
      ("food", "#22c55e");
      ("utilities", "#f59e0b");
      ("healthcare", "#ef4444");
      ("insurance", "#3b82f6");
      ("entertainment", "#ec4899");
      ("personal", "#8b5cf6");
      ("education", "#14b8a6");
      ("debt", "#f43f5e");
      ("savings", "#06b6d4");
      ("gifts", "#a855f7");
      ("other", "#6b7280") ].

Local Close Scope string_scope.

(** ** Funding a savings goal *)

Record User := mkUser { u_id : string; email : string }.

Record AppState := mkAppState {
  expenses : list Expense;
  budgets : list Budget;
  savingsGoals : list SavingsGoal;
  currentMonth : string;
  monthlySummaries : list MonthlyTotal;
  user : option User
}.

(** The two messages [handleAddFunds] can set with [setError]:
    'Please enter a valid amount', and 'Amount exceeds remaining goal of ...'
    with the formatted remaining amount. *)
Inductive FundsError :=
  | InvalidAmount
  | ExceedsRemaining (remaining : Qc).

(** What [handleAddFunds] does after validation: either [setError(..)] and
    return, or [updateSavingsAmount(goal.id, newTotal); onClose()]. *)
Inductive FundsOutcome :=
  | Rejected (error : FundsError)
  | Submitted (id : string) (newTotal : Qc).

(** [handleAddFunds] for the text typed in the amount field, given as
    [numAmount = parseFloat(amount)], [None] when that is NaN (which covers
    the empty field). *)
Definition handleAddFunds (goal : SavingsGoal) (numAmount : option Qc)
  : FundsOutcome :=
  match numAmount with
  | None => Rejected InvalidAmount
  | Some numAmount =>
      if bool_decide (numAmount ≤ 0) then Rejected InvalidAmount
      else
        let newTotal := currentAmount goal + numAmount in
        let remaining := targetAmount goal - currentAmount goal in
        if bool_decide (targetAmount goal < newTotal)
        then Rejected (ExceedsRemaining remaining)
        else Submitted (g_id goal) newTotal
  end.

Definition withCurrentAmount (g : SavingsGoal) (a : Qc) : SavingsGoal :=
  {| g_id := g_id g; name := name g; targetAmount := targetAmount g;
     currentAmount := a; startDate := startDate g; targetDate := targetDate g;
     g_category := g_category g; icon := icon g; g_userId := g_userId g |}.

Definition withSavingsGoals (st : AppState) (gs : list SavingsGoal) : AppState :=
  {| expenses := expenses st; budgets := budgets st; savingsGoals := gs;
     currentMonth := currentMonth st; monthlySummaries := monthlySummaries st;
     user := user st |}.

(** [updateSavingsAmount(id, amount)] of the application context.
    [storeError] is the [error] the persistence service answers with. *)
Definition updateSavingsAmount (st : AppState) (id : string) (a : Qc)
    (storeError : bool) : AppState :=
  match user st with
  | None => st
  | Some _ =>
      match List.find (λ g, bool_decide (g_id g = id)) (savingsGoals st) with
      | None => st
      | Some _ =>
          if storeError then st
          else withSavingsGoals st
                 (map (λ goal, if bool_decide (g_id goal = id)
                               then withCurrentAmount goal a else goal)
                      (savingsGoals st))
      end
  end.

(** The funding operation end to end: the form handler, then the context
    update it triggers.  Returns the new state and the error shown, if any. *)
Definition fund (st : AppState) (goal : SavingsGoal) (numAmount : option Qc)
    (storeError : bool) : AppState * option FundsError :=
  match handleAddFunds goal numAmount with
  | Rejected e => (st, Some e)
  | Submitted id newTotal => (updateSavingsAmount st id newTotal storeError, None)
  end.

(** ** Core calls and the ambient clock

    The core functions as the application calls them.  The only ambient value
    any of them reads is the clock, which [call] passes along. *)

Inductive CoreCall :=
  | FilterExpensesByMonth (es : list Expense) (m : string)
  | CalculateMonthlyTotal (es : list Expense) (m : string)
  | CalculateExpensesByCategory (es : list Expense) (m : string)
  | CalculateBudgetProgress (b : Budget) (es : list Expense)
  | CalculateCategoryBudgetProgress (b : Budget) (es : list Expense)
      (c : ExpenseCategory)
  | CalculateSavingsProgress (g : SavingsGoal)
  | GetLastSixMonthsSummary (es : list Expense).

Inductive CoreResult :=
  | ExpensesResult (es : list Expense)
  | NumberResult (n : option Qc)
  | ByCategoryResult (m : gmap string Qc)
  | SummaryResult (l : list MonthlyTotal).

Definition call (now : JsDate.t) (c : CoreCall) : CoreResult :=
  match c with
  | FilterExpensesByMonth es m => ExpensesResult (filterExpensesByMonth es m)
  | CalculateMonthlyTotal es m => NumberResult (Some (calculateMonthlyTotal es m))
  | CalculateExpensesByCategory es m =>
      ByCategoryResult (calculateExpensesByCategory es m)
  | CalculateBudgetProgress b es => NumberResult (calculateBudgetProgress b es)
  | CalculateCategoryBudgetProgress b es c =>
      NumberResult (calculateCategoryBudgetProgress b es c)
  | CalculateSavingsProgress g => NumberResult (calculateSavingsProgress g)
  | GetLastSixMonthsSummary es => SummaryResult (getLastSixMonthsSummary now es)
  end.

Definition readsClock (c : CoreCall) : bool :=
  match c with GetLastSixMonthsSummary _ => true | _ => false end.

(** Two clock readings on the same calendar day. *)
Definition sameDay (d1 d2 : JsDate.t) : Prop :=
  JsDate.fullYear d1 = JsDate.fullYear d2
  ∧ JsDate.monthIndex d1 = JsDate.monthIndex d2
  ∧ JsDate.dayOfMonth d1 = JsDate.dayOfMonth d2.

(** ** Vocabulary of the statements *)

(** The mathematical sum of a list of amounts. *)
Definition sumList (l : list Qc) : Qc := foldr Qcplus 0 l.

(** The sum of a list of amounts added from the left, one after the other,
    starting from 0: [((0 + a1) + a2) + ...]. *)
Definition sumInOrder (l : list Qc) : Qc := fold_left Qcplus l 0.

(** The sum of the values of a per-category map. *)
Definition sumValues (m : gmap string Qc) : Qc :=
  map_fold (λ _ v acc, acc + v) 0 m.

(** The ratio pattern shared by the three progress calculators:
    [limit > 0 ? (spent / limit) * 100 : 0]. *)
Definition percentOf (spent limit : Qc) : option Qc :=
  if Num.gt0 limit then q ← spent /? limit; Some (q * Qc_of_Z 100) else Some 0.

(** The expenses of a list that carry category [c]. *)
Definition ofCategory (c : ExpenseCategory) (es : list Expense) : list Expense :=
  filter (λ e, category e = c) es.

(** The month key the loop of [getLastSixMonthsSummary] writes at offset
    [i]. *)
Definition monthKey (currentDate : JsDate.t) (i : Z) : string :=
  JsDate.formatYearMonth
    (JsDate.setMonth currentDate (JsDate.getMonth currentDate - i)%Z).

(** Calendar-correct month arithmetic: the year and zero-based month [i]
    months before month [m] of year [y]. *)
Definition monthsBefore (y m i : Z) : Z * Z :=
  let months := (12 * y + m - i)%Z in
  ((months / 12)%Z, (months mod 12)%Z).

(** The key of the calendar month [i] months before the month of the date. *)
Definition calendarKey (currentDate : JsDate.t) (i : Z) : string :=
  let '(y, m) := monthsBefore (JsDate.fullYear currentDate)
                   (JsDate.monthIndex currentDate) i in
  JsDate.formatYearMonth
    {| JsDate.fullYear := y; JsDate.monthIndex := m;
       JsDate.dayOfMonth := 1; JsDate.msInDay := 0 |}.

(** Where day [d] of month [m] (zero-based) of year [y] really is when the
    month has fewer than [d] days: that many days into the next month. *)
Definition rollOver (y m d : Z) : Z * Z * Z :=
  let dim := JsDate.daysInMonth y m in
  if (d <=? dim)%Z then (y, m, d)
  else if (m =? 11)%Z then ((y + 1)%Z, 0%Z, (d - dim)%Z)
  else (y, (m + 1)%Z, (d - dim)%Z).

(** The budget [getCurrentBudget] makes up for a month without one. *)
Definition defaultBudget (m uuid : string) : Budget :=
  {| b_id := uuid; month := m; categories := ∅; totalBudget := 0;
     b_userId := None |}.

(** ** Sample records of the worked examples *)

Definition sampleExpense (a : Z) (c : ExpenseCategory) (d : string) : Expense :=
  {| e_id := "e"; amount := Qc_of_Z a; description := "sample";
     category := c; date := d; createdAt := d; e_userId := "u" |}.

(** [{amount:100, food, 2024-06-01}, {amount:50, food, 2024-06-15},
     {amount:30, housing, 2024-06-02}] *)
Definition juneExpenses : list Expense :=
  [ sampleExpense 100 "food" "2024-06-01";
    sampleExpense 50 "food" "2024-06-15";
    sampleExpense 30 "housing" "2024-06-02" ].

(** A budget for [m] with one category limit. *)
Definition sampleBudget (m : string) (c : ExpenseCategory) (limit total : Z)
  : Budget :=
  {| b_id := "b"; month := m; categories := {[ c := Qc_of_Z limit ]};
     totalBudget := Qc_of_Z total; b_userId := Some "u" |}.

(** A goal and an application state for the funding examples. *)
Definition sampleGoal (target current : Z) : SavingsGoal :=
  {| g_id := "g1"; name := "Holiday"; targetAmount := Qc_of_Z target;
     currentAmount := Qc_of_Z current; startDate := "2024-01-01";
     targetDate := "2024-12-31"; g_category := None; icon := None;
     g_userId := "u" |}.

Definition sampleState (signedIn : bool) (goals : list SavingsGoal) : AppState :=
  {| expenses := []; budgets := []; savingsGoals := goals;
     currentMonth := "2024-06"; monthlySummaries := [];
     user := if signedIn then Some {| u_id := "u"; email := "u@example.org" |}
             else None |}.

(** A clock reading at noon of the given day ([m] is the one-based month). *)
Definition noon (y m d : Z) : JsDate.t :=
  {| JsDate.fullYear := y; JsDate.monthIndex := (m - 1)%Z;
     JsDate.dayOfMonth := d; JsDate.msInDay := 43200000%Z |}.

(** ** The other operations of the application context

    As [updateSavingsAmount]: each runs to completion in one step, and
    [storeError] is the [error] the persistence service answers with.  The
    effect that recomputes [monthlySummaries] after a change of the expenses
    is [refreshSummaries]. *)

Definition withExpenses (st : AppState) (es : list Expense) : AppState :=
  {| expenses := es; budgets := budgets st; savingsGoals := savingsGoals st;
     currentMonth := currentMonth st; monthlySummaries := monthlySummaries st;
     user := user st |}.

Definition withBudgets (st : AppState) (bs : list Budget) : AppState :=
  {| expenses := expenses st; budgets := bs; savingsGoals := savingsGoals st;
     currentMonth := currentMonth st; monthlySummaries := monthlySummaries st;
     user := user st |}.

(** [Omit<Expense, 'id' | 'createdAt' | 'userId'>] *)
Record ExpenseData := mkExpenseData {
  d_amount : Qc;
  d_description : string;
  d_category : ExpenseCategory;
  d_date : string
}.

(** [addExpense(expense)]; [uuid] is the value of [uuidv4()] and [createdAtIso]
    the value of [new Date().toISOString()]. *)
Definition addExpense (st : AppState) (expense : ExpenseData)
    (uuid createdAtIso : string) (storeError : bool) : AppState :=
  match user st with
  | None => st
  | Some u =>
      let newExpense :=
        {| e_id := uuid; amount := d_amount expense;
           description := d_description expense;
           category := d_category expense; date := d_date expense;
           createdAt := createdAtIso; e_userId := u_id u |} in
      if storeError then st
      else withExpenses st (newExpense :: expenses st)
  end.

(** [updateExpense(expense)] *)
Definition updateExpense (st : AppState) (expense : Expense)
    (storeError : bool) : AppState :=
  match user st with
  | None => st
  | Some _ =>
      if storeError then st
      else withExpenses st
             (map (λ e, if bool_decide (e_id e = e_id expense)
                        then expense else e)
                  (expenses st))
  end.

(** [deleteExpense(id)] *)
Definition deleteExpense (st : AppState) (id : string) (storeError : bool)
  : AppState :=
  match user st with
  | None => st
  | Some _ =>
      if storeError then st
      else withExpenses st (filter (λ e, e_id e ≠ id) (expenses st))
  end.

Definition withUserId (b : Budget) (uid : string) : Budget :=
  {| b_id := b_id b; month := month b; categories := categories b;
     totalBudget := totalBudget b; b_userId := Some uid |}.

(** [updateBudget(budget)]: the stored budget of the same month is replaced
    in place ([findIndex]), a budget of a new month is appended. *)
Definition updateBudget (st : AppState) (budget : Budget) (storeError : bool)
  : AppState :=
  match user st with
  | None => st
  | Some u =>
      let budgetWithUser := withUserId budget (u_id u) in
      if storeError then st
      else
        match list_find (λ b, month b = month budget) (budgets st) with
        | Some (existingIndex, _) =>
            withBudgets st (<[existingIndex := budgetWithUser]> (budgets st))
        | None => withBudgets st (budgets st ++ [budgetWithUser])
        end
  end.

(** [Omit<SavingsGoal, 'id' | 'userId'>] *)
Record GoalData := mkGoalData {
  gd_name : string;
  gd_targetAmount : Qc;
  gd_currentAmount : Qc;
  gd_startDate : string;
  gd_targetDate : string;
  gd_category : option string;
  gd_icon : option string
}.

(** [{ ...goal, id, userId }] *)
Definition withIdentity (goal : GoalData) (id uid : string) : SavingsGoal :=
  {| g_id := id; name := gd_name goal; targetAmount := gd_targetAmount goal;
     currentAmount := gd_currentAmount goal; startDate := gd_startDate goal;
     targetDate := gd_targetDate goal; g_category := gd_category goal;
     icon := gd_icon goal; g_userId := uid |}.

(** [addSavingsGoal(goal)]: the goal gets a fresh id and the user's id and
    goes to the end of the list. *)
Definition addSavingsGoal (st : AppState) (goal : GoalData) (uuid : string)
    (storeError : bool) : AppState :=
  match user st with
  | None => st
  | Some u =>
      let newGoal := withIdentity goal uuid (u_id u) in
      if storeError then st
      else withSavingsGoals st (savingsGoals st ++ [newGoal])
  end.

(** [updateSavingsGoal(goal)] *)
Definition updateSavingsGoal (st : AppState) (goal : SavingsGoal)
    (storeError : bool) : AppState :=
  match user st with
  | None => st
  | Some _ =>
      if storeError then st
      else withSavingsGoals st
             (map (λ g, if bool_decide (g_id g = g_id goal) then goal else g)
                  (savingsGoals st))
  end.

(** [deleteSavingsGoal(id)] *)
Definition deleteSavingsGoal (st : AppState) (id : string) (storeError : bool)
  : AppState :=
  match user st with
  | None => st
  | Some _ =>
      if storeError then st
      else withSavingsGoals st (filter (λ g, g_id g ≠ id) (savingsGoals st))
  end.

(** [setCurrentMonth(month)]: the one operation of the context without a
    guard and without a write to the store. *)
Definition setCurrentMonth (st : AppState) (m : string) : AppState :=
  {| expenses := expenses st; budgets := budgets st;
     savingsGoals := savingsGoals st; currentMonth := m;
     monthlySummaries := monthlySummaries st; user := user st |}.

(** The effect on [state.expenses]:
    [monthlySummaries: getLastSixMonthsSummary(state.expenses)]. *)
Definition refreshSummaries (now : JsDate.t) (st : AppState) : AppState :=
  {| expenses := expenses st; budgets := budgets st;
     savingsGoals := savingsGoals st; currentMonth := currentMonth st;
     monthlySummaries := getLastSixMonthsSummary now (expenses st);
     user := user st |}.

(** [getCurrentMonth()]: [format(new Date(), 'yyyy-MM')]. *)
Definition getCurrentMonth (now : JsDate.t) : string :=
  JsDate.formatYearMonth now.


(** ** Forms

    The text of a numeric input is kept as what the handlers read of it:
    whether it is the empty string, and the value of [Number(text)], [None]
    standing for NaN ([Number] of the empty string is 0).  The built-in
    [String.prototype.trim] is an argument. *)

Inductive TextField :=
  | EmptyText
  | Text (n : option Qc).

Definition fieldNumber (f : TextField) : option Qc :=
  match f with EmptyText => Some 0 | Text n => n end.

(** [!s] *)
Definition fieldIsEmpty (f : TextField) : bool :=
  match f with EmptyText => true | Text _ => false end.

(** [!s || isNaN(Number(s)) || Number(s) <= 0] *)
Definition notPositive (f : TextField) : bool :=
  fieldIsEmpty f
  || match fieldNumber f with
     | None => true
     | Some q => bool_decide (q ≤ 0)
     end.

(** [!s || isNaN(Number(s)) || Number(s) < 0] *)
Definition notNonNegative (f : TextField) : bool :=
  fieldIsEmpty f
  || match fieldNumber f with
     | None => true
     | Some q => bool_decide (q < 0)
     end.

(** [Number(a) > Number(b)], false when either is NaN. *)
Definition numberGt (a b : TextField) : bool :=
  match fieldNumber a, fieldNumber b with
  | Some x, Some y => bool_decide (y < x)
  | _, _ => false
  end.

(** [Object.keys(newErrors).length === 0] *)
Definition noErrors (newErrors : gmap string string) : bool :=
  Nat.eqb (size newErrors) 0.

(** date-fns [format(date, 'yyyy-MM-dd')]. *)
Definition formatDay (d : JsDate.t) : string :=
  (JsDate.formatYearMonth d ++ "-"
   ++ JsDate.addLeadingZeros (JsDate.dayOfMonth d) 2)%string.

(** *** SavingsGoalForm *)

Record GoalForm := mkGoalForm {
  gf_name : string;
  gf_targetAmount : TextField;
  gf_currentAmount : TextField;
  gf_targetDate : string;
  gf_category : string
}.

(** The [newErrors] object built by [validateForm]. *)
Definition goalFormErrors (trim : string → string) (f : GoalForm)
  : gmap string string :=
  let e0 : gmap string string := ∅ in
  let e1 := if truthyString (trim (gf_name f)) then e0
            else <["name" := "Name is required"]> e0 in
  let e2 := if notPositive (gf_targetAmount f)
            then <["targetAmount" :=
                    "Please enter a valid target amount greater than zero"]> e1
            else e1 in
  let e3 := if notNonNegative (gf_currentAmount f)
            then <["currentAmount" :=
                    "Please enter a valid current amount (0 or greater)"]> e2
            else e2 in
  let e4 := if numberGt (gf_currentAmount f) (gf_targetAmount f)
            then <["currentAmount" :=
                    "Current amount cannot exceed target amount"]> e3
            else e3 in
  if truthyString (gf_targetDate f) then e4
  else <["targetDate" := "Target date is required"]> e4.

Definition validateGoalForm (trim : string → string) (f : GoalForm) : bool :=
  noErrors (goalFormErrors trim f).

(** What [handleSubmit] asks of the context. *)
Inductive GoalRequest :=
  | NoGoalRequest
  | RequestAddSavingsGoal (goalData : GoalData)
  | RequestUpdateSavingsGoal (goal : SavingsGoal).

(** [{ ...editGoal, ...goalData }]: the keys of [goalData] win. *)
Definition spreadGoal (editGoal : SavingsGoal) (goalData : GoalData)
  : SavingsGoal :=
  {| g_id := g_id editGoal; name := gd_name goalData;
     targetAmount := gd_targetAmount goalData;
     currentAmount := gd_currentAmount goalData;
     startDate := gd_startDate goalData; targetDate := gd_targetDate goalData;
     g_category := match gd_category goalData with
                   | Some c => Some c
                   | None => g_category editGoal
                   end;
     icon := match gd_icon goalData with
             | Some i => Some i
             | None => icon editGoal
             end;
     g_userId := g_userId editGoal |}.

(** [handleSubmit] of the savings goal form; [today] is [new Date()].  The
    amounts of a form that passed [validateForm] are numbers. *)
Definition goalHandleSubmit (trim : string → string) (f : GoalForm)
    (editGoal : option SavingsGoal) (today : JsDate.t) : GoalRequest :=
  if validateGoalForm trim f then
    let goalData :=
      {| gd_name := gf_name f;
         gd_targetAmount := default 0 (fieldNumber (gf_targetAmount f));
         gd_currentAmount := default 0 (fieldNumber (gf_currentAmount f));
         gd_startDate := formatDay today;
         gd_targetDate := gf_targetDate f;
         gd_category := Some (gf_category f);
         gd_icon := None |} in
    match editGoal with
    | Some g => RequestUpdateSavingsGoal (spreadGoal g goalData)
    | None => RequestAddSavingsGoal goalData
    end
  else NoGoalRequest.

(** *** ExpenseForm *)

Record ExpenseForm := mkExpenseForm {
  xf_amount : TextField;
  xf_description : string;
  xf_category : ExpenseCategory;
  xf_date : string
}.

Definition expenseFormErrors (trim : string → string) (f : ExpenseForm)
  : gmap string string :=
  let e0 : gmap string string := ∅ in
  let e1 := if notPositive (xf_amount f)
            then <["amount" :=
                    "Please enter a valid amount greater than zero"]> e0
            else e0 in
  let e2 := if truthyString (trim (xf_description f)) then e1
            else <["description" := "Description is required"]> e1 in
  if truthyString (xf_date f) then e2
  else <["date" := "Date is required"]> e2.

Definition validateExpenseForm (trim : string → string) (f : ExpenseForm)
  : bool :=
  noErrors (expenseFormErrors trim f).

Inductive ExpenseRequest :=
  | NoExpenseRequest
  | RequestAddExpense (expenseData : ExpenseData)
  | RequestUpdateExpense (expense : Expense).

(** [{ ...editExpense, ...expenseData }] *)
Definition spreadExpense (editExpense : Expense) (expenseData : ExpenseData)
  : Expense :=
  {| e_id := e_id editExpense; amount := d_amount expenseData;
     description := d_description expenseData;
     category := d_category expenseData; date := d_date expenseData;
     createdAt := createdAt editExpense; e_userId := e_userId editExpense |}.

Definition expenseHandleSubmit (trim : string → string) (f : ExpenseForm)
    (editExpense : option Expense) : ExpenseRequest :=
  if validateExpenseForm trim f then
    let expenseData :=
      {| d_amount := default 0 (fieldNumber (xf_amount f));
         d_description := xf_description f;
         d_category := xf_category f; d_date := xf_date f |} in
    match editExpense with
    | Some e => RequestUpdateExpense (spreadExpense e expenseData)
    | None => RequestAddExpense expenseData
    end
  else NoExpenseRequest.

(** [handleSubmit] of the expense form end to end: the validation, then the
    context operation it calls. *)
Definition submitExpenseForm (trim : string → string) (st : AppState)
    (f : ExpenseForm) (editExpense : option Expense)
    (uuid createdAtIso : string) (storeError : bool) : AppState :=
  match expenseHandleSubmit trim f editExpense with
  | NoExpenseRequest => st
  | RequestAddExpense expenseData =>
      addExpense st expenseData uuid createdAtIso storeError
  | RequestUpdateExpense expense => updateExpense st expense storeError
  end.

(** *** BudgetForm *)

(** [amount && !isNaN(Number(amount)) && Number(amount) > 0], then
    [Number(amount)]. *)
Definition parseCategoryBudget (f : TextField) : option Qc :=
  match f with
  | EmptyText => None
  | Text None => None
  | Text (Some q) => if bool_decide (0 < q) then Some q else None
  end.

(** [handleSubmit] of the budget form: [None] when it returns without
    submitting, otherwise the [newBudget] handed to [updateBudget]. *)
Definition budgetHandleSubmit (st : AppState) (total : TextField)
    (categoryBudgets : gmap string TextField) (uuid : string) : option Budget :=
  let currentBudget :=
    List.find (λ b, bool_decide (month b = currentMonth st)) (budgets st) in
  if notNonNegative total then None
  else
    Some {| b_id := match currentBudget with
                    | Some b => if truthyString (b_id b) then b_id b else uuid
                    | None => uuid
                    end;
            month := currentMonth st;
            categories := omap parseCategoryBudget categoryBudgets;
            totalBudget := default 0 (fieldNumber total);
            b_userId := None |}.

(** The bound a savings goal is meant to keep. *)
Definition goalInvariant (g : SavingsGoal) : Prop :=
  0 ≤ currentAmount g ∧ currentAmount g ≤ targetAmount g.


(** ** Header and BudgetOverview *)

(** The header's [remainingBudget]:
    [(currentBudget?.totalBudget || 0) - currentMonthExpenses]. *)
Definition headerRemainingBudget (st : AppState) : Qc :=
  let currentMonthExpenses :=
    fold_left (λ sum expense, sum + amount expense)
      (filter (λ expense, String.prefix (currentMonth st) (date expense) = true)
         (expenses st)) 0 in
  let currentBudget :=
    List.find (λ b, bool_decide (month b = currentMonth st)) (budgets st) in
  let budgetAmount := Num.or_default (totalBudget <$> currentBudget) 0 in
  budgetAmount - currentMonthExpenses.

(** The first lines of [BudgetOverview]; [uuid] is drawn when the month has
    no budget. *)
Definition overviewCurrentBudget (st : AppState) (uuid : string) : Budget :=
  getCurrentBudget (budgets st) (currentMonth st) uuid.

Definition overviewMonthlyExpenses (st : AppState) : list Expense :=
  filterExpensesByMonth (expenses st) (currentMonth st).

Definition overviewTotalSpent (st : AppState) : Qc :=
  calculateMonthlyTotal (expenses st) (currentMonth st).

Definition overviewRemaining (st : AppState) (uuid : string) : Qc :=
  totalBudget (overviewCurrentBudget st uuid) - overviewTotalSpent st.

Definition overviewProgress (st : AppState) (uuid : string) : option Qc :=
  calculateBudgetProgress (overviewCurrentBudget st uuid) (expenses st).

(** [Array.from(new Set(array))]: the elements in the order of their first
    occurrence. *)
Definition arrayFromSet (array : list string) : list string :=
  fold_left (λ set x, if bool_decide (x ∈ set) then set else set ++ [x])
    array [].

(** [Object.keys(object)] lists the own keys of an object, each once, in an
    order that the finite map does not record: where it is read, the listing
    is given besides the map, as a list [keys] with [keysOf m keys]. *)
Definition keysOf (m : gmap string Qc) (keys : list string) : Prop :=
  NoDup keys ∧ ∀ k, k ∈ keys ↔ is_Some (m !! k).

(** [getActiveCategories()], where [categoriesWithBudget] is
    [Object.keys(currentBudget.categories)]. *)
Definition getActiveCategories (st : AppState)
    (categoriesWithBudget : list ExpenseCategory) : list ExpenseCategory :=
  let categoriesWithExpenses := category <$> overviewMonthlyExpenses st in
  arrayFromSet (categoriesWithBudget ++ categoriesWithExpenses).

(** [getCategoryTotal(category)] *)
Definition getCategoryTotal (st : AppState) (c : ExpenseCategory) : Qc :=
  fold_left (λ sum e, sum + amount e)
    (filter (λ e, category e = c) (overviewMonthlyExpenses st)) 0.

(** The [categoryProgress] of a row of the category breakdown:
    [budgeted ? (spent / budgeted) * 100 : spent > 0 ? 100 : 0], with
    [budgeted = currentBudget.categories[category] || 0]. *)
Definition overviewCategoryProgress (st : AppState) (uuid : string)
    (c : ExpenseCategory) : option Qc :=
  let budgeted :=
    Num.or_default (categories (overviewCurrentBudget st uuid) !! c) 0 in
  let spent := getCategoryTotal st c in
  if Num.truthy budgeted
  then q ← spent /? budgeted; Some (q * Qc_of_Z 100)
  else if Num.gt0 spent then Some (Qc_of_Z 100) else Some 0.


(** ** Digits of month keys *)

(** A number below 10000 written on four digits, and a number below 100
    written on two. *)
Definition fourDigits (n : nat) : string :=
  String (JsDate.digit (n / 1000)) (String (JsDate.digit (n / 100 mod 10))
    (String (JsDate.digit (n / 10 mod 10)) (String (JsDate.digit (n mod 10)) EmptyString))).

Definition twoDigits (n : nat) : string :=
  String (JsDate.digit (n / 10)) (String (JsDate.digit (n mod 10)) EmptyString).


(** ** Sorted views

    [array.sort(comparator)] is stable, and for a consistent comparator its
    result is the one order of the elements in which none is followed by an
    element the comparator puts before it.  It is computed here by inserting
    the elements, from the last to the first, each one before the first
    element it does not come after.  A comparator returns a number, of which
    [sort] reads the sign. *)

Fixpoint insertBy {A : Type} (comparator : A → A → Qc) (x : A) (l : list A)
  : list A :=
  match l with
  | [] => [x]
  | y :: l' =>
      if Num.gt0 (comparator x y) then y :: insertBy comparator x l'
      else x :: l
  end.

Definition jsSort {A : Type} (comparator : A → A → Qc) (l : list A) : list A :=
  foldr (insertBy comparator) [] l.

(** What [sort] asks of a comparator, read on the side of [≤ 0]. *)
Definition consistent {A : Type} (comparator : A → A → Qc) : Prop :=
  (∀ a b, 0 < comparator a b → comparator b a ≤ 0)
  ∧ (∀ a b c, comparator a b ≤ 0 → comparator b c ≤ 0 → comparator a c ≤ 0).

(** *** ExpenseList *)

Inductive SortField := ByDate | ByAmount.
Inductive SortDirection := Asc | Desc.

(** The state of the list: [searchTerm], [categoryFilter] (a category or
    'all'), [sortField] and [sortDirection]. *)
Record ListView := mkListView {
  searchTerm : string;
  categoryFilter : string;
  sortField : SortField;
  sortDirection : SortDirection
}.

(** [useState('')], [useState('all')], [useState('date')], [useState('desc')] *)
Definition initialView : ListView :=
  {| searchTerm := EmptyString; categoryFilter := "all";
     sortField := ByDate; sortDirection := Desc |}.

Definition handleSort (v : ListView) (field : SortField) : ListView :=
  match sortField v, field with
  | ByDate, ByDate | ByAmount, ByAmount =>
      {| searchTerm := searchTerm v; categoryFilter := categoryFilter v;
         sortField := sortField v;
         sortDirection :=
           match sortDirection v with Asc => Desc | Desc => Asc end |}
  | _, _ =>
      {| searchTerm := searchTerm v; categoryFilter := categoryFilter v;
         sortField := field; sortDirection := Desc |}
  end.

(** [s.includes(t)]: [t] starts at some position of [s]. *)
Fixpoint includes (s t : string) : bool :=
  String.prefix t s
  || match s with
     | EmptyString => false
     | String _ s' => includes s' t
     end.

(** The predicate of the [filter] of [filteredAndSortedExpenses];
    [toLowerCase] is the built-in of strings. *)
Definition matchesExpense (toLowerCase : string → string) (st : AppState)
    (v : ListView) (expense : Expense) : bool :=
  let matchesMonth := String.prefix (currentMonth st) (date expense) in
  let matchesSearch :=
    includes (toLowerCase (description expense))
             (toLowerCase (searchTerm v)) in
  let matchesCategory :=
    bool_decide (categoryFilter v = "all")
    || bool_decide (category expense = categoryFilter v) in
  matchesMonth && matchesSearch && matchesCategory.

(** The comparator of the [sort] of [filteredAndSortedExpenses];
    [getTime s] is [new Date(s).getTime()], on dates that parse. *)
Definition expenseComparator (getTime : string → Qc) (v : ListView)
    (a b : Expense) : Qc :=
  match sortField v with
  | ByDate =>
      let dateA := getTime (date a) in
      let dateB := getTime (date b) in
      match sortDirection v with Asc => dateA - dateB | Desc => dateB - dateA end
  | ByAmount =>
      match sortDirection v with
      | Asc => amount a - amount b
      | Desc => amount b - amount a
      end
  end.

Definition filteredAndSortedExpenses (toLowerCase : string → string)
    (getTime : string → Qc) (st : AppState) (v : ListView) : list Expense :=
  jsSort (expenseComparator getTime v)
    (filter (λ expense, matchesExpense toLowerCase st v expense = true)
       (expenses st)).

(** *** SavingsGoalList *)




(** *** SpendingInsights *)

Definition currentMonthExpenses (st : AppState) : list Expense :=
  filter (λ exp, String.prefix (currentMonth st) (date exp) = true)
    (expenses st).

(** [currentMonthExpensesByCategory()]: the loop body is the one of
    [calculateExpensesByCategory]. *)
Definition currentMonthExpensesByCategory (st : AppState) : gmap string Qc :=
  fold_left addToCategory (currentMonthExpenses st) ∅.

(** [Object.entries(currentExpenses)].  An object lists its keys in the order
    in which they were first set (category names are not array indices):
    here the order in which the categories first occur among the expenses of
    the month. *)
Definition categoryEntries (st : AppState) : list (string * Qc) :=
  let currentExpenses := currentMonthExpensesByCategory st in
  omap (λ c, (λ x, (c, x)) <$> currentExpenses !! c)
    (arrayFromSet (category <$> currentMonthExpenses st)).

(** [getTopCategories()] *)
Definition getTopCategories (st : AppState) : list ExpenseCategory :=
  (take 5 (jsSort (λ a b : string * Qc, b.2 - a.2) (categoryEntries st))).*1.

(** [[...monthlySummaries].sort((a, b) => b.total - a.total)[0]] *)
Definition highestMonth (st : AppState) : option MonthlyTotal :=
  head (jsSort (λ a b, total b - total a) (monthlySummaries st)).

(** [[...monthlySummaries].filter(m => m.total > 0)
       .sort((a, b) => a.total - b.total)[0]] *)
Definition lowestMonth (st : AppState) : option MonthlyTotal :=
  head (jsSort (λ a b, total a - total b)
          (filter (λ m, Num.gt0 (total m) = true) (monthlySummaries st))).


(** *** BudgetForm: the allocation shown

    [Object.values(categoryBudgets).filter(amount => amount !== '')
       .reduce((sum, amount) => sum + Number(amount), 0)]; it has no value
    when a field is not a number. *)
Definition allocatedAmount (categoryBudgets : gmap string TextField)
  : option Qc :=
  fold_left (λ sum amount, s ← sum; n ← fieldNumber amount; Some (s + n))
    (filter (λ amount, fieldIsEmpty amount = false)
       (map_to_list categoryBudgets).*2)
    (Some 0).

(** [totalBudget ? Number(totalBudget) - allocatedAmount : 0] *)
Definition unallocatedAmount (totalBudget : TextField)
    (categoryBudgets : gmap string TextField) : option Qc :=
  if fieldIsEmpty totalBudget then Some 0
  else t ← fieldNumber totalBudget;
       a ← allocatedAmount categoryBudgets;
       Some (t - a).

(** A state with the summaries of three months: nothing spent in April,
    80 in May, 180 in June. *)
Definition sampleStats : AppState :=
  {| expenses := []; budgets := []; savingsGoals := [];
     currentMonth := "2024-06";
     monthlySummaries :=
       [ {| mt_month := "2024-04"; total := 0; mt_categories := ∅ |};
         {| mt_month := "2024-05"; total := Qc_of_Z 80; mt_categories := ∅ |};
         {| mt_month := "2024-06"; total := Qc_of_Z 180;
            mt_categories := ∅ |} ];
     user := None |}.

(** ** The core functions on the heap

    JavaScript passes arrays and objects by sharing: a callee holds
    references, it can write to the objects behind its arguments, and it can
    read the clock.  This module is the core functions once more with these
    effects in sight: a world is the heap of the objects and the clock, a
    computation maps a world to its result and the world it leaves, or to
    nothing when it throws (a reference that is not of the expected kind). *)

Module Js.

Definition Loc := nat.

(** The objects of the heap: the records of types/index.ts, arrays of
    expenses, objects used as maps from categories to numbers, [Date]
    objects, and the entries and the array of the rolling summary. *)
Inductive Cell :=
  | ExpenseCell (e : Expense)
  | BudgetCell (b : Budget)
  | GoalCell (g : SavingsGoal)
  | ExpenseArray (items : list Loc)
  | NumberObject (m : gmap string Qc)
  | DateCell (d : JsDate.t)
  | MonthlyCell (m : string) (t : Qc) (categories : Loc)
  | SummaryArray (items : list Loc).

Record World := mkWorld { heap : list Cell; clock : JsDate.t }.

Definition M (A : Type) : Type := World → option (A * World).

Definition ret {A : Type} (a : A) : M A := λ w, Some (a, w).

Definition bind {A B : Type} (m : M A) (f : A → M B) : M B :=
  λ w, match m w with
       | Some (a, w') => f a w'
       | None => None
       end.

Definition throw {A : Type} : M A := λ _, None.

Notation "'do!' x := m 'in' k" := (bind m (λ x, k))
  (at level 10, x name, m at level 100, k at level 200).

(** Reading the object behind a reference. *)
Definition load (l : Loc) : M Cell :=
  λ w, match heap w !! l with
       | Some c => Some (c, w)
       | None => None
       end.

(** A new object: its reference is the next free location. *)
Definition alloc (c : Cell) : M Loc :=
  λ w, Some (length (heap w), {| heap := heap w ++ [c]; clock := clock w |}).

(** Writing to the object behind a reference. *)
Definition store (l : Loc) (c : Cell) : M unit :=
  λ w, if decide (l < length (heap w))%nat
       then Some (tt, {| heap := <[l := c]> (heap w); clock := clock w |})
       else None.

(** [new Date()]: a new [Date] object holding the reading of the clock. *)
Definition newDate : M Loc := λ w, alloc (DateCell (clock w)) w.

Definition loadExpense (l : Loc) : M Expense :=
  do! c := load l in
  match c with ExpenseCell e => ret e | _ => throw end.

Definition loadBudget (l : Loc) : M Budget :=
  do! c := load l in
  match c with BudgetCell b => ret b | _ => throw end.

Definition loadGoal (l : Loc) : M SavingsGoal :=
  do! c := load l in
  match c with GoalCell g => ret g | _ => throw end.

Definition loadArray (l : Loc) : M (list Loc) :=
  do! c := load l in
  match c with ExpenseArray items => ret items | _ => throw end.

Definition loadObject (l : Loc) : M (gmap string Qc) :=
  do! c := load l in
  match c with NumberObject m => ret m | _ => throw end.

Definition loadDate (l : Loc) : M JsDate.t :=
  do! c := load l in
  match c with DateCell d => ret d | _ => throw end.

Definition loadSummary (l : Loc) : M (list Loc) :=
  do! c := load l in
  match c with SummaryArray items => ret items | _ => throw end.

(** [items.filter(predicate)], [items.reduce(f, acc)] and
    [items.forEach(f)] over the elements of an array. *)
Fixpoint filterM (predicate : Loc → M bool) (items : list Loc)
  : M (list Loc) :=
  match items with
  | [] => ret []
  | l :: rest =>
      do! keep := predicate l in
      do! kept := filterM predicate rest in
      ret (if keep : bool then l :: kept else kept)
  end.

Fixpoint reduceM {A : Type} (f : A → Loc → M A) (items : list Loc) (acc : A)
  : M A :=
  match items with
  | [] => ret acc
  | l :: rest => do! acc' := f acc l in reduceM f rest acc'
  end.

Fixpoint forEachM (f : Loc → M unit) (items : list Loc) : M unit :=
  match items with
  | [] => ret tt
  | l :: rest => do! _ := f l in forEachM f rest
  end.

(** [expenses.filter(expense => expense.date.startsWith(month))]: a new
    array of the same expense objects. *)
Definition filterExpensesByMonth (expenses : Loc) (m : string) : M Loc :=
  do! items := loadArray expenses in
  do! kept := filterM (λ l, do! expense := loadExpense l in
                            ret (String.prefix m (date expense))) items in
  alloc (ExpenseArray kept).

(** [array.reduce((total, expense) => total + expense.amount, 0)] *)
Definition sumAmounts (array : Loc) : M Qc :=
  do! items := loadArray array in
  reduceM (λ total l, do! expense := loadExpense l in
                      ret (total + amount expense)) items 0.

Definition calculateMonthlyTotal (expenses : Loc) (m : string) : M Qc :=
  do! filtered := filterExpensesByMonth expenses m in
  sumAmounts filtered.

(** The body of the [forEach]: two writes to the object [result]. *)
Definition addToCategory (result : Loc) (l : Loc) : M unit :=
  do! expense := loadExpense l in
  do! r := loadObject result in
  do! _ :=
    (if match r !! category expense with
        | Some v => Num.truthy v
        | None => false
        end
     then ret tt
     else store result (NumberObject (<[category expense := 0]> r))) in
  do! r1 := loadObject result in
  match r1 !! category expense with
  | Some v =>
      store result
        (NumberObject (<[category expense := v + amount expense]> r1))
  | None => ret tt
  end.

Definition calculateExpensesByCategory (expenses : Loc) (m : string)
  : M Loc :=
  do! result := alloc (NumberObject ∅) in
  do! filtered := filterExpensesByMonth expenses m in
  do! items := loadArray filtered in
  do! _ := forEachM (addToCategory result) items in
  ret result.

Definition calculateBudgetProgress (budget expenses : Loc)
  : M (option Qc) :=
  do! b := loadBudget budget in
  do! monthlyTotal := calculateMonthlyTotal expenses (month b) in
  do! b' := loadBudget budget in
  ret (if Num.gt0 (totalBudget b')
       then q ← monthlyTotal /? totalBudget b'; Some (q * Qc_of_Z 100)
       else Some 0).

Definition calculateCategoryBudgetProgress (budget expenses : Loc)
    (c : ExpenseCategory) : M (option Qc) :=
  do! b := loadBudget budget in
  let categoryBudget := Num.or_default (categories b !! c) 0 in
  do! b' := loadBudget budget in
  do! ofMonth := filterExpensesByMonth expenses (month b') in
  do! items := loadArray ofMonth in
  do! kept := filterM (λ l, do! e := loadExpense l in
                            ret (bool_decide (category e = c))) items in
  do! ofCategory := alloc (ExpenseArray kept) in
  do! categoryExpenses := sumAmounts ofCategory in
  ret (if Num.gt0 categoryBudget
       then q ← categoryExpenses /? categoryBudget; Some (q * Qc_of_Z 100)
       else Some 0).

Definition calculateSavingsProgress (goal : Loc) : M (option Qc) :=
  do! g := loadGoal goal in
  ret (if Num.gt0 (targetAmount g)
       then q ← currentAmount g /? targetAmount g; Some (q * Qc_of_Z 100)
       else Some 0).

(** The body of the loop of [getLastSixMonthsSummary] at offset [i]. *)
Definition summaryStep (expenses result currentDate : Loc) (i : Z)
  : M unit :=
  do! now := loadDate currentDate in
  do! date := alloc (DateCell now) in
  do! now' := loadDate currentDate in
  do! d := loadDate date in
  do! _ := store date
             (DateCell (JsDate.setMonth d (JsDate.getMonth now' - i)%Z)) in
  do! d' := loadDate date in
  do! monthlyExpenses :=
    filterExpensesByMonth expenses (JsDate.formatYearMonth d') in
  do! total := sumAmounts monthlyExpenses in
  do! categories := alloc (NumberObject ∅) in
  do! items := loadArray monthlyExpenses in
  do! _ := forEachM (addToCategory categories) items in
  do! entry :=
    alloc (MonthlyCell (JsDate.formatYearMonth d') total categories) in
  do! r := loadSummary result in
  store result (SummaryArray (r ++ [entry])).

(** [for (let i = ...; ...; i++) body], with [steps] iterations left. *)
Fixpoint forLoop (steps : nat) (i : Z) (body : Z → M unit) : M unit :=
  match steps with
  | O => ret tt
  | S steps' => do! _ := body i in forLoop steps' (i + 1)%Z body
  end.

(** [getLastSixMonthsSummary(expenses)]; [result.reverse()] reverses the
    array in place. *)
Definition getLastSixMonthsSummary (expenses : Loc) : M Loc :=
  do! result := alloc (SummaryArray []) in
  do! currentDate := newDate in
  do! _ := forLoop 6 0%Z (summaryStep expenses result currentDate) in
  do! r := loadSummary result in
  do! _ := store result (SummaryArray (rev r)) in
  ret result.

(** A call of a core function, on references and strings, and the value it
    returns: a reference or a number. *)
Inductive Call :=
  | Filter (expenses : Loc) (m : string)
  | Total (expenses : Loc) (m : string)
  | ByCategory (expenses : Loc) (m : string)
  | BudgetProgress (budget expenses : Loc)
  | CategoryProgress (budget expenses : Loc) (c : ExpenseCategory)
  | SavingsProgress (goal : Loc)
  | Summary (expenses : Loc).

Inductive Value :=
  | Reference (l : Loc)
  | Number (n : option Qc).

Definition run (c : Call) : M Value :=
  match c with
  | Filter expenses m =>
      do! l := filterExpensesByMonth expenses m in ret (Reference l)
  | Total expenses m =>
      do! n := calculateMonthlyTotal expenses m in ret (Number (Some n))
  | ByCategory expenses m =>
      do! l := calculateExpensesByCategory expenses m in ret (Reference l)
  | BudgetProgress budget expenses =>
      do! n := calculateBudgetProgress budget expenses in ret (Number n)
  | CategoryProgress budget expenses c =>
      do! n := calculateCategoryBudgetProgress budget expenses c in
      ret (Number n)
  | SavingsProgress goal =>
      do! n := calculateSavingsProgress goal in ret (Number n)
  | Summary expenses =>
      do! l := getLastSixMonthsSummary expenses in ret (Reference l)
  end.

(** What the references stand for.  [expensesAt w l es]: in the world [w]
    the reference [l] is an array whose elements are the expenses [es]. *)
Definition expensesAt (w : World) (l : Loc) (es : list Expense) : Prop :=
  ∃ items, heap w !! l = Some (ExpenseArray items)
           ∧ Forall2 (λ i e, heap w !! i = Some (ExpenseCell e)) items es.

Definition entryAt (w : World) (l : Loc) (entry : MonthlyTotal) : Prop :=
  ∃ categories,
    heap w !! l = Some (MonthlyCell (mt_month entry) (total entry) categories)
    ∧ heap w !! categories = Some (NumberObject (mt_categories entry)).

Definition summaryAt (w : World) (l : Loc) (entries : list MonthlyTotal)
  : Prop :=
  ∃ items, heap w !! l = Some (SummaryArray items)
           ∧ Forall2 (entryAt w) items entries.

(** The arguments of the call [c] stand, in [w], for the values of the
    arguments of [pure]. *)
Definition argsAt (w : World) (c : Call) (pure : CoreCall) : Prop :=
  match c, pure with
  | Filter l m, FilterExpensesByMonth es m' => expensesAt w l es ∧ m = m'
  | Total l m, CalculateMonthlyTotal es m' => expensesAt w l es ∧ m = m'
  | ByCategory l m, CalculateExpensesByCategory es m' =>
      expensesAt w l es ∧ m = m'
  | BudgetProgress bl l, CalculateBudgetProgress b es =>
      heap w !! bl = Some (BudgetCell b) ∧ expensesAt w l es
  | CategoryProgress bl l c, CalculateCategoryBudgetProgress b es c' =>
      heap w !! bl = Some (BudgetCell b) ∧ expensesAt w l es ∧ c = c'
  | SavingsProgress gl, CalculateSavingsProgress g =>
      heap w !! gl = Some (GoalCell g)
  | Summary l, GetLastSixMonthsSummary es => expensesAt w l es
  | _, _ => False
  end.

(** The value [v] stands, in [w], for the result [r]. *)
Definition resultAt (w : World) (v : Value) (r : CoreResult) : Prop :=
  match v, r with
  | Reference l, ExpensesResult es => expensesAt w l es
  | Number n, NumberResult n' => n = n'
  | Reference l, ByCategoryResult m => heap w !! l = Some (NumberObject m)
  | Reference l, SummaryResult entries => summaryAt w l entries
  | _, _ => False
  end.

(** What holds between two rounds of the loop of [getLastSixMonthsSummary]
    called on the heap [h0]: the objects of [h0] are as they were, the array
    [result], made after them, holds the entries built so far, and
    [currentDate] holds the reading of the clock. *)
Definition loopInvariant (h0 h : list Cell) (c : JsDate.t)
    (expenses result currentDate : Loc) (now : JsDate.t)
    (es : list Expense) (entries : list MonthlyTotal) : Prop :=
  h0 `prefix_of` h
  ∧ (length h0 ≤ result)%nat
  ∧ expensesAt (mkWorld h c) expenses es
  ∧ h !! currentDate = Some (DateCell now)
  ∧ summaryAt (mkWorld h c) result entries.

(** [returns m w Q]: from the world [w] the computation [m] does not throw,
    and its result and the world it leaves satisfy [Q]. *)
Definition returns {A : Type} (m : M A) (w : World) (Q : A → World → Prop)
  : Prop :=
  ∃ a w', m w = Some (a, w') ∧ Q a w'.

(** The three expenses of June 2024 and the array that holds them, on the
    given day. *)
Definition juneWorld (now : JsDate.t) : World :=
  {| heap := (ExpenseCell <$> juneExpenses) ++ [ExpenseArray [0%nat; 1%nat; 2%nat]];
     clock := now |}.

End Js.

(** ** The aggregation in binary64

    The amounts of the running program are IEEE 754 binary64 numbers, and
    every [+] of the aggregation rounds.  This module holds the aggregation
    functions and the rolling summary once more, with the primitive binary64
    numbers in the place of the exact ones; it is used where a property
    depends on the rounding of the additions. *)

Module Double.
#[local] Set Warnings "-inexact-float".

Record Expense := mkExpense {
  e_id : string;
  amount : float;
  description : string;
  category : string;
  date : string;
  createdAt : string;
  e_userId : string
}.

Record MonthlyTotal := mkMonthlyTotal {
  mt_month : string;
  total : float;
  mt_categories : gmap string float
}.

(** Truthiness of a number: [0], [-0] and NaN are falsy. *)
Definition truthy (x : float) : bool :=
  negb (PrimFloat.eqb x 0%float || PrimFloat.is_nan x).

Definition filterExpensesByMonth (expenses : list Expense) (m : string)
  : list Expense :=
  filter (λ e, String.prefix m (date e) = true) expenses.

Definition calculateMonthlyTotal (expenses : list Expense) (m : string)
  : float :=
  fold_left (λ total expense, PrimFloat.add total (amount expense))
    (filterExpensesByMonth expenses m) 0%float.

Definition addToCategory (result : gmap string float) (e : Expense)
  : gmap string float :=
  let c := category e in
  let result1 :=
    match result !! c with
    | Some v => if truthy v then result else <[c := 0%float]> result
    | None => <[c := 0%float]> result
    end in
  match result1 !! c with
  | Some v => <[c := PrimFloat.add v (amount e)]> result1
  | None => result1
  end.

Definition calculateExpensesByCategory (expenses : list Expense) (m : string)
  : gmap string float :=
  fold_left addToCategory (filterExpensesByMonth expenses m) ∅.

(** The sum of the values of a per-category map, its keys taken in the order
    [keys] (an object lists its keys in the order they were first set). *)
Definition sumValuesIn (keys : list string) (m : gmap string float) : float :=
  fold_left (λ sum k, match m !! k with
                      | Some v => PrimFloat.add sum v
                      | None => sum
                      end) keys 0%float.

Definition summaryEntry (currentDate : JsDate.t) (expenses : list Expense)
    (i : Z) : MonthlyTotal :=
  let date := JsDate.setMonth currentDate (JsDate.getMonth currentDate - i)%Z in
  let monthStr := JsDate.formatYearMonth date in
  let monthlyExpenses := filterExpensesByMonth expenses monthStr in
  let total :=
    fold_left (λ sum exp, PrimFloat.add sum (amount exp)) monthlyExpenses
      0%float in
  let categories := fold_left addToCategory monthlyExpenses ∅ in
  {| mt_month := monthStr; total := total; mt_categories := categories |}.

Fixpoint summaryLoop (currentDate : JsDate.t) (expenses : list Expense)
    (steps : nat) (i : Z) (result : list MonthlyTotal) : list MonthlyTotal :=
  match steps with
  | O => result
  | S steps' =>
      summaryLoop currentDate expenses steps' (i + 1)%Z
        (result ++ [summaryEntry currentDate expenses i])
  end.

Definition getLastSixMonthsSummary (currentDate : JsDate.t)
    (expenses : list Expense) : list MonthlyTotal :=
  rev (summaryLoop currentDate expenses 6 0%Z []).

(** An expense of [a] in category [c] on the day [d]. *)
Definition sampleExpense (a : float) (c d : string) : Expense :=
  {| e_id := "e"; amount := a; description := "sample"; category := c;
     date := d; createdAt := d; e_userId := "u" |}.

(** [{amount: 0.1, food}, {amount: 0.1, housing}, {amount: 0.4, food}], all
    of June 2024. *)
Definition tenths : list Expense :=
  [ sampleExpense 0.1%float "food" "2024-06-01";
    sampleExpense 0.1%float "housing" "2024-06-02";
    sampleExpense 0.4%float "food" "2024-06-15" ].

End Double.

(** * Properties *)

(** ** Sums *)

Section Sums.
Implicit Types (es : list Expense) (m : gmap string Qc) (c : string).

Lemma fold_amount_acc es (a : Qc) :
  fold_left (λ acc e, acc + amount e) es a = a + sumList (amount <$> es).
Proof.
  revert a. induction es as [|e es IH]; intros a; simpl.
  - by rewrite Qcplus_0_r.
  - rewrite IH. by rewrite Qcplus_assoc.
Qed.

Lemma sumAmounts_sumList es : sumAmounts es = sumList (amount <$> es).
Proof. unfold sumAmounts. rewrite fold_amount_acc. apply Qcplus_0_l. Qed.

Lemma sumAmounts_nil : sumAmounts [] = 0.
Proof. reflexivity. Qed.

Lemma sumAmounts_cons e es : sumAmounts (e :: es) = amount e + sumAmounts es.
Proof. by rewrite !sumAmounts_sumList. Qed.

Lemma sumValues_empty : sumValues ∅ = 0.
Proof. unfold sumValues. by rewrite map_fold_empty. Qed.

Lemma sumValues_insert_fresh m c (x : Qc) :
  m !! c = None → sumValues (<[c := x]> m) = sumValues m + x.
Proof.
  intros Hc. unfold sumValues. rewrite map_fold_insert_L; [done| |done].
  intros j1 j2 z1 z2 y _ _ _.
  rewrite <-!Qcplus_assoc. f_equal. apply Qcplus_comm.
Qed.

Lemma sumValues_delete m c (v : Qc) :
  m !! c = Some v → sumValues m = sumValues (delete c m) + v.
Proof.
  intros Hc. rewrite <-(insert_delete_id m c v Hc) at 1.
  apply sumValues_insert_fresh, lookup_delete_eq.
Qed.

Lemma sumValues_insert m c (x : Qc) :
  sumValues (<[c := x]> m) = sumValues m - default 0 (m !! c) + x.
Proof.
  rewrite <-insert_delete_eq.
  rewrite sumValues_insert_fresh by apply lookup_delete_eq.
  f_equal. destruct (m !! c) as [v|] eqn:Hc; simpl.
  - rewrite (sumValues_delete m c v Hc). ring.
  - rewrite delete_id by done. ring.
Qed.

End Sums.

(** ** The per-category accumulation *)

Section ByCategory.
Implicit Types (es : list Expense) (m : gmap string Qc) (c : string).

Lemma truthy_false (v : Qc) : Num.truthy v = false → v = 0.
Proof.
  unfold Num.truthy. intros H. apply negb_false_iff in H.
  by apply bool_decide_eq_true in H.
Qed.

(** One round of the loop adds the amount to the category's entry, a missing
    entry counting as zero. *)
Lemma addToCategory_insert m e :
  addToCategory m e
  = <[category e := default 0 (m !! category e) + amount e]> m.
Proof.
  unfold addToCategory.
  destruct (m !! category e) as [v|] eqn:Hc; simpl.
  - destruct (Num.truthy v) eqn:Hv.
    + by rewrite Hc.
    + apply truthy_false in Hv. subst v.
      rewrite lookup_insert_eq. by rewrite insert_insert_eq.
  - rewrite lookup_insert_eq. by rewrite insert_insert_eq.
Qed.

Lemma addToCategory_lookup_eq m e :
  addToCategory m e !! category e
  = Some (default 0 (m !! category e) + amount e).
Proof. rewrite addToCategory_insert. apply lookup_insert_eq. Qed.

Lemma addToCategory_lookup_ne m e c :
  category e ≠ c → addToCategory m e !! c = m !! c.
Proof. intros. rewrite addToCategory_insert. by apply lookup_insert_ne. Qed.

Lemma addToCategory_sumValues m e :
  sumValues (addToCategory m e) = sumValues m + amount e.
Proof.
  rewrite addToCategory_insert, sumValues_insert.
  destruct (m !! category e); simpl; ring.
Qed.

Lemma fold_addToCategory_sumValues es m :
  sumValues (fold_left addToCategory es m) = sumValues m + sumAmounts es.
Proof.
  revert m. induction es as [|e es IH]; intros m; simpl.
  - rewrite sumAmounts_nil. ring.
  - rewrite IH, addToCategory_sumValues, sumAmounts_cons. ring.
Qed.

(** After the loop, the entry of [c] is what it was plus the amounts of the
    expenses of category [c]; it exists when it did or when there was one. *)
Lemma fold_addToCategory_lookup es m c :
  fold_left addToCategory es m !! c
  = match ofCategory c es with
    | [] => m !! c
    | _ :: _ => Some (default 0 (m !! c) + sumAmounts (ofCategory c es))
    end.
Proof.
  revert m. induction es as [|e es IH]; intros m; simpl; [done|].
  rewrite IH. unfold ofCategory. rewrite filter_cons.
  destruct (decide (category e = c)) as [<-|Hne].
  - rewrite addToCategory_lookup_eq. simpl.
    rewrite sumAmounts_cons.
    destruct (filter _ es) as [|e' es'] eqn:Hf.
    + rewrite sumAmounts_nil. f_equal. ring.
    + f_equal. ring.
  - by rewrite addToCategory_lookup_ne.
Qed.

Lemma byCategory_lookup es c :
  fold_left addToCategory es ∅ !! c
  = match ofCategory c es with
    | [] => None
    | _ :: _ => Some (sumList (amount <$> ofCategory c es))
    end.
Proof.
  rewrite fold_addToCategory_lookup, lookup_empty. simpl.
  destruct (ofCategory c es) eqn:Hf; [done|].
  by rewrite Qcplus_0_l, sumAmounts_sumList.
Qed.

Lemma byCategory_sumValues es :
  sumValues (fold_left addToCategory es ∅) = sumAmounts es.
Proof. rewrite fold_addToCategory_sumValues, sumValues_empty. ring. Qed.

Lemma byCategory_dom es c :
  c ∈ dom (fold_left addToCategory es ∅) ↔ ∃ e, e ∈ es ∧ category e = c.
Proof.
  rewrite elem_of_dom, byCategory_lookup.
  destruct (ofCategory c es) as [|e0 l] eqn:Hf; split.
  - intros [? ?]. done.
  - intros (e & He & Hc).
    assert (e ∈ ofCategory c es) as Hin by (by apply list_elem_of_filter).
    rewrite Hf in Hin. by inversion Hin.
  - intros _. exists e0.
    assert (e0 ∈ ofCategory c es) as Hin by (rewrite Hf; left).
    apply list_elem_of_filter in Hin as [Hc He]. eauto.
  - intros _. by eexists.
Qed.

End ByCategory.

(** ** Aggregation by month *)

Lemma Qc_of_Z_Q2Qc (z : Z) : Q2Qc (inject_Z z) = Qc_of_Z z.
Proof. apply Qc_is_canon. simpl. apply Qred_correct. Qed.

Lemma filterExpensesByMonth_elem (es : list Expense) (m : string) (e : Expense) :
  e ∈ filterExpensesByMonth es m ↔ String.prefix m (date e) = true ∧ e ∈ es.
Proof.
  unfold filterExpensesByMonth.
  apply (list_elem_of_filter (λ x, String.prefix m (date x) = true)).
Qed.

Lemma fold_amount_inOrder (es : list Expense) (a : Qc) :
  fold_left (λ acc e, acc + amount e) es a
  = fold_left Qcplus (amount <$> es) a.
Proof. revert a. induction es as [|e es IH]; intros a; [done|apply IH]. Qed.

Lemma sumAmounts_inOrder (es : list Expense) :
  sumAmounts es = sumInOrder (amount <$> es).
Proof. apply fold_amount_inOrder. Qed.

Lemma calculateMonthlyTotal_sumList (es : list Expense) (m : string) :
  calculateMonthlyTotal es m = sumList (amount <$> filterExpensesByMonth es m).
Proof. apply sumAmounts_sumList. Qed.

(** C3. For every expense collection and month key:
    (a) [filterExpensesByMonth] returns exactly the expenses whose date string
        starts with the key: every selected expense matches, the selected ones
        keep their order, and together with the non-matching ones they make up
        the collection;
    (b) [calculateMonthlyTotal] is the sum of the amounts of that subset;
    (c) [calculateExpensesByCategory] maps a category to the sum of the
        amounts of the subset's expenses of that category, and has no entry
        for a category without such an expense;
    (d) with no matching expense the results are the empty list, 0 and the
        empty map (the functions are total, there is no error result);
    (e) on the three expenses of June 2024 the total is 180 and the
        per-category totals are food 150 and housing 30. *)
Theorem aggregation_by_month (es : list Expense) (m : string) :
  (Forall (λ e, String.prefix m (date e) = true) (filterExpensesByMonth es m)
   ∧ filterExpensesByMonth es m `sublist_of` es
   ∧ filterExpensesByMonth es m
       ++ filter (λ e, ¬ String.prefix m (date e) = true) es ≡ₚ es)
  ∧ calculateMonthlyTotal es m
    = sumList (amount <$> filterExpensesByMonth es m)
  ∧ (∀ c, calculateExpensesByCategory es m !! c
          = match ofCategory c (filterExpensesByMonth es m) with
            | [] => None
            | sel => Some (sumList (amount <$> sel))
            end)
  ∧ (filterExpensesByMonth es m = [] →
       calculateMonthlyTotal es m = 0 ∧ calculateExpensesByCategory es m = ∅)
  ∧ (calculateMonthlyTotal juneExpenses "2024-06" = Qc_of_Z 180
     ∧ calculateExpensesByCategory juneExpenses "2024-06"
       = {[ "food" := Qc_of_Z 150; "housing" := Qc_of_Z 30 ]}).
Proof.
  split; [|split; [|split; [|split]]].
  - split; [|split].
    + apply Forall_forall. intros e He.
      by apply filterExpensesByMonth_elem in He as [? _].
    + apply sublist_filter.
    + apply filter_app_complement.
  - apply calculateMonthlyTotal_sumList.
  - intros c. unfold calculateExpensesByCategory.
    rewrite byCategory_lookup. by destruct (ofCategory _ _).
  - intros Hnil. unfold calculateMonthlyTotal, calculateExpensesByCategory.
    by rewrite Hnil.
  - split.
    + apply Qc_is_canon. by vm_compute.
    + rewrite <-!Qc_of_Z_Q2Qc. vm_compute. reflexivity.
Qed.

Lemma aggregation_by_month_witness :
  filterExpensesByMonth juneExpenses "2025-01" = []
  ∧ calculateMonthlyTotal juneExpenses "2025-01" = 0
  ∧ calculateExpensesByCategory juneExpenses "2025-01" = ∅.
Proof.
  assert (filterExpensesByMonth juneExpenses "2025-01" = []) as Hnil
    by reflexivity.
  split; [exact Hnil|].
  exact (proj1 (proj2 (proj2 (proj2
           (aggregation_by_month juneExpenses "2025-01")))) Hnil).
Defined.

Section Binary64.
#[local] Set Warnings "-inexact-float".

(** Against C4 as it is stated: in the binary64 arithmetic of the program the
    category values do not add up to the monthly total.  For 0.1 on food, 0.1
    on housing and 0.4 on food, all of one month, the total is
    0.6000000000000001, the category values are 0.5 and 0.1, and their sum,
    in either order of the keys, is 0.6. *)
Lemma totals_differ_in_binary64 :
  Double.calculateMonthlyTotal Double.tenths "2024-06"
  = 0.6000000000000001%float
  ∧ Double.calculateExpensesByCategory Double.tenths "2024-06"
    = {[ "food" := 0.5%float; "housing" := 0.1%float ]}
  ∧ Double.sumValuesIn ["food"; "housing"]
      (Double.calculateExpensesByCategory Double.tenths "2024-06")
    = 0.6%float
  ∧ Double.sumValuesIn ["housing"; "food"]
      (Double.calculateExpensesByCategory Double.tenths "2024-06")
    = 0.6%float
  ∧ PrimFloat.eqb
      (Double.sumValuesIn ["food"; "housing"]
         (Double.calculateExpensesByCategory Double.tenths "2024-06"))
      (Double.calculateMonthlyTotal Double.tenths "2024-06") = false
  ∧ PrimFloat.eqb
      (Double.sumValuesIn ["housing"; "food"]
         (Double.calculateExpensesByCategory Double.tenths "2024-06"))
      (Double.calculateMonthlyTotal Double.tenths "2024-06") = false.
Proof. repeat split; vm_compute; reflexivity. Qed.

(** Against C10 as it is stated: with the same three expenses, on 15 June
    2024, the entry of June in the rolling summary has the total
    0.6000000000000001 while the values of its per-category map, 0.5 and 0.1,
    sum to 0.6. *)
Lemma summary_entry_differs_in_binary64 :
  last (Double.getLastSixMonthsSummary (noon 2024 6 15) Double.tenths)
  = Some {| Double.mt_month := "2024-06";
            Double.total := 0.6000000000000001%float;
            Double.mt_categories :=
              {[ "food" := 0.5%float; "housing" := 0.1%float ]} |}
  ∧ Double.sumValuesIn ["food"; "housing"]
      {[ "food" := 0.5%float; "housing" := 0.1%float ]} = 0.6%float
  ∧ Double.sumValuesIn ["housing"; "food"]
      {[ "food" := 0.5%float; "housing" := 0.1%float ]} = 0.6%float
  ∧ PrimFloat.eqb 0.6%float 0.6000000000000001%float = false.
Proof. repeat split; vm_compute; reflexivity. Qed.

End Binary64.

(** C4 (amended). For all expense collections and month keys, the amounts of
    [filterExpensesByMonth], added in their order, give
    [calculateMonthlyTotal]; and when the additions are exact, as they are in
    this development, the sum of the values of [calculateExpensesByCategory]
    over all its categories equals [calculateMonthlyTotal].  (With the
    rounding of binary64 the sum of the values and the total can differ, as
    they do for the amounts 0.1, 0.1 and 0.4 above.) *)
Theorem totals_agree (es : list Expense) (m : string) :
  sumInOrder (amount <$> filterExpensesByMonth es m)
  = calculateMonthlyTotal es m
  ∧ sumValues (calculateExpensesByCategory es m) = calculateMonthlyTotal es m.
Proof.
  split.
  - symmetry. apply sumAmounts_inOrder.
  - unfold calculateExpensesByCategory, calculateMonthlyTotal.
    apply byCategory_sumValues.
Qed.

(** ** Progress calculators *)

Section Percent.
Implicit Types (spent limit : Qc).

Lemma gt0_true limit : Num.gt0 limit = true ↔ 0 < limit.
Proof. unfold Num.gt0. apply bool_decide_eq_true. Qed.

Lemma gt0_false limit : Num.gt0 limit = false ↔ ¬ 0 < limit.
Proof. unfold Num.gt0. apply bool_decide_eq_false. Qed.

Lemma pos_nonzero limit : 0 < limit → limit ≠ 0.
Proof. intros Hlt ->. by apply (Qclt_not_eq 0 0). Qed.

Lemma div_defined spent limit : limit ≠ 0 → spent /? limit = Some (spent / limit).
Proof. intros Hne. unfold Num.div. by rewrite bool_decide_eq_false_2. Qed.

Lemma percentOf_pos spent limit :
  0 < limit → percentOf spent limit = Some (spent / limit * Qc_of_Z 100).
Proof.
  intros Hlt. unfold percentOf.
  rewrite (proj2 (gt0_true limit) Hlt).
  by rewrite div_defined by by apply pos_nonzero.
Qed.

Lemma percentOf_nonpos spent limit : ¬ 0 < limit → percentOf spent limit = Some 0.
Proof. intros Hle. unfold percentOf. by rewrite (proj2 (gt0_false limit) Hle). Qed.

Lemma percentOf_zero spent : percentOf spent 0 = Some 0.
Proof. apply percentOf_nonpos. intros H. by apply Qclt_not_eq in H. Qed.

Lemma percentOf_is_Some spent limit : is_Some (percentOf spent limit).
Proof.
  destruct (decide (0 < limit)) as [Hlt|Hle].
  - rewrite percentOf_pos by done. by eexists.
  - rewrite percentOf_nonpos by done. by eexists.
Qed.

Lemma or_default_Some_pos (v d : Qc) : 0 < v → Num.or_default (Some v) d = v.
Proof.
  intros Hlt. unfold Num.or_default, Num.truthy.
  by rewrite bool_decide_eq_false_2 by by apply pos_nonzero.
Qed.

Lemma calculateBudgetProgress_percentOf (b : Budget) (es : list Expense) :
  calculateBudgetProgress b es
  = percentOf (calculateMonthlyTotal es (month b)) (totalBudget b).
Proof. reflexivity. Qed.

Lemma calculateCategoryBudgetProgress_percentOf (b : Budget)
    (es : list Expense) (c : string) :
  calculateCategoryBudgetProgress b es c
  = percentOf (sumAmounts (ofCategory c (filterExpensesByMonth es (month b))))
      (Num.or_default (categories b !! c) 0).
Proof. reflexivity. Qed.

Lemma calculateSavingsProgress_percentOf (g : SavingsGoal) :
  calculateSavingsProgress g = percentOf (currentAmount g) (targetAmount g).
Proof. reflexivity. Qed.

End Percent.

(** C5. [calculateBudgetProgress] is [(spent / totalBudget) * 100] when the
    total limit is positive, [spent] being the sum, in their order, of the
    amounts of the expenses whose date starts with the budget's month; it is
    exactly 0 when the total limit is 0, whatever was spent; and it always
    has a value: no division by zero is ever evaluated. *)
Theorem budget_progress (budget : Budget) (es : list Expense) :
  (0 < totalBudget budget →
     calculateBudgetProgress budget es
     = Some (sumInOrder (amount <$>
                        filter (λ e, String.prefix (month budget) (date e)
                                     = true) es)
             / totalBudget budget * Qc_of_Z 100))
  ∧ (totalBudget budget = 0 → calculateBudgetProgress budget es = Some 0)
  ∧ is_Some (calculateBudgetProgress budget es).
Proof.
  rewrite calculateBudgetProgress_percentOf. split; [|split].
  - intros Hpos. rewrite percentOf_pos by done.
    unfold calculateMonthlyTotal. by rewrite sumAmounts_inOrder.
  - intros ->. apply percentOf_zero.
  - apply percentOf_is_Some.
Qed.

(** 100 and 50 on food and 30 on housing in June 2024, besides 70 in May,
    against a June budget of 200: the progress is 90; against a budget
    without limit it is 0. *)
Lemma budget_progress_witness :
  calculateBudgetProgress (sampleBudget "2024-06" "food" 200 200)
    (sampleExpense 70 "food" "2024-05-20" :: juneExpenses)
  = Some (Qc_of_Z 90)
  ∧ calculateBudgetProgress (defaultBudget "2024-06" "id")
      (sampleExpense 70 "food" "2024-05-20" :: juneExpenses)
    = Some 0.
Proof.
  split.
  - rewrite (proj1 (budget_progress (sampleBudget "2024-06" "food" 200 200)
                      (sampleExpense 70 "food" "2024-05-20" :: juneExpenses)))
      by reflexivity.
    f_equal. apply Qc_is_canon. reflexivity.
  - apply (proj1 (proj2 (budget_progress (defaultBudget "2024-06" "id")
                           (sampleExpense 70 "food" "2024-05-20"
                              :: juneExpenses)))).
    reflexivity.
Defined.

(** C6. [calculateCategoryBudgetProgress] is
    [(category spend / category limit) * 100] when the category has a positive
    limit, the spend being the sum, in their order, of the amounts of the
    expenses of that category whose date starts with the budget's month, and
    0 when the category has no limit; an expense of 50 on food against a food
    limit of 200 in the same month gives exactly 25, whatever was spent on
    food in other months or on other categories. *)
Theorem category_budget_progress (budget : Budget) (es : list Expense)
    (c : ExpenseCategory) :
  (∀ limit, categories budget !! c = Some limit → 0 < limit →
     calculateCategoryBudgetProgress budget es c
     = Some (sumInOrder (amount <$>
                        filter (λ e, category e = c)
                          (filter (λ e, String.prefix (month budget) (date e)
                                        = true) es))
             / limit * Qc_of_Z 100))
  ∧ (categories budget !! c = None →
     calculateCategoryBudgetProgress budget es c = Some 0)
  ∧ (∀ e, categories budget !! "food" = Some (Qc_of_Z 200) →
          category e = "food" → amount e = Qc_of_Z 50 →
          String.prefix (month budget) (date e) = true →
          Forall (λ e', category e' ≠ "food"
                        ∨ String.prefix (month budget) (date e') = false) es →
          calculateCategoryBudgetProgress budget (e :: es) "food"
          = Some (Qc_of_Z 25)).
Proof.
  assert (∀ limit, categories budget !! c = Some limit → 0 < limit →
     calculateCategoryBudgetProgress budget es c
     = Some (sumInOrder (amount <$>
                        filter (λ e, category e = c)
                          (filter (λ e, String.prefix (month budget) (date e)
                                        = true) es))
             / limit * Qc_of_Z 100)) as Hspend.
  { intros limit Hc Hlt. rewrite calculateCategoryBudgetProgress_percentOf.
    rewrite Hc, or_default_Some_pos by done.
    rewrite percentOf_pos by done. by rewrite sumAmounts_inOrder. }
  split; [exact Hspend|]. split.
  - intros Hc. rewrite calculateCategoryBudgetProgress_percentOf, Hc.
    apply percentOf_zero.
  - clear Hspend. intros e Hc Hcat Ha Hd Hrest.
    rewrite calculateCategoryBudgetProgress_percentOf, Hc.
    assert (0 < Qc_of_Z 200) as Hlt by reflexivity.
    rewrite or_default_Some_pos, percentOf_pos by done.
    unfold ofCategory, filterExpensesByMonth. rewrite filter_cons_True by done.
    rewrite filter_cons_True by done.
    assert (filter (λ e0, category e0 = "food")
              (filter (λ e0, String.prefix (month budget) (date e0) = true) es)
            = []) as ->.
    { clear -Hrest. induction Hrest as [|e' es He' _ IH]; [done|].
      destruct (decide (String.prefix (month budget) (date e') = true))
        as [Hp|Hp].
      - rewrite filter_cons_True by done.
        rewrite filter_cons_False; [exact IH|].
        destruct He' as [?|Hq]; [done|congruence].
      - by rewrite filter_cons_False. }
    unfold sumAmounts. simpl. rewrite Ha.
    f_equal. apply Qc_is_canon. reflexivity.
Qed.

(** 50 on food in June 2024, besides 70 on food in January 1999 and 30 on
    housing in June, against a June budget with a food limit of 200: the
    food progress is 25, the housing progress, without limit, 0. *)
Lemma category_budget_progress_witness :
  calculateCategoryBudgetProgress (sampleBudget "2024-06" "food" 200 500)
    [ sampleExpense 50 "food" "2024-06-10";
      sampleExpense 70 "food" "1999-01-01";
      sampleExpense 30 "housing" "2024-06-02" ] "food" = Some (Qc_of_Z 25)
  ∧ calculateCategoryBudgetProgress (sampleBudget "2024-06" "food" 200 500)
      [ sampleExpense 50 "food" "2024-06-10";
        sampleExpense 70 "food" "1999-01-01";
        sampleExpense 30 "housing" "2024-06-02" ] "housing" = Some 0.
Proof.
  split.
  - rewrite (proj1 (category_budget_progress
                      (sampleBudget "2024-06" "food" 200 500)
                      [ sampleExpense 50 "food" "2024-06-10";
                        sampleExpense 70 "food" "1999-01-01";
                        sampleExpense 30 "housing" "2024-06-02" ] "food")
               (Qc_of_Z 200)) by reflexivity.
    f_equal. apply Qc_is_canon. reflexivity.
  - apply (proj1 (proj2 (category_budget_progress
                           (sampleBudget "2024-06" "food" 200 500)
                           [ sampleExpense 50 "food" "2024-06-10";
                             sampleExpense 70 "food" "1999-01-01";
                             sampleExpense 30 "housing" "2024-06-02" ]
                           "housing"))).
    reflexivity.
Defined.

(** ** The budget of the current month *)

Lemma find_month_first (pre post : list Budget) (b : Budget) (m : string) :
  Forall (λ x, month x ≠ m) pre → month b = m →
  List.find (λ x, bool_decide (month x = m)) (pre ++ b :: post) = Some b.
Proof.
  intros Hpre Hb. induction Hpre as [|x pre Hx _ IH]; simpl.
  - by rewrite bool_decide_eq_true_2.
  - by rewrite bool_decide_eq_false_2.
Qed.

Lemma find_month_none (budgets : list Budget) (m : string) :
  Forall (λ x, month x ≠ m) budgets →
  List.find (λ x, bool_decide (month x = m)) budgets = None.
Proof.
  induction 1 as [|x l Hx _ IH]; simpl; [done|].
  by rewrite bool_decide_eq_false_2.
Qed.

(** C9. If some budget of the list has the month, [getCurrentBudget] returns
    the first such budget, unchanged; otherwise it returns a fresh default
    budget of that month with total 0 and no category limit, and the budget
    progress computed from it is 0 for every expense collection. *)
Theorem current_budget (budgets : list Budget) (m uuid : string) :
  (∀ pre b post,
     budgets = pre ++ b :: post → Forall (λ x, month x ≠ m) pre →
     month b = m → getCurrentBudget budgets m uuid = b)
  ∧ (Forall (λ x, month x ≠ m) budgets →
     getCurrentBudget budgets m uuid = defaultBudget m uuid
     ∧ ∀ es, calculateBudgetProgress (getCurrentBudget budgets m uuid) es
             = Some 0).
Proof.
  unfold getCurrentBudget. split.
  - intros pre b post -> Hpre Hb. by rewrite find_month_first.
  - intros Hno. rewrite find_month_none by done. split; [done|].
    intros es. rewrite calculateBudgetProgress_percentOf. apply percentOf_zero.
Qed.

Lemma current_budget_witness :
  getCurrentBudget
    [sampleBudget "2024-05" "food" 1 2; sampleBudget "2024-06" "food" 3 4;
     sampleBudget "2024-06" "food" 5 6] "2024-06" "id"
  = sampleBudget "2024-06" "food" 3 4
  ∧ getCurrentBudget [sampleBudget "2024-05" "food" 1 2] "2024-06" "id"
    = defaultBudget "2024-06" "id"
  ∧ calculateBudgetProgress
      (getCurrentBudget [sampleBudget "2024-05" "food" 1 2] "2024-06" "id")
      juneExpenses = Some 0.
Proof.
  split.
  - apply (proj1 (current_budget _ "2024-06" "id")
             [sampleBudget "2024-05" "food" 1 2]
             (sampleBudget "2024-06" "food" 3 4)
             [sampleBudget "2024-06" "food" 5 6]).
    + reflexivity.
    + repeat constructor. discriminate.
    + reflexivity.
  - assert (Forall (λ x, month x ≠ "2024-06")
              [sampleBudget "2024-05" "food" 1 2]) as Hno
      by (repeat constructor; discriminate).
    destruct (proj2 (current_budget _ "2024-06" "id") Hno) as [Hd Hp].
    split; [exact Hd | exact (Hp juneExpenses)].
Defined.

(** ** Category taxonomy *)

(** Membership in a closed list of strings, by evaluation. *)
Ltac in_closed_list := apply (bool_decide_unpack _); by vm_compute.

Lemma lookup_outside_None (l : list (string * string)) (c : string) :
  c ∉ l.*1 → (list_to_map l : gmap string string) !! c = None.
Proof. apply not_elem_of_list_to_map_1. Qed.

(** Against C8 as it is stated: for the unrecognised input 'constructor' the
    lookup finds the member of that name that every object inherits, and
    [getPrettyCategoryName] returns it, not the raw string; so it does for
    'toString' and for every other name of [Object.prototype]. *)
Lemma pretty_name_inherited :
  ("constructor" ∉ getCategories)
  ∧ getPrettyCategoryName "constructor" = InheritedMember "constructor"
  ∧ getPrettyCategoryName "constructor" ≠ NameString "constructor"
  ∧ getPrettyCategoryName "toString" ≠ NameString "toString"
  ∧ Forall (λ c, (c ∉ getCategories)
                 ∧ getPrettyCategoryName c = InheritedMember c)
      objectPrototypeKeys.
Proof.
  split; [by intros Hin; apply (bool_decide_pack _) in Hin|].
  split; [reflexivity|]. split; [discriminate|]. split; [discriminate|].
  unfold objectPrototypeKeys.
  repeat (apply Forall_cons; split;
          [split; [by intros Hin; apply (bool_decide_pack _) in Hin
                  |reflexivity]|]).
  apply Forall_nil_2.
Qed.

(** C8 (amended). [getCategories] is the fixed ordered list of the 13
    identifiers, without repetition; [getPrettyCategoryName] gives each of
    them its (non-empty) display label and gives back the raw string for any
    other input that is not the name of a member inherited from
    [Object.prototype]; [getCategoryColors] has a colour for each of the 13
    identifiers, and no other key of its own. *)
Theorem category_taxonomy :
  getCategories
  = [ "housing"; "transportation"; "food"; "utilities"; "insurance";
      "healthcare"; "entertainment"; "personal"; "education"; "debt";
      "savings"; "gifts"; "other" ]
  ∧ length getCategories = 13%nat
  ∧ NoDup getCategories
  ∧ (∀ c, c ∈ getCategories →
       ∃ label, categoryMap !! c = Some label ∧ label ≠ EmptyString
                ∧ getPrettyCategoryName c = NameString label)
  ∧ (∀ c, c ∉ getCategories → c ∉ objectPrototypeKeys →
          getPrettyCategoryName c = NameString c)
  ∧ (∀ c, c ∈ getCategories ↔ is_Some (getCategoryColors !! c)).
Proof.
  split; [reflexivity|]. split; [reflexivity|].
  split; [apply (bool_decide_unpack _); by vm_compute|].
  split; [|split].
  - intros c Hc. unfold getCategories in Hc.
    repeat (apply elem_of_cons in Hc as [->|Hc];
            [eexists; split; [reflexivity|split; [discriminate|reflexivity]]|]).
    by apply not_elem_of_nil in Hc.
  - intros c Hc Hproto. unfold getPrettyCategoryName, categoryMap.
    rewrite lookup_outside_None by done.
    by rewrite bool_decide_eq_false_2.
  - intros c. split.
    + intros Hc. unfold getCategories in Hc.
      repeat (apply elem_of_cons in Hc as [->|Hc]; [by eexists|]).
      by apply not_elem_of_nil in Hc.
    + intros [v Hv]. destruct (decide (c ∈ getCategories)) as [|Hno]; [done|].
      unfold getCategoryColors in Hv. rewrite lookup_outside_None in Hv; [done|].
      intros Hin. apply Hno. simpl in Hin.
      repeat (apply elem_of_cons in Hin as [->|Hin]; [in_closed_list|]).
      by apply not_elem_of_nil in Hin.
Qed.

Lemma category_taxonomy_witness :
  getPrettyCategoryName "food" = NameString "Food & Dining"
  ∧ getPrettyCategoryName "groceries" = NameString "groceries"
  ∧ is_Some (getCategoryColors !! "insurance").
Proof.
  destruct category_taxonomy as (_ & _ & _ & Hlabel & Hraw & Hcol).
  split; [|split].
  - destruct (Hlabel "food") as (label & Hl & _ & ->).
    + in_closed_list.
    + revert Hl. vm_compute. congruence.
  - apply Hraw; intros Hin; by apply (bool_decide_pack _) in Hin.
  - apply Hcol. in_closed_list.
Defined.

(** ** Funding a savings goal *)

Section Funding.
Implicit Types (st : AppState) (goal g : SavingsGoal) (inc : Qc).

Lemma handleAddFunds_exceeds goal inc :
  0 < inc → targetAmount goal < currentAmount goal + inc →
  handleAddFunds goal (Some inc)
  = Rejected (ExceedsRemaining (targetAmount goal - currentAmount goal)).
Proof.
  intros Hpos Hex. unfold handleAddFunds.
  rewrite bool_decide_eq_false_2 by by apply Qclt_not_le.
  by rewrite bool_decide_eq_true_2.
Qed.

Lemma handleAddFunds_fits goal inc :
  0 < inc → currentAmount goal + inc ≤ targetAmount goal →
  handleAddFunds goal (Some inc)
  = Submitted (g_id goal) (currentAmount goal + inc).
Proof.
  intros Hpos Hfit. unfold handleAddFunds.
  rewrite bool_decide_eq_false_2 by by apply Qclt_not_le.
  by rewrite bool_decide_eq_false_2 by by apply Qcle_not_lt.
Qed.

(** An empty or non-numeric field and a non-positive amount are refused with
    the first message. *)
Lemma handleAddFunds_invalid goal (numAmount : option Qc) :
  numAmount = None ∨ (∃ a, numAmount = Some a ∧ a ≤ 0) →
  handleAddFunds goal numAmount = Rejected InvalidAmount.
Proof.
  intros [->|(a & -> & Ha)]; [done|].
  unfold handleAddFunds. by rewrite bool_decide_eq_true_2.
Qed.

Lemma find_goal_present (gs : list SavingsGoal) goal :
  goal ∈ gs →
  is_Some (List.find (λ g, bool_decide (g_id g = g_id goal)) gs).
Proof.
  induction 1 as [goal gs|goal g' gs _ IH]; simpl.
  - rewrite bool_decide_eq_true_2 by done. by eexists.
  - destruct (bool_decide _); [by eexists | done].
Qed.

Lemma find_goal_absent (gs : list SavingsGoal) (id : string) :
  Forall (λ g, g_id g ≠ id) gs →
  List.find (λ g, bool_decide (g_id g = id)) gs = None.
Proof.
  induction 1 as [|g gs Hg _ IH]; simpl; [done|].
  by rewrite bool_decide_eq_false_2.
Qed.

(** The context update when a user is signed in, the goal is known and the
    store accepts the write. *)
Lemma updateSavingsAmount_ok st goal (a : Qc) :
  is_Some (user st) → goal ∈ savingsGoals st →
  savingsGoals (updateSavingsAmount st (g_id goal) a false)
  = map (λ g, if bool_decide (g_id g = g_id goal)
              then withCurrentAmount g a else g) (savingsGoals st).
Proof.
  intros [u Hu] Hin. unfold updateSavingsAmount. rewrite Hu.
  by destruct (find_goal_present _ _ Hin) as [g' ->].
Qed.

Lemma updateSavingsAmount_refused st (id : string) (a : Qc) (storeError : bool) :
  user st = None ∨ Forall (λ g, g_id g ≠ id) (savingsGoals st)
  ∨ storeError = true →
  updateSavingsAmount st id a storeError = st.
Proof.
  unfold updateSavingsAmount. intros [Hu|[Hg|He]].
  - by rewrite Hu.
  - rewrite find_goal_absent by done. by destruct (user st).
  - rewrite He. destruct (user st); [|done]. by destruct (List.find _ _).
Qed.

End Funding.

(** Against C2 as it is stated: with a store that answers with an error (or
    with nobody signed in) a fitting increment of 20 on a goal at 80 of 100 is
    accepted without any message, and the stored amount stays as it was. *)
Lemma funding_not_stored :
  let goal := sampleGoal 100 80 in
  let inc := Qc_of_Z 20 in
  0 < inc ∧ currentAmount goal + inc ≤ targetAmount goal
  ∧ fund (sampleState true [goal]) goal (Some inc) true
    = (sampleState true [goal], None)
  ∧ fund (sampleState false [goal]) goal (Some inc) false
    = (sampleState false [goal], None)
  ∧ ¬ (∃ g, g ∈ savingsGoals
                  (fund (sampleState true [goal]) goal (Some inc) true).1
            ∧ currentAmount g = currentAmount goal + inc).
Proof.
  cbv zeta.
  assert (fund (sampleState true [sampleGoal 100 80]) (sampleGoal 100 80)
            (Some (Qc_of_Z 20)) true
          = (sampleState true [sampleGoal 100 80], None)) as Hfund
    by reflexivity.
  split; [reflexivity|]. split; [by vm_compute|].
  split; [exact Hfund|]. split; [reflexivity|].
  rewrite Hfund. simpl. intros (g & Hg & Ha).
  apply list_elem_of_singleton in Hg. subst g. simpl in Ha.
  apply (f_equal this) in Ha. vm_compute in Ha. discriminate.
Qed.

Lemma find_goal_id_present (gs : list SavingsGoal) (id : string) :
  (∃ g, g ∈ gs ∧ g_id g = id) →
  is_Some (List.find (λ g, bool_decide (g_id g = id)) gs).
Proof.
  intros (g & Hg & Hid). induction Hg as [g gs|g g' gs _ IH]; simpl.
  - rewrite bool_decide_eq_true_2 by done. by eexists.
  - destruct (bool_decide _); [by eexists | by apply IH].
Qed.

Lemma updateSavingsAmount_stored (st : AppState) (id : string) (a : Qc) :
  is_Some (user st) → (∃ g, g ∈ savingsGoals st ∧ g_id g = id) →
  updateSavingsAmount st id a false
  = withSavingsGoals st
      ((λ g, if bool_decide (g_id g = id) then withCurrentAmount g a else g)
       <$> savingsGoals st).
Proof.
  intros [u Hu] Hg. unfold updateSavingsAmount. rewrite Hu.
  by destruct (find_goal_id_present _ _ Hg) as [g' ->].
Qed.

(** C2 (amended). For every savings goal, as the form holds it, and positive
    increment: if [currentAmount + increment > targetAmount] the funding
    operation rejects with an error and leaves the state as it was; otherwise
    no error is reported and, provided a user is signed in, a goal with the
    id of the goal is in the stored collection and the store accepts the
    write, the [currentAmount] of every stored goal with that id becomes
    exactly [currentAmount + increment], the other goals, the order and the
    rest of the state being kept; when one of these three conditions fails
    the state is left as it was.  For a stored goal with target 100 and
    current amount 80, funding 30 is rejected, and funding 20 yields the
    current amount 100 and the savings progress 100. *)
Theorem funding_operation (st : AppState) (goal : SavingsGoal) (inc : Qc)
    (storeError : bool) :
  (0 < inc → targetAmount goal < currentAmount goal + inc →
     fund st goal (Some inc) storeError
     = (st, Some (ExceedsRemaining (targetAmount goal - currentAmount goal))))
  ∧ (0 < inc → currentAmount goal + inc ≤ targetAmount goal →
     (fund st goal (Some inc) storeError).2 = None
     ∧ (is_Some (user st) →
        (∃ g, g ∈ savingsGoals st ∧ g_id g = g_id goal) →
        storeError = false →
        (fund st goal (Some inc) storeError).1
        = withSavingsGoals st
            ((λ g, if bool_decide (g_id g = g_id goal)
                   then withCurrentAmount g (currentAmount goal + inc)
                   else g) <$> savingsGoals st))
     ∧ (user st = None ∨ Forall (λ g, g_id g ≠ g_id goal) (savingsGoals st)
        ∨ storeError = true →
        (fund st goal (Some inc) storeError).1 = st))
  ∧ (targetAmount goal = Qc_of_Z 100 → currentAmount goal = Qc_of_Z 80 →
     (∃ e, fund st goal (Some (Qc_of_Z 30)) storeError = (st, Some e))
     ∧ (is_Some (user st) → goal ∈ savingsGoals st → storeError = false →
        ∃ updated,
          updated ∈ savingsGoals
                      (fund st goal (Some (Qc_of_Z 20)) storeError).1
          ∧ g_id updated = g_id goal
          ∧ currentAmount updated = Qc_of_Z 100
          ∧ calculateSavingsProgress updated = Some (Qc_of_Z 100))).
Proof.
  assert (∀ a, 0 < a → currentAmount goal + a ≤ targetAmount goal →
            is_Some (user st) →
            (∃ g, g ∈ savingsGoals st ∧ g_id g = g_id goal) →
            storeError = false →
            (fund st goal (Some a) storeError).1
            = withSavingsGoals st
                ((λ g, if bool_decide (g_id g = g_id goal)
                       then withCurrentAmount g (currentAmount goal + a)
                       else g) <$> savingsGoals st)) as Hstored.
  { intros a Hpos Hfit Hu Hin ->. unfold fund.
    rewrite handleAddFunds_fits by done. cbn [fst].
    by apply updateSavingsAmount_stored. }
  split; [|split].
  - intros Hpos Hex. unfold fund. by rewrite handleAddFunds_exceeds.
  - intros Hpos Hfit. split; [|split].
    + unfold fund. by rewrite handleAddFunds_fits.
    + by apply Hstored.
    + intros Hno. unfold fund. rewrite handleAddFunds_fits by done. simpl.
      by apply updateSavingsAmount_refused.
  - intros Ht Hc. split.
    + eexists. unfold fund. rewrite handleAddFunds_exceeds; [done|done|].
      rewrite Ht, Hc. reflexivity.
    + intros Hu Hin He.
      rewrite (Hstored (Qc_of_Z 20)); try done.
      2:{ rewrite Ht, Hc. by vm_compute. }
      2:{ by exists goal. }
      assert (currentAmount goal + Qc_of_Z 20 = Qc_of_Z 100) as Hsum.
      { rewrite Hc. apply Qc_is_canon. reflexivity. }
      exists (withCurrentAmount goal (currentAmount goal + Qc_of_Z 20)).
      split.
      { cbn [savingsGoals withSavingsGoals]. apply list_elem_of_fmap.
        exists goal. by rewrite bool_decide_eq_true_2. }
      split; [done|]. split; [exact Hsum|].
      rewrite calculateSavingsProgress_percentOf. simpl. rewrite Hsum, Ht.
      rewrite percentOf_pos by reflexivity.
      f_equal. apply Qc_is_canon. reflexivity.
Qed.

(** The goal at 80 of 100: funding 30 is rejected, funding 20 is stored, and
    is not when nobody is signed in.  A form that still holds the goal at 80
    while the store has it at 90 writes 85 for a funding of 5. *)
Lemma funding_operation_witness :
  fund (sampleState true [sampleGoal 100 80]) (sampleGoal 100 80)
    (Some (Qc_of_Z 30)) false
  = (sampleState true [sampleGoal 100 80],
     Some (ExceedsRemaining (targetAmount (sampleGoal 100 80)
                             - currentAmount (sampleGoal 100 80))))
  ∧ (fund (sampleState true [sampleGoal 100 80]) (sampleGoal 100 80)
       (Some (Qc_of_Z 20)) false).2 = None
  ∧ (fund (sampleState true [sampleGoal 100 80]) (sampleGoal 100 80)
       (Some (Qc_of_Z 20)) false).1
    = withSavingsGoals (sampleState true [sampleGoal 100 80])
        [withCurrentAmount (sampleGoal 100 80)
           (currentAmount (sampleGoal 100 80) + Qc_of_Z 20)]
  ∧ (fund (sampleState false [sampleGoal 100 80]) (sampleGoal 100 80)
       (Some (Qc_of_Z 20)) false).1
    = sampleState false [sampleGoal 100 80]
  ∧ (fund (sampleState true [sampleGoal 100 90]) (sampleGoal 100 80)
       (Some (Qc_of_Z 5)) false).1
    = withSavingsGoals (sampleState true [sampleGoal 100 90])
        [withCurrentAmount (sampleGoal 100 90)
           (currentAmount (sampleGoal 100 80) + Qc_of_Z 5)]
  ∧ ∃ updated,
      updated ∈ savingsGoals
                  (fund (sampleState true [sampleGoal 100 80])
                     (sampleGoal 100 80) (Some (Qc_of_Z 20)) false).1
      ∧ g_id updated = g_id (sampleGoal 100 80)
      ∧ currentAmount updated = Qc_of_Z 100
      ∧ calculateSavingsProgress updated = Some (Qc_of_Z 100).
Proof.
  pose (goal := sampleGoal 100 80).
  pose (st := sampleState true [goal]).
  assert (0 < Qc_of_Z 30) as Hpos30 by reflexivity.
  assert (0 < Qc_of_Z 20) as Hpos20 by reflexivity.
  assert (0 < Qc_of_Z 5) as Hpos5 by reflexivity.
  assert (targetAmount goal < currentAmount goal + Qc_of_Z 30) as Hex
    by (by vm_compute).
  assert (currentAmount goal + Qc_of_Z 20 ≤ targetAmount goal) as Hfit
    by (by vm_compute).
  assert (currentAmount goal + Qc_of_Z 5 ≤ targetAmount goal) as Hfit5
    by (by vm_compute).
  assert (is_Some (user st)) as Hu by (by eexists).
  assert (goal ∈ savingsGoals st) as Hin by left.
  split; [|split; [|split; [|split; [|split]]]].
  - exact (proj1 (funding_operation st goal (Qc_of_Z 30) false) Hpos30 Hex).
  - exact (proj1 (proj1 (proj2 (funding_operation st goal (Qc_of_Z 20) false))
                    Hpos20 Hfit)).
  - exact (proj1 (proj2 (proj1 (proj2
             (funding_operation st goal (Qc_of_Z 20) false)) Hpos20 Hfit))
             Hu (ex_intro _ goal (conj Hin eq_refl)) eq_refl).
  - exact (proj2 (proj2 (proj1 (proj2
             (funding_operation (sampleState false [goal]) goal (Qc_of_Z 20)
                false)) Hpos20 Hfit)) (or_introl eq_refl)).
  - exact (proj1 (proj2 (proj1 (proj2
             (funding_operation (sampleState true [sampleGoal 100 90]) goal
                (Qc_of_Z 5) false)) Hpos5 Hfit5))
             Hu (ex_intro _ (sampleGoal 100 90)
                   (conj (list_elem_of_here _ _) eq_refl)) eq_refl).
  - exact (proj2 (proj2 (proj2 (funding_operation st goal (Qc_of_Z 20) false))
                    eq_refl eq_refl) Hu Hin eq_refl).
Defined.

(** ** Rolling summary: shape and entries *)

Section Rolling.
Implicit Types (now : JsDate.t) (es : list Expense) (i : Z).

(** The loop runs six times, for the offsets 0 to 5, and the result is
    reversed: the entry of offset 5 comes first. *)
Lemma getLastSixMonthsSummary_offsets now es :
  getLastSixMonthsSummary now es
  = summaryEntry now es <$> [5; 4; 3; 2; 1; 0]%Z.
Proof. reflexivity. Qed.

Lemma getLastSixMonthsSummary_length now es :
  length (getLastSixMonthsSummary now es) = 6%nat.
Proof. reflexivity. Qed.

Lemma summaryEntry_month now es i :
  mt_month (summaryEntry now es i) = monthKey now i.
Proof. unfold summaryEntry, monthKey. cbv zeta. cbn [mt_month]. done. Qed.

(** The inlined sums of the loop body are those of the aggregation
    functions at the entry's month key. *)
Lemma summaryEntry_aggregates now es i :
  total (summaryEntry now es i) = calculateMonthlyTotal es (monthKey now i)
  ∧ mt_categories (summaryEntry now es i)
    = calculateExpensesByCategory es (monthKey now i).
Proof.
  unfold summaryEntry, monthKey, calculateMonthlyTotal,
    calculateExpensesByCategory, sumAmounts.
  cbv zeta. cbn [total mt_categories]. done.
Qed.

Lemma summaryEntry_eq now es i :
  summaryEntry now es i
  = {| mt_month := monthKey now i;
       total := calculateMonthlyTotal es (monthKey now i);
       mt_categories := calculateExpensesByCategory es (monthKey now i) |}.
Proof.
  unfold summaryEntry, monthKey, calculateMonthlyTotal,
    calculateExpensesByCategory, sumAmounts.
  cbv zeta. reflexivity.
Qed.

Lemma summary_entry_inv now es (entry : MonthlyTotal) :
  entry ∈ getLastSixMonthsSummary now es →
  ∃ i, (0 ≤ i ≤ 5)%Z ∧ entry = summaryEntry now es i.
Proof.
  rewrite getLastSixMonthsSummary_offsets. intros Hin.
  apply list_elem_of_fmap in Hin as (i & -> & Hi). exists i. split; [|done].
  repeat (apply elem_of_cons in Hi as [->|Hi]; [lia|]).
  by apply not_elem_of_nil in Hi.
Qed.

(** The formatted key reads the year and the month only. *)
Lemma formatYearMonth_fields (d1 d2 : JsDate.t) :
  JsDate.fullYear d1 = JsDate.fullYear d2 →
  JsDate.monthIndex d1 = JsDate.monthIndex d2 →
  JsDate.formatYearMonth d1 = JsDate.formatYearMonth d2.
Proof. unfold JsDate.formatYearMonth. intros -> ->. reflexivity. Qed.

Lemma monthKey_sameDay now1 now2 i :
  sameDay now1 now2 → monthKey now1 i = monthKey now2 i.
Proof.
  intros (Hy & Hm & Hd). unfold monthKey.
  apply formatYearMonth_fields;
    unfold JsDate.setMonth, JsDate.getMonth;
    cbn [JsDate.fullYear JsDate.monthIndex];
    rewrite Hy, Hm, Hd; reflexivity.
Qed.

Lemma summaryEntry_sameDay now1 now2 es i :
  sameDay now1 now2 → summaryEntry now1 es i = summaryEntry now2 es i.
Proof.
  intros Hsame. rewrite !summaryEntry_eq.
  by rewrite (monthKey_sameDay now1 now2 i Hsame).
Qed.

End Rolling.

(** Against C7 as it is stated: the rolling summary is not a function of its
    argument alone, the same (empty) expense collection gives different
    results at two readings of the clock. *)
Lemma summary_depends_on_clock :
  call (noon 2024 3 15) (GetLastSixMonthsSummary [])
  ≠ call (noon 2024 4 15) (GetLastSixMonthsSummary []).
Proof.
  intros H.
  apply (f_equal (λ r, match r with
                       | SummaryResult l => mt_month <$> l
                       | _ => []
                       end)) in H.
  vm_compute in H. discriminate.
Qed.

(** ** C7 on the heap

    The core functions run on the heap of [Js].  The lemmas below give, for
    each operation, the world it leaves and the value it returns, in the
    style of a weakest precondition: [returns m w Q] follows from [Q] of the
    result. *)

Section Heap.
Implicit Types (w : Js.World) (h : list Js.Cell) (l : Js.Loc)
  (items : list Js.Loc) (es : list Expense).

Local Abbreviation cells h :=
  (Forall2 (λ i e, h !! i = Some (Js.ExpenseCell e))).

Lemma returns_ret {A} (a : A) w (Q : A → Js.World → Prop) :
  Q a w → Js.returns (Js.ret a) w Q.
Proof. intros HQ. by exists a, w. Qed.

Lemma returns_bind {A B} (m : Js.M A) (f : A → Js.M B) w
    (Q : B → Js.World → Prop) :
  Js.returns m w (λ a w', Js.returns (f a) w' Q) →
  Js.returns (Js.bind m f) w Q.
Proof.
  intros (a & w' & Hm & b & w'' & Hf & HQ). exists b, w''.
  unfold Js.bind. by rewrite Hm.
Qed.

Lemma returns_load h (c : JsDate.t) l (x : Js.Cell)
    (Q : Js.Cell → Js.World → Prop) :
  h !! l = Some x → Q x (Js.mkWorld h c) →
  Js.returns (Js.load l) (Js.mkWorld h c) Q.
Proof.
  intros Hl HQ. exists x, (Js.mkWorld h c). unfold Js.load. cbn [Js.heap].
  by rewrite Hl.
Qed.

Lemma returns_alloc h (c : JsDate.t) (x : Js.Cell)
    (Q : Js.Loc → Js.World → Prop) :
  Q (length h) (Js.mkWorld (h ++ [x]) c) →
  Js.returns (Js.alloc x) (Js.mkWorld h c) Q.
Proof. intros HQ. by eexists _, _. Qed.

Lemma returns_store h (c : JsDate.t) l (x : Js.Cell)
    (Q : unit → Js.World → Prop) :
  (l < length h)%nat → Q tt (Js.mkWorld (<[l := x]> h) c) →
  Js.returns (Js.store l x) (Js.mkWorld h c) Q.
Proof.
  intros Hl HQ. exists tt, (Js.mkWorld (<[l := x]> h) c).
  unfold Js.store. cbn [Js.heap Js.clock]. by rewrite decide_True.
Qed.

Lemma returns_loadExpense h (c : JsDate.t) l e
    (Q : Expense → Js.World → Prop) :
  h !! l = Some (Js.ExpenseCell e) → Q e (Js.mkWorld h c) →
  Js.returns (Js.loadExpense l) (Js.mkWorld h c) Q.
Proof.
  intros Hl HQ. apply returns_bind, (returns_load _ _ _ _ _ Hl).
  by apply returns_ret.
Qed.

Lemma returns_loadBudget h (c : JsDate.t) l b
    (Q : Budget → Js.World → Prop) :
  h !! l = Some (Js.BudgetCell b) → Q b (Js.mkWorld h c) →
  Js.returns (Js.loadBudget l) (Js.mkWorld h c) Q.
Proof.
  intros Hl HQ. apply returns_bind, (returns_load _ _ _ _ _ Hl).
  by apply returns_ret.
Qed.

Lemma returns_loadGoal h (c : JsDate.t) l g
    (Q : SavingsGoal → Js.World → Prop) :
  h !! l = Some (Js.GoalCell g) → Q g (Js.mkWorld h c) →
  Js.returns (Js.loadGoal l) (Js.mkWorld h c) Q.
Proof.
  intros Hl HQ. apply returns_bind, (returns_load _ _ _ _ _ Hl).
  by apply returns_ret.
Qed.

Lemma returns_loadArray h (c : JsDate.t) l items
    (Q : list Js.Loc → Js.World → Prop) :
  h !! l = Some (Js.ExpenseArray items) → Q items (Js.mkWorld h c) →
  Js.returns (Js.loadArray l) (Js.mkWorld h c) Q.
Proof.
  intros Hl HQ. apply returns_bind, (returns_load _ _ _ _ _ Hl).
  by apply returns_ret.
Qed.

Lemma returns_loadObject h (c : JsDate.t) l (m : gmap string Qc)
    (Q : gmap string Qc → Js.World → Prop) :
  h !! l = Some (Js.NumberObject m) → Q m (Js.mkWorld h c) →
  Js.returns (Js.loadObject l) (Js.mkWorld h c) Q.
Proof.
  intros Hl HQ. apply returns_bind, (returns_load _ _ _ _ _ Hl).
  by apply returns_ret.
Qed.

Lemma returns_loadDate h (c : JsDate.t) l (d : JsDate.t)
    (Q : JsDate.t → Js.World → Prop) :
  h !! l = Some (Js.DateCell d) → Q d (Js.mkWorld h c) →
  Js.returns (Js.loadDate l) (Js.mkWorld h c) Q.
Proof.
  intros Hl HQ. apply returns_bind, (returns_load _ _ _ _ _ Hl).
  by apply returns_ret.
Qed.

Lemma returns_loadSummary h (c : JsDate.t) l items
    (Q : list Js.Loc → Js.World → Prop) :
  h !! l = Some (Js.SummaryArray items) → Q items (Js.mkWorld h c) →
  Js.returns (Js.loadSummary l) (Js.mkWorld h c) Q.
Proof.
  intros Hl HQ. apply returns_bind, (returns_load _ _ _ _ _ Hl).
  by apply returns_ret.
Qed.

(** The loops over an array of expenses read, and write nothing. *)
Lemma returns_filterM (p : Expense → bool) h (c : JsDate.t) items es
    (Q : list Js.Loc → Js.World → Prop) :
  cells h items es →
  (∀ kept, cells h kept (filter (λ e, p e = true) es) →
           Q kept (Js.mkWorld h c)) →
  Js.returns
    (Js.filterM (λ l, Js.bind (Js.loadExpense l) (λ e, Js.ret (p e))) items)
    (Js.mkWorld h c) Q.
Proof.
  intros Hcells. revert Q.
  induction Hcells as [|i e items es Hi _ IH]; intros Q HQ; simpl.
  - apply returns_ret, HQ. constructor.
  - apply returns_bind, returns_bind, (returns_loadExpense _ _ _ _ _ Hi).
    apply returns_ret, returns_bind, IH. intros kept Hkept.
    apply returns_ret, HQ. destruct (p e) eqn:Hp.
    + rewrite filter_cons_True by done. by constructor.
    + rewrite filter_cons_False by congruence. done.
Qed.

Lemma returns_sum h (c : JsDate.t) items es (acc : Qc)
    (Q : Qc → Js.World → Prop) :
  cells h items es →
  Q (fold_left (λ t e, t + amount e) es acc) (Js.mkWorld h c) →
  Js.returns
    (Js.reduceM (λ total l, Js.bind (Js.loadExpense l)
                              (λ e, Js.ret (total + amount e))) items acc)
    (Js.mkWorld h c) Q.
Proof.
  intros Hcells. revert acc.
  induction Hcells as [|i e items es Hi _ IH]; intros acc HQ; simpl.
  - by apply returns_ret.
  - apply returns_bind, returns_bind, (returns_loadExpense _ _ _ _ _ Hi).
    apply returns_ret, IH, HQ.
Qed.

Lemma cells_app h ext items es :
  cells h items es → cells (h ++ ext) items es.
Proof.
  intros Hc. eapply Forall2_impl; [exact Hc|]. intros i e Hi.
  by apply lookup_app_l_Some.
Qed.

Lemma cells_insert h (r : Js.Loc) (x : Js.Cell) items es :
  cells h items es → (∀ e, h !! r ≠ Some (Js.ExpenseCell e)) →
  cells (<[r := x]> h) items es.
Proof.
  intros Hc Hr. eapply Forall2_impl; [exact Hc|]. intros i e Hi. cbn beta.
  rewrite list_lookup_insert_ne; [done|]. intros ->. by apply (Hr e).
Qed.

Lemma returns_sumAmounts h (c : JsDate.t) l items es
    (Q : Qc → Js.World → Prop) :
  h !! l = Some (Js.ExpenseArray items) →
  cells h items es →
  Q (sumAmounts es) (Js.mkWorld h c) →
  Js.returns (Js.sumAmounts l) (Js.mkWorld h c) Q.
Proof.
  intros Hl Hc HQ. apply returns_bind, (returns_loadArray _ _ _ _ _ Hl).
  by apply (returns_sum _ _ _ es).
Qed.

Lemma returns_filterExpensesByMonth h (c : JsDate.t) l items es (m : string)
    (Q : Js.Loc → Js.World → Prop) :
  h !! l = Some (Js.ExpenseArray items) →
  cells h items es →
  (∀ kept, cells h kept (filterExpensesByMonth es m) →
           Q (length h) (Js.mkWorld (h ++ [Js.ExpenseArray kept]) c)) →
  Js.returns (Js.filterExpensesByMonth l m) (Js.mkWorld h c) Q.
Proof.
  intros Hl Hc HQ.
  apply returns_bind, (returns_loadArray _ _ _ _ _ Hl).
  apply returns_bind,
    (returns_filterM (λ e, String.prefix m (date e)) _ _ _ _ _ Hc).
  intros kept Hkept. apply returns_alloc. by apply HQ.
Qed.

Lemma returns_addToCategory h (c : JsDate.t) result i e (r : gmap string Qc)
    (Q : unit → Js.World → Prop) :
  h !! i = Some (Js.ExpenseCell e) →
  h !! result = Some (Js.NumberObject r) →
  Q tt (Js.mkWorld (<[result := Js.NumberObject (addToCategory r e)]> h) c) →
  Js.returns (Js.addToCategory result i) (Js.mkWorld h c) Q.
Proof.
  intros Hi Hr HQ. pose proof (lookup_lt_Some _ _ _ Hr) as Hlt.
  unfold Js.addToCategory.
  apply returns_bind, (returns_loadExpense _ _ _ _ _ Hi).
  apply returns_bind, (returns_loadObject _ _ _ _ _ Hr).
  unfold addToCategory in HQ. cbv zeta in HQ.
  assert (∀ (Q' : unit → Js.World → Prop),
            Q' tt (Js.mkWorld
                     (<[result := Js.NumberObject
                                    (<[category e := 0 + amount e]>
                                       (<[category e := 0]> r))]> h) c) →
            Js.returns
              (Js.bind
                 (Js.store result
                    (Js.NumberObject (<[category e := 0]> r)))
                 (λ _, Js.bind (Js.loadObject result)
                         (λ r1, match r1 !! category e with
                                | Some v =>
                                    Js.store result
                                      (Js.NumberObject
                                         (<[category e := v + amount e]> r1))
                                | None => Js.ret tt
                                end)))
              (Js.mkWorld h c) Q') as Hreset.
  { intros Q' HQ'. apply returns_bind, returns_store; [done|].
    apply returns_bind, (returns_loadObject _ _ _ (<[category e := 0]> r)).
    { by apply list_lookup_insert_eq. }
    rewrite lookup_insert_eq. apply returns_store.
    { by rewrite length_insert. }
    by rewrite list_insert_insert_eq. }
  destruct (r !! category e) as [v|] eqn:Hv.
  - destruct (Num.truthy v) eqn:Ht.
    + apply returns_bind, returns_ret.
      apply returns_bind, (returns_loadObject _ _ _ _ _ Hr).
      rewrite Hv. apply returns_store; [done|].
      cbn beta iota in HQ. by rewrite Hv in HQ.
    + apply Hreset. cbn beta iota in HQ. by rewrite lookup_insert_eq in HQ.
  - apply Hreset. cbn beta iota in HQ. by rewrite lookup_insert_eq in HQ.
Qed.

Lemma returns_forEach (c : JsDate.t) result items :
  ∀ h es (r : gmap string Qc) (Q : unit → Js.World → Prop),
    cells h items es →
    h !! result = Some (Js.NumberObject r) →
    Q tt (Js.mkWorld
            (<[result := Js.NumberObject (fold_left addToCategory es r)]> h)
            c) →
    Js.returns (Js.forEachM (Js.addToCategory result) items)
      (Js.mkWorld h c) Q.
Proof.
  induction items as [|i items IH]; intros h es r Q Hcells Hr HQ.
  - apply Forall2_nil_inv_l in Hcells as ->. simpl in *.
    apply returns_ret. by rewrite list_insert_id in HQ.
  - apply Forall2_cons_inv_l in Hcells as (e & es' & Hi & Hrest & ->).
    pose proof (lookup_lt_Some _ _ _ Hr) as Hlt.
    cbn [Js.forEachM].
    apply returns_bind, (returns_addToCategory _ _ _ _ _ _ _ Hi Hr).
    apply (IH _ es' (addToCategory r e)).
    + apply cells_insert; [done|]. intros e'. by rewrite Hr.
    + by apply list_lookup_insert_eq.
    + by rewrite list_insert_insert_eq.
Qed.

Lemma expenses_app h ext l items es :
  h !! l = Some (Js.ExpenseArray items) → cells h items es →
  (h ++ ext) !! l = Some (Js.ExpenseArray items) ∧ cells (h ++ ext) items es.
Proof.
  intros Hl Hc. split; [by apply lookup_app_l_Some|by apply cells_app].
Qed.

Lemma filter_category (c : string) es :
  filter (λ e, bool_decide (category e = c) = true) es
  = filter (λ e, category e = c) es.
Proof. apply list_filter_iff. intros e. apply bool_decide_eq_true. Qed.

(** The six functions that do not read the clock. *)
Lemma returns_calculateMonthlyTotal h (c : JsDate.t) l items es (m : string)
    (Q : Qc → Js.World → Prop) :
  h !! l = Some (Js.ExpenseArray items) →
  cells h items es →
  (∀ kept, Q (calculateMonthlyTotal es m)
             (Js.mkWorld (h ++ [Js.ExpenseArray kept]) c)) →
  Js.returns (Js.calculateMonthlyTotal l m) (Js.mkWorld h c) Q.
Proof.
  intros Hl Hc HQ. unfold Js.calculateMonthlyTotal.
  apply returns_bind, (returns_filterExpensesByMonth _ _ _ _ _ _ _ Hl Hc).
  intros kept Hkept.
  apply (returns_sumAmounts _ _ _ kept (filterExpensesByMonth es m)).
  - by apply list_lookup_middle.
  - by apply cells_app.
  - apply HQ.
Qed.

Lemma returns_calculateExpensesByCategory h (c : JsDate.t) l items es
    (m : string) (Q : Js.Loc → Js.World → Prop) :
  h !! l = Some (Js.ExpenseArray items) →
  cells h items es →
  (∀ kept, Q (length h)
             (Js.mkWorld
                (h ++ [Js.NumberObject (calculateExpensesByCategory es m);
                       Js.ExpenseArray kept]) c)) →
  Js.returns (Js.calculateExpensesByCategory l m) (Js.mkWorld h c) Q.
Proof.
  intros Hl Hc HQ. unfold Js.calculateExpensesByCategory.
  apply returns_bind, returns_alloc.
  destruct (expenses_app h [Js.NumberObject ∅] _ _ _ Hl Hc) as [Hl1 Hc1].
  apply returns_bind, (returns_filterExpensesByMonth _ _ _ _ _ _ _ Hl1 Hc1).
  intros kept Hkept.
  apply returns_bind, (returns_loadArray _ _ _ kept).
  { by apply list_lookup_middle. }
  apply returns_bind,
    (returns_forEach _ _ _ _ (filterExpensesByMonth es m) ∅).
  - by apply cells_app.
  - apply lookup_app_l_Some. by apply list_lookup_middle.
  - apply returns_ret. specialize (HQ kept).
    rewrite <-app_assoc, insert_app_r_alt by done.
    rewrite Nat.sub_diag. exact HQ.
Qed.

End Heap.

Section Summary.
Implicit Types (h : list Js.Cell) (l : Js.Loc) (es : list Expense).

Local Abbreviation cells h :=
  (Forall2 (λ i e, h !! i = Some (Js.ExpenseCell e))).

(** Two locations that hold cells of different kinds are different. *)
Local Ltac clash :=
  intros ->;
  match goal with
  | H1 : ?x = Some _, H2 : ?y = Some _ |- _ =>
      pose proof (eq_trans (eq_sym H1) H2); discriminate
  end.

Lemma prefix_insert h0 h (i : nat) (x : Js.Cell) :
  h0 `prefix_of` h → (length h0 ≤ i)%nat → h0 `prefix_of` <[i := x]> h.
Proof.
  intros [k ->] Hi. rewrite insert_app_r_alt by done. by eexists.
Qed.

Lemma entryAt_app h ext (c : JsDate.t) l entry :
  Js.entryAt (Js.mkWorld h c) l entry →
  Js.entryAt (Js.mkWorld (h ++ ext) c) l entry.
Proof.
  intros (cats & Hl & Hcats). exists cats.
  split; by apply lookup_app_l_Some.
Qed.

Lemma entryAt_insert h (c : JsDate.t) result (items : list Js.Loc)
    (x : Js.Cell) l entry :
  h !! result = Some (Js.SummaryArray items) →
  Js.entryAt (Js.mkWorld h c) l entry →
  Js.entryAt (Js.mkWorld (<[result := x]> h) c) l entry.
Proof.
  intros Hr (cats & Hl & Hcats). exists cats. cbn [Js.heap] in *.
  split; (rewrite list_lookup_insert_ne; [done|]; clash).
Qed.

Lemma returns_summaryStep h0 h (c : JsDate.t) expenses result currentDate
    (now : JsDate.t) es entries (i : Z) (Q : unit → Js.World → Prop) :
  Js.loopInvariant h0 h c expenses result currentDate now es entries →
  (∀ h', Js.loopInvariant h0 h' c expenses result currentDate now es
           (entries ++ [summaryEntry now es i]) →
         Q tt (Js.mkWorld h' c)) →
  Js.returns (Js.summaryStep expenses result currentDate i)
    (Js.mkWorld h c) Q.
Proof.
  intros (Hpre & Hfresh & (items & Hl & Hc) & Hdate & (locs & Hres & Hentries))
    HQ.
  cbn [Js.heap] in *.
  pose proof (lookup_lt_Some _ _ _ Hres) as Hreslt.
  unfold Js.summaryStep.
  set (d2 := JsDate.setMonth now (JsDate.getMonth now - i)%Z).
  set (key := JsDate.formatYearMonth d2).
  apply returns_bind, (returns_loadDate _ _ _ _ _ Hdate).
  apply returns_bind, returns_alloc.
  apply returns_bind, (returns_loadDate _ _ _ now).
  { by apply lookup_app_l_Some. }
  apply returns_bind, (returns_loadDate _ _ _ now).
  { by apply list_lookup_middle. }
  apply returns_bind, returns_store.
  { rewrite length_app. simpl. lia. }
  rewrite insert_app_r_alt, Nat.sub_diag by done. cbn [insert list_insert].
  fold d2.
  apply returns_bind, (returns_loadDate _ _ _ d2).
  { by apply list_lookup_middle. }
  fold key.
  destruct (expenses_app h [Js.DateCell d2] _ _ _ Hl Hc) as [Hl1 Hc1].
  apply returns_bind, (returns_filterExpensesByMonth _ _ _ _ _ _ _ Hl1 Hc1).
  intros kept Hkept.
  apply returns_bind,
    (returns_sumAmounts _ _ _ kept (filterExpensesByMonth es key)).
  { by apply list_lookup_middle. }
  { by apply cells_app. }
  apply returns_bind, returns_alloc.
  apply returns_bind, (returns_loadArray _ _ _ kept).
  { apply lookup_app_l_Some. by apply list_lookup_middle. }
  apply returns_bind,
    (returns_forEach _ _ _ _ (filterExpensesByMonth es key) ∅).
  { by apply cells_app, cells_app. }
  { by apply list_lookup_middle. }
  rewrite <-!app_assoc. cbn [app].
  rewrite !length_app. cbn [length].
  rewrite insert_app_r_alt by lia.
  replace (length h + 1 + 1 - length h)%nat with 2%nat by lia.
  cbn [insert list_insert].
  apply returns_bind, returns_alloc.
  apply returns_bind, (returns_loadSummary _ _ _ locs).
  { rewrite <-app_assoc. by apply lookup_app_l_Some. }
  apply returns_store.
  { rewrite !length_app. lia. }
  apply HQ.
  replace (length h + 2 - length h)%nat with 2%nat by lia.
  cbn [insert list_insert]. rewrite <-app_assoc, length_app.
  cbn [app length].
  set (cats := fold_left addToCategory (filterExpensesByMonth es key) ∅).
  set (ext := [Js.DateCell d2; Js.ExpenseArray kept; Js.NumberObject cats;
               Js.MonthlyCell key (sumAmounts (filterExpensesByMonth es key))
                 (length h + 2)%nat]).
  set (written := Js.SummaryArray (locs ++ [(length h + 3)%nat])).
  assert (∀ l x, h !! l = Some x → l ≠ result →
                 <[result := written]> (h ++ ext) !! l = Some x) as Hkeep.
  { intros l x Hx Hne. rewrite list_lookup_insert_ne by done.
    by apply lookup_app_l_Some. }
  split; [|split; [|split; [|split]]].
  - apply prefix_insert; [|done]. by apply prefix_app_r.
  - done.
  - exists items. cbn [Js.heap]. split.
    + apply Hkeep; [done|]. clash.
    + apply cells_insert; [by apply cells_app|].
      intros e. rewrite (lookup_app_l_Some _ _ _ _ Hres). discriminate.
  - apply Hkeep; [done|]. clash.
  - exists (locs ++ [(length h + 3)%nat]). cbn [Js.heap]. split.
    + apply list_lookup_insert_eq. rewrite length_app. lia.
    + apply Forall2_app.
      * eapply Forall2_impl; [exact Hentries|]. intros l entry He.
        eapply entryAt_insert.
        { by apply lookup_app_l_Some. }
        by apply entryAt_app.
      * constructor; [|constructor].
        exists (length h + 2)%nat. cbn [Js.heap].
        rewrite !list_lookup_insert_ne by lia.
        split.
        -- rewrite lookup_app_r by lia.
           replace (length h + 3 - length h)%nat with 3%nat by lia.
           reflexivity.
        -- rewrite lookup_app_r by lia.
           replace (length h + 2 - length h)%nat with 2%nat by lia.
           reflexivity.
Qed.

Lemma returns_newDate h (c : JsDate.t) (Q : Js.Loc → Js.World → Prop) :
  Q (length h) (Js.mkWorld (h ++ [Js.DateCell c]) c) →
  Js.returns Js.newDate (Js.mkWorld h c) Q.
Proof. intros HQ. by apply (returns_alloc h c (Js.DateCell c)). Qed.

Lemma returns_forLoop h0 (c : JsDate.t) expenses result currentDate
    (now : JsDate.t) es (steps : nat) :
  ∀ h (i : Z) entries (Q : unit → Js.World → Prop),
    Js.loopInvariant h0 h c expenses result currentDate now es entries →
    (∀ h', Js.loopInvariant h0 h' c expenses result currentDate now es
             (summaryLoop now es steps i entries) →
           Q tt (Js.mkWorld h' c)) →
    Js.returns
      (Js.forLoop steps i (Js.summaryStep expenses result currentDate))
      (Js.mkWorld h c) Q.
Proof.
  induction steps as [|steps IH]; intros h i entries Q Hinv HQ.
  - apply returns_ret, HQ, Hinv.
  - cbn [Js.forLoop summaryLoop] in *.
    apply returns_bind, (returns_summaryStep _ _ _ _ _ _ _ _ _ _ _ Hinv).
    intros h' Hinv'. by apply (IH _ _ _ _ Hinv').
Qed.

Lemma returns_getLastSixMonthsSummary h (now : JsDate.t) l es
    (Q : Js.Loc → Js.World → Prop) :
  Js.expensesAt (Js.mkWorld h now) l es →
  (∀ h' r, h `prefix_of` h' →
           Js.summaryAt (Js.mkWorld h' now) r
             (getLastSixMonthsSummary now es) →
           Q r (Js.mkWorld h' now)) →
  Js.returns (Js.getLastSixMonthsSummary l) (Js.mkWorld h now) Q.
Proof.
  intros (items & Hl & Hc) HQ. cbn [Js.heap] in *.
  unfold Js.getLastSixMonthsSummary.
  apply returns_bind, returns_alloc.
  apply returns_bind, returns_newDate.
  rewrite <-app_assoc, length_app. cbn [app length].
  apply returns_bind,
    (returns_forLoop h now l (length h) (length h + 1)%nat now es 6 _ 0%Z []).
  { split; [by apply prefix_app_r|]. split; [done|].
    split; [|split].
    - exists items. cbn [Js.heap]. split; [by apply lookup_app_l_Some|].
      by apply cells_app.
    - cbn [Js.heap]. rewrite lookup_app_r by lia.
      replace (length h + 1 - length h)%nat with 1%nat by lia. reflexivity.
    - exists []. cbn [Js.heap]. split; [|constructor].
      by apply list_lookup_middle. }
  intros h' (Hpre & _ & _ & _ & (locs & Hres & Hentries)).
  cbn [Js.heap] in *.
  apply returns_bind, (returns_loadSummary _ _ _ locs); [done|].
  apply returns_bind, returns_store.
  { by eapply lookup_lt_Some. }
  apply returns_ret, HQ.
  - by apply prefix_insert.
  - exists (rev locs). cbn [Js.heap]. split.
    + apply list_lookup_insert_eq. by eapply lookup_lt_Some.
    + unfold getLastSixMonthsSummary. rewrite !rev_alt.
      apply (Forall2_reverse _ locs (summaryLoop now es 6 0%Z [])).
      eapply Forall2_impl; [exact Hentries|]. intros r entry He.
      by eapply entryAt_insert.
Qed.

End Summary.

Section Purity.
Implicit Types (h : list Js.Cell) (l : Js.Loc) (es : list Expense).

Local Abbreviation cells h :=
  (Forall2 (λ i e, h !! i = Some (Js.ExpenseCell e))).

(** What the amended claim says of a call that started in [w], returned [v]
    and left the world [w']. *)
Local Abbreviation pureAt w pc :=
  (λ v w', Js.heap w `prefix_of` Js.heap w'
           ∧ ∀ now, (readsClock pc = true → sameDay now (Js.clock w)) →
                    Js.resultAt w' v (call now pc)).

Lemma call_sameDay (c : CoreCall) (now1 now2 : JsDate.t) :
  (readsClock c = true → sameDay now1 now2) → call now1 c = call now2 c.
Proof.
  destruct c as [es m|es m|es m|b es|b es c|g|es]; simpl; intros Hsame;
    try reflexivity.
  f_equal. rewrite !getLastSixMonthsSummary_offsets.
  apply list_fmap_ext. intros _ i _.
  apply summaryEntry_sameDay. by apply Hsame.
Qed.

Lemma pure_filterExpensesByMonth h (c : JsDate.t) l es (m : string) :
  Js.expensesAt (Js.mkWorld h c) l es →
  Js.returns (Js.run (Js.Filter l m)) (Js.mkWorld h c)
    (pureAt (Js.mkWorld h c) (FilterExpensesByMonth es m)).
Proof.
  intros (items & Hl & Hc). cbn [Js.heap] in *.
  apply returns_bind, (returns_filterExpensesByMonth _ _ _ _ _ _ _ Hl Hc).
  intros kept Hkept. apply returns_ret. cbn [Js.heap Js.clock].
  split; [by apply prefix_app_r|]. intros now _.
  exists kept. cbn [Js.heap].
  split; [by apply list_lookup_middle|by apply cells_app].
Qed.

Lemma pure_calculateMonthlyTotal h (c : JsDate.t) l es (m : string) :
  Js.expensesAt (Js.mkWorld h c) l es →
  Js.returns (Js.run (Js.Total l m)) (Js.mkWorld h c)
    (pureAt (Js.mkWorld h c) (CalculateMonthlyTotal es m)).
Proof.
  intros (items & Hl & Hc). cbn [Js.heap] in *.
  apply returns_bind, (returns_calculateMonthlyTotal _ _ _ _ _ _ _ Hl Hc).
  intros kept. apply returns_ret. cbn [Js.heap Js.clock].
  split; [by apply prefix_app_r|]. by intros now _.
Qed.

Lemma pure_calculateExpensesByCategory h (c : JsDate.t) l es (m : string) :
  Js.expensesAt (Js.mkWorld h c) l es →
  Js.returns (Js.run (Js.ByCategory l m)) (Js.mkWorld h c)
    (pureAt (Js.mkWorld h c) (CalculateExpensesByCategory es m)).
Proof.
  intros (items & Hl & Hc). cbn [Js.heap] in *.
  apply returns_bind,
    (returns_calculateExpensesByCategory _ _ _ _ _ _ _ Hl Hc).
  intros kept. apply returns_ret. cbn [Js.heap Js.clock].
  split; [by apply prefix_app_r|]. intros now _.
  cbn [Js.resultAt call Js.heap]. by apply list_lookup_middle.
Qed.

Lemma pure_calculateBudgetProgress h (c : JsDate.t) bl l b es :
  h !! bl = Some (Js.BudgetCell b) →
  Js.expensesAt (Js.mkWorld h c) l es →
  Js.returns (Js.run (Js.BudgetProgress bl l)) (Js.mkWorld h c)
    (pureAt (Js.mkWorld h c) (CalculateBudgetProgress b es)).
Proof.
  intros Hb (items & Hl & Hc). cbn [Js.heap] in *.
  apply returns_bind, returns_bind, (returns_loadBudget _ _ _ _ _ Hb).
  apply returns_bind, (returns_calculateMonthlyTotal _ _ _ _ _ _ _ Hl Hc).
  intros kept.
  apply returns_bind, (returns_loadBudget _ _ _ b).
  { by apply lookup_app_l_Some. }
  apply returns_ret, returns_ret. cbn [Js.heap Js.clock].
  split; [by apply prefix_app_r|]. by intros now _.
Qed.

Lemma pure_calculateCategoryBudgetProgress h (c : JsDate.t) bl l b es
    (cat : ExpenseCategory) :
  h !! bl = Some (Js.BudgetCell b) →
  Js.expensesAt (Js.mkWorld h c) l es →
  Js.returns (Js.run (Js.CategoryProgress bl l cat)) (Js.mkWorld h c)
    (pureAt (Js.mkWorld h c) (CalculateCategoryBudgetProgress b es cat)).
Proof.
  intros Hb (items & Hl & Hc). cbn [Js.heap] in *.
  apply returns_bind, returns_bind, (returns_loadBudget _ _ _ _ _ Hb).
  cbv zeta.
  apply returns_bind, (returns_loadBudget _ _ _ _ _ Hb).
  apply returns_bind, (returns_filterExpensesByMonth _ _ _ _ _ _ _ Hl Hc).
  intros ofMonth HofMonth.
  apply returns_bind, (returns_loadArray _ _ _ ofMonth).
  { by apply list_lookup_middle. }
  apply returns_bind,
    (returns_filterM (λ e, bool_decide (category e = cat)) _ _ ofMonth
       (filterExpensesByMonth es (month b))).
  { by apply cells_app. }
  intros kept Hkept. rewrite filter_category in Hkept.
  apply returns_bind, returns_alloc.
  apply returns_bind,
    (returns_sumAmounts _ _ _ kept
       (filter (λ e, category e = cat)
          (filterExpensesByMonth es (month b)))).
  { by apply list_lookup_middle. }
  { by apply cells_app. }
  apply returns_ret, returns_ret. cbn [Js.heap Js.clock].
  split.
  { rewrite <-app_assoc. by apply prefix_app_r. }
  by intros now _.
Qed.

Lemma pure_calculateSavingsProgress h (c : JsDate.t) gl g :
  h !! gl = Some (Js.GoalCell g) →
  Js.returns (Js.run (Js.SavingsProgress gl)) (Js.mkWorld h c)
    (pureAt (Js.mkWorld h c) (CalculateSavingsProgress g)).
Proof.
  intros Hg.
  apply returns_bind, returns_bind, (returns_loadGoal _ _ _ _ _ Hg).
  apply returns_ret, returns_ret. cbn [Js.heap Js.clock].
  split; [done|]. by intros now _.
Qed.

Lemma pure_getLastSixMonthsSummary h (c : JsDate.t) l es :
  Js.expensesAt (Js.mkWorld h c) l es →
  Js.returns (Js.run (Js.Summary l)) (Js.mkWorld h c)
    (pureAt (Js.mkWorld h c) (GetLastSixMonthsSummary es)).
Proof.
  intros Hes.
  apply returns_bind, (returns_getLastSixMonthsSummary _ _ _ _ _ Hes).
  intros h' r Hpre Hsum. apply returns_ret. cbn [Js.heap Js.clock].
  split; [done|]. intros now Hsame.
  by rewrite (call_sameDay (GetLastSixMonthsSummary es) now c Hsame).
Qed.

End Purity.

(** C7 (amended). A call of a core function, on a heap in which its arguments
    stand for given values, returns and leaves every object that was there
    at the call as it was: it only makes new objects, the inputs are not
    mutated.  For [filterExpensesByMonth], [calculateMonthlyTotal],
    [calculateExpensesByCategory], [calculateBudgetProgress],
    [calculateCategoryBudgetProgress] and [calculateSavingsProgress] the
    value returned is the one the values of the arguments determine,
    whatever else the heap holds and whatever the clock shows: there is no
    ambient or hidden input, and two calls with identical arguments yield
    identical results.  [getLastSixMonthsSummary] reads the clock: the value
    it returns is determined by the value of its argument and the calendar
    day of the call, so that two calls with identical arguments on the same
    calendar day yield identical results. *)
Theorem core_calls_pure (w : Js.World) (c : Js.Call) (pc : CoreCall) :
  Js.argsAt w c pc →
  ∃ v w',
    Js.run c w = Some (v, w')
    ∧ Js.heap w `prefix_of` Js.heap w'
    ∧ ∀ now, (readsClock pc = true → sameDay now (Js.clock w)) →
             Js.resultAt w' v (call now pc).
Proof.
  destruct w as [h k].
  destruct c as [l m|l m|l m|bl l|bl l cat|gl|l],
           pc as [es m'|es m'|es m'|b es|b es cat'|g|es];
    cbn [Js.argsAt Js.heap]; try done.
  - intros [Hes <-]. by apply pure_filterExpensesByMonth.
  - intros [Hes <-]. by apply pure_calculateMonthlyTotal.
  - intros [Hes <-]. by apply pure_calculateExpensesByCategory.
  - intros [Hb Hes]. by apply pure_calculateBudgetProgress.
  - intros (Hb & Hes & <-). by apply pure_calculateCategoryBudgetProgress.
  - intros Hg. by apply pure_calculateSavingsProgress.
  - intros Hes. by apply pure_getLastSixMonthsSummary.
Qed.

Lemma core_calls_pure_witness :
  (∃ v w',
     Js.run (Js.Summary 3%nat) (Js.juneWorld (noon 2024 6 10)) = Some (v, w')
     ∧ Js.heap (Js.juneWorld (noon 2024 6 10)) `prefix_of` Js.heap w'
     ∧ ∀ now,
         (readsClock (GetLastSixMonthsSummary juneExpenses) = true →
          sameDay now (Js.clock (Js.juneWorld (noon 2024 6 10)))) →
         Js.resultAt w' v (call now (GetLastSixMonthsSummary juneExpenses)))
  ∧ (∃ v w',
       Js.run (Js.Total 3%nat "2024-06") (Js.juneWorld (noon 2031 1 1))
       = Some (v, w')
       ∧ Js.heap (Js.juneWorld (noon 2031 1 1)) `prefix_of` Js.heap w'
       ∧ ∀ now,
           (readsClock (CalculateMonthlyTotal juneExpenses "2024-06") = true →
            sameDay now (Js.clock (Js.juneWorld (noon 2031 1 1)))) →
           Js.resultAt w' v
             (call now (CalculateMonthlyTotal juneExpenses "2024-06"))).
Proof.
  split.
  - apply (core_calls_pure _ (Js.Summary 3%nat)
             (GetLastSixMonthsSummary juneExpenses)).
    exists [0%nat; 1%nat; 2%nat]. split; [reflexivity|].
    repeat constructor.
  - apply (core_calls_pure _ (Js.Total 3%nat "2024-06")
             (CalculateMonthlyTotal juneExpenses "2024-06")).
    split; [|reflexivity].
    exists [0%nat; 1%nat; 2%nat]. split; [reflexivity|].
    repeat constructor.
Defined.

(** C10 (amended). Every entry produced by [getLastSixMonthsSummary] is
    consistent: when the additions are exact, as they are in this
    development, its total is the sum of the values of its per-category map
    (with the rounding of binary64 the two can differ, as they do for the
    amounts 0.1, 0.1 and 0.4), and a category is a key of that map exactly
    when some expense of the entry's month has that category. *)
Theorem summary_entries_consistent (now : JsDate.t) (es : list Expense)
    (entry : MonthlyTotal) :
  entry ∈ getLastSixMonthsSummary now es →
  total entry = sumValues (mt_categories entry)
  ∧ ∀ c, c ∈ dom (mt_categories entry)
         ↔ ∃ e, e ∈ es ∧ String.prefix (mt_month entry) (date e) = true
                ∧ category e = c.
Proof.
  intros Hin. apply summary_entry_inv in Hin as (i & _ & ->).
  rewrite summaryEntry_month.
  destruct (summaryEntry_aggregates now es i) as [-> ->].
  unfold calculateExpensesByCategory, calculateMonthlyTotal. split.
  - symmetry. apply byCategory_sumValues.
  - intros c. rewrite byCategory_dom. split.
    + intros (e & He & Hc). exists e.
      apply filterExpensesByMonth_elem in He as [Hp He]. done.
    + intros (e & He & Hp & Hc). exists e. split; [|done].
      by apply filterExpensesByMonth_elem.
Qed.

Lemma summary_entries_consistent_witness :
  let entry := summaryEntry (noon 2024 6 10) juneExpenses 0 in
  entry ∈ getLastSixMonthsSummary (noon 2024 6 10) juneExpenses
  ∧ total entry = sumValues (mt_categories entry)
  ∧ ("food" ∈ dom (mt_categories entry)
     ↔ ∃ e, e ∈ juneExpenses
            ∧ String.prefix (mt_month entry) (date e) = true
            ∧ category e = "food").
Proof.
  cbv zeta.
  assert (summaryEntry (noon 2024 6 10) juneExpenses 0
          ∈ getLastSixMonthsSummary (noon 2024 6 10) juneExpenses) as Hin.
  { rewrite getLastSixMonthsSummary_offsets. do 5 right. left. }
  split; [exact Hin|].
  destruct (summary_entries_consistent _ _ _ Hin) as [Ht Hk].
  split; [exact Ht | exact (Hk "food")].
Defined.

(** ** The calendar behind [setMonth] *)

Section Calendar.
Import JsDate.
Local Open Scope Z_scope.
Implicit Types (y m d i day : Z).

Lemma dayFromYear_step y : dayFromYear (y + 1) = dayFromYear y + daysInYear y.
Proof.
  unfold dayFromYear, daysInYear, isLeap.
  destruct (y mod 4 =? 0) eqn:H4; destruct (y mod 100 =? 0) eqn:H100;
    destruct (y mod 400 =? 0) eqn:H400; simpl;
    rewrite ?Z.eqb_eq, ?Z.eqb_neq in *;
    Z.div_mod_to_equations; lia.
Qed.

Lemma daysInYear_pos y : 365 ≤ daysInYear y ≤ 366.
Proof. unfold daysInYear. destruct (isLeap y); lia. Qed.

(** [yearFromDay] finds the year whose days contain the day number. *)
Lemma yearFromDay_unique y day :
  dayFromYear y ≤ day < dayFromYear (y + 1) → yearFromDay day = y.
Proof.
  intros Hday.
  assert (y - 1 ≤ 1970 + (400 * day) / 146097 ≤ y + 1) as Hest.
  { unfold dayFromYear in Hday. Z.div_mod_to_equations. lia. }
  assert (dayFromYear (y - 1) < dayFromYear y) as Hprev.
  { pose proof (dayFromYear_step (y - 1)) as Hs.
    replace (y - 1 + 1) with y in Hs by lia.
    pose proof (daysInYear_pos (y - 1)). lia. }
  assert (dayFromYear (y + 1) < dayFromYear (y + 1 + 1)) as Hnext.
  { rewrite (dayFromYear_step (y + 1)).
    pose proof (daysInYear_pos (y + 1)). lia. }
  unfold yearFromDay. cbv zeta.
  set (y0 := 1970 + 400 * day / 146097) in *. clearbody y0.
  assert (y0 = y - 1 ∨ y0 = y ∨ y0 = y + 1) as [Hy|[Hy|Hy]] by lia; subst y0.
  - replace (y - 1 + 1) with y by lia.
    destruct (Z.ltb_spec day (dayFromYear (y - 1))); [lia|].
    destruct (Z.leb_spec (dayFromYear y) day); lia.
  - destruct (Z.ltb_spec day (dayFromYear y)); [lia|].
    destruct (Z.leb_spec (dayFromYear (y + 1)) day); lia.
  - destruct (Z.ltb_spec day (dayFromYear (y + 1))); [lia|]. lia.
Qed.

Lemma month_cases m :
  0 ≤ m ≤ 11 →
  m = 0 ∨ m = 1 ∨ m = 2 ∨ m = 3 ∨ m = 4 ∨ m = 5 ∨ m = 6 ∨ m = 7 ∨ m = 8
  ∨ m = 9 ∨ m = 10 ∨ m = 11.
Proof. lia. Qed.

Ltac each_month H :=
  apply month_cases in H;
  repeat (destruct H as [H|H]; [rewrite H in *; clear H|]);
  [..|rewrite H in *; clear H].

Lemma daysInMonth_range y m : 28 ≤ daysInMonth y m ≤ 31.
Proof.
  unfold daysInMonth.
  repeat match goal with |- context [if ?b then _ else _] => destruct b end;
    lia.
Qed.

(** The months of a year follow one another without gap. *)
Lemma monthStart_next y m :
  0 ≤ m ≤ 10 →
  monthStart (m + 1) (leapFlag y) = monthStart m (leapFlag y) + daysInMonth y m.
Proof.
  intros Hm. assert (0 ≤ m ≤ 11) as Hm' by lia.
  each_month Hm'; try lia;
    unfold leapFlag, daysInMonth, monthStart; destruct (isLeap y);
    reflexivity.
Qed.

Lemma monthStart_last y : monthStart 11 (leapFlag y) + 31 = daysInYear y.
Proof. unfold leapFlag, daysInYear, monthStart. by destruct (isLeap y). Qed.

(** A day that exists in its month is read back as it was written. *)
Lemma decode_in_month y m d :
  0 ≤ m ≤ 11 → 1 ≤ d ≤ daysInMonth y m →
  let day := dayFromYear y + monthStart m (leapFlag y) + d - 1 in
  yearFromDay day = y ∧ monthFromDay day = m ∧ dateFromDay day = d.
Proof.
  intros Hm Hd day.
  assert (yearFromDay day = y) as Hyear.
  { apply yearFromDay_unique. rewrite dayFromYear_step, <-monthStart_last.
    subst day. revert Hd. unfold leapFlag, daysInMonth, monthStart.
    each_month Hm; destruct (isLeap y); simpl; lia. }
  assert (dayWithinYear day = monthStart m (leapFlag y) + d - 1) as Hdwy.
  { unfold dayWithinYear. rewrite Hyear. subst day. lia. }
  assert (inLeapYear day = leapFlag y) as Hleap.
  { unfold inLeapYear. by rewrite Hyear. }
  assert (monthFromDay day = m) as Hmonth.
  { unfold monthFromDay. cbv zeta. rewrite Hdwy, Hleap.
    revert Hd. unfold leapFlag, daysInMonth, monthStart.
    each_month Hm; destruct (isLeap y); simpl; intros Hd;
      repeat match goal with
             | |- context [?a <? ?b] => destruct (Z.ltb_spec a b); try lia
             end. }
  split; [done|]. split; [done|].
  unfold dateFromDay. rewrite Hdwy, Hleap, Hmonth. lia.
Qed.

(** [makeDay] on a day number from 1 to 31: the day itself when the month has
    it, otherwise that many days into the following month. *)
Lemma makeDay_rollOver y m d :
  1 ≤ d ≤ 31 →
  let day := makeDay y m d in
  rollOver (y + m / 12) (m mod 12) d
  = (yearFromDay day, monthFromDay day, dateFromDay day).
Proof.
  intros Hd day. subst day. unfold makeDay, rollOver. cbv zeta.
  set (ym := y + m / 12). set (mn := m mod 12).
  assert (0 ≤ mn ≤ 11) as Hmn by (subst mn; Z.div_mod_to_equations; lia).
  clearbody ym mn.
  pose proof (daysInMonth_range ym mn) as Hdim.
  destruct (Z.leb_spec d (daysInMonth ym mn)) as [Hle|Hgt].
  - destruct (decode_in_month ym mn d) as (-> & -> & ->); [lia|lia|done].
  - assert (mn ≠ 11) as Hne.
    { intros ->. unfold daysInMonth in Hgt. simpl in Hgt. lia. }
    rewrite (proj2 (Z.eqb_neq mn 11) Hne).
    pose proof (daysInMonth_range ym (mn + 1)) as Hdim'.
    destruct (decode_in_month ym (mn + 1) (d - daysInMonth ym mn))
      as (Hy & Hm & Hdt); [lia|lia|].
    rewrite monthStart_next in Hy, Hm, Hdt by lia.
    replace (dayFromYear ym + (monthStart mn (leapFlag ym)
               + daysInMonth ym mn) + (d - daysInMonth ym mn) - 1)
      with (dayFromYear ym + monthStart mn (leapFlag ym) + d - 1)
      in Hy, Hm, Hdt by lia.
    by rewrite Hy, Hm, Hdt.
Qed.

(** Carrying months into years is the calendar's month arithmetic. *)
Lemma monthsBefore_carry y m i :
  monthsBefore y m i = (y + (m - i) / 12, (m - i) mod 12).
Proof.
  unfold monthsBefore. cbv zeta. f_equal; Z.div_mod_to_equations; lia.
Qed.

Lemma monthsBefore_range y m i :
  0 ≤ (monthsBefore y m i).2 ≤ 11.
Proof. unfold monthsBefore. simpl. Z.div_mod_to_equations. lia. Qed.

(** The month after [i] months back is [i - 1] months back. *)
Lemma monthsBefore_succ y m i :
  (monthsBefore y m i).2 ≠ 11 →
  monthsBefore y m (i - 1)
  = ((monthsBefore y m i).1, (monthsBefore y m i).2 + 1).
Proof.
  unfold monthsBefore. simpl. intros Hne.
  f_equal; Z.div_mod_to_equations; lia.
Qed.

(** What [setMonth] makes of the date, [i] months back. *)
Lemma setMonth_back (now : t) i :
  1 ≤ dayOfMonth now ≤ 31 →
  let back := monthsBefore (fullYear now) (monthIndex now) i in
  let moved := setMonth now (getMonth now - i) in
  fullYear moved = (rollOver back.1 back.2 (dayOfMonth now)).1.1
  ∧ monthIndex moved = (rollOver back.1 back.2 (dayOfMonth now)).1.2
  ∧ dayOfMonth moved = (rollOver back.1 back.2 (dayOfMonth now)).2.
Proof.
  intros Hd back moved. subst back moved.
  rewrite monthsBefore_carry. cbn [fst snd].
  rewrite (makeDay_rollOver (fullYear now) (monthIndex now - i)
             (dayOfMonth now) Hd).
  cbn [fst snd]. unfold setMonth, getMonth.
  cbn [fullYear monthIndex dayOfMonth].
  split; [reflexivity|split; reflexivity].
Qed.

End Calendar.

(** ** Rolling summary: the month keys *)

Section MonthKeys.
Import JsDate.
Local Open Scope Z_scope.
Implicit Types (now : JsDate.t) (es : list Expense) (i : Z).

Lemma summary_keys now es :
  mt_month <$> getLastSixMonthsSummary now es
  = monthKey now <$> [5; 4; 3; 2; 1; 0].
Proof.
  rewrite getLastSixMonthsSummary_offsets, <-list_fmap_compose.
  apply list_fmap_ext. intros _ i _. apply summaryEntry_month.
Qed.

(** When the day of the month exists [i] months back, the key written at
    offset [i] is the key of that calendar month. *)
Lemma monthKey_in_month now i :
  1 ≤ dayOfMonth now ≤ 31 →
  dayOfMonth now
  ≤ daysInMonth (monthsBefore (fullYear now) (monthIndex now) i).1
      (monthsBefore (fullYear now) (monthIndex now) i).2 →
  monthKey now i = calendarKey now i.
Proof.
  intros Hd Hfit. destruct (setMonth_back now i Hd) as (Hy & Hm & _).
  unfold rollOver in Hy, Hm.
  rewrite (proj2 (Z.leb_le _ _) Hfit) in Hy, Hm.
  unfold monthKey, calendarKey.
  destruct (monthsBefore _ _ i) as [y m]. cbn [fst snd] in Hy, Hm.
  by apply formatYearMonth_fields.
Qed.

(** When the month [i] months back is too short for the day of the month,
    the key written at offset [i] is the key of the month after it. *)
Lemma monthKey_overflow now i :
  1 ≤ dayOfMonth now ≤ 31 →
  daysInMonth (monthsBefore (fullYear now) (monthIndex now) i).1
    (monthsBefore (fullYear now) (monthIndex now) i).2
  < dayOfMonth now →
  monthKey now i = calendarKey now (i - 1).
Proof.
  intros Hd Hshort. destruct (setMonth_back now i Hd) as (Hy & Hm & _).
  unfold rollOver in Hy, Hm.
  rewrite (proj2 (Z.leb_gt _ _) Hshort) in Hy, Hm.
  assert ((monthsBefore (fullYear now) (monthIndex now) i).2 ≠ 11) as Hne.
  { intros Heq. rewrite Heq in Hshort. unfold daysInMonth in Hshort.
    simpl in Hshort. lia. }
  rewrite (proj2 (Z.eqb_neq _ _) Hne) in Hy, Hm.
  unfold monthKey, calendarKey. rewrite monthsBefore_succ by done.
  destruct (monthsBefore _ _ i) as [y m]. cbn [fst snd] in Hy, Hm |- *.
  by apply formatYearMonth_fields.
Qed.

(** On a day up to the 28th the summary is the one of the six calendar
    months ending with the current one, oldest first, each entry carrying the
    sum of the amounts of the expenses of its month. *)
Lemma rolling_summary_calendar now es :
  1 ≤ dayOfMonth now ≤ 28 →
  getLastSixMonthsSummary now es
  = (λ i, {| mt_month := calendarKey now i;
             total := sumList (amount <$> filterExpensesByMonth es
                                            (calendarKey now i));
             mt_categories := calculateExpensesByCategory es
                                (calendarKey now i) |})
    <$> [5; 4; 3; 2; 1; 0].
Proof.
  intros Hd. rewrite getLastSixMonthsSummary_offsets.
  apply list_fmap_ext. intros _ i _.
  rewrite summaryEntry_eq, calculateMonthlyTotal_sumList.
  assert (1 ≤ dayOfMonth now ≤ 31) as Hd' by lia.
  pose proof (daysInMonth_range
                (monthsBefore (fullYear now) (monthIndex now) i).1
                (monthsBefore (fullYear now) (monthIndex now) i).2) as Hdim.
  assert (dayOfMonth now
          ≤ daysInMonth (monthsBefore (fullYear now) (monthIndex now) i).1
              (monthsBefore (fullYear now) (monthIndex now) i).2) as Hfit
    by lia.
  by rewrite (monthKey_in_month now i Hd' Hfit).
Qed.

(** The example of the specification: on 2024-03-15, with expenses in
    November 2023 and January 2024 only, the six entries run from 2023-10 to
    2024-03 and carry the sums of their months, zero where there is none. *)
Lemma rolling_summary_mid_month :
  let es := [sampleExpense 40 "food" "2023-11-10";
             sampleExpense 25 "housing" "2024-01-05";
             sampleExpense 5 "food" "2024-01-20"] in
  (λ entry, (mt_month entry, total entry))
    <$> getLastSixMonthsSummary (noon 2024 3 15) es
  = [("2023-10", Q2Qc 0); ("2023-11", Q2Qc 40); ("2023-12", Q2Qc 0);
     ("2024-01", Q2Qc 30); ("2024-02", Q2Qc 0); ("2024-03", Q2Qc 0)].
Proof. cbv zeta. vm_compute. reflexivity. Qed.

End MonthKeys.

(** C1 (the code at a month's end). On 2024-03-31 the rolling summary has six
    entries, but February 2024 and November 2023 have 29 and 30 days, so
    [setMonth] lands in March and December: the keys 2024-03 and 2023-12 come
    twice, 2024-02 and 2023-11 are missing, and an expense of 40 made in
    November 2023 is in no entry's total, while the six calendar months and
    the monthly total of 2023-11 are as the specification says. *)
Theorem summary_month_end_overflow :
  let now := noon 2024 3 31 in
  let es := [sampleExpense 40 "food" "2023-11-10"] in
  JsDate.valid now
  ∧ length (getLastSixMonthsSummary now es) = 6%nat
  ∧ calendarKey now <$> [5; 4; 3; 2; 1; 0]%Z
    = ["2023-10"; "2023-11"; "2023-12"; "2024-01"; "2024-02"; "2024-03"]
  ∧ mt_month <$> getLastSixMonthsSummary now es
    = ["2023-10"; "2023-12"; "2023-12"; "2024-01"; "2024-03"; "2024-03"]
  ∧ total <$> getLastSixMonthsSummary now es = [0; 0; 0; 0; 0; 0]
  ∧ calculateMonthlyTotal es "2023-11" = Qc_of_Z 40.
Proof.
  cbv zeta. split; [|split; [|split; [|split; [|split]]]].
  - unfold JsDate.valid, noon, JsDate.daysInMonth. simpl. lia.
  - reflexivity.
  - by vm_compute.
  - rewrite summary_keys. by vm_compute.
  - by vm_compute.
  - apply Qc_is_canon. by vm_compute.
Qed.

(** * Further properties of the application *)

(** ** The operations of the application context *)

Section Context.
Implicit Types (st : AppState) (es : list Expense) (m id : string).

Lemma withExpenses_id st : withExpenses st (expenses st) = st.
Proof. by destruct st. Qed.

Lemma withBudgets_id st : withBudgets st (budgets st) = st.
Proof. by destruct st. Qed.

Lemma withSavingsGoals_id st : withSavingsGoals st (savingsGoals st) = st.
Proof. by destruct st. Qed.

Lemma sumAmounts_app es1 es2 :
  sumAmounts (es1 ++ es2) = sumAmounts es1 + sumAmounts es2.
Proof.
  induction es1 as [|e es1 IH]; simpl.
  - rewrite sumAmounts_nil. ring.
  - rewrite !sumAmounts_cons, IH. ring.
Qed.

(** A sum splits along any test. *)
Lemma sumAmounts_split (P : Expense → Prop) `{!∀ e, Decision (P e)} es :
  sumAmounts es = sumAmounts (filter P es) + sumAmounts (filter (λ e, ¬ P e) es).
Proof.
  induction es as [|e es IH]; [by rewrite !sumAmounts_nil|].
  rewrite !filter_cons. destruct (decide (P e)) as [Hp|Hn].
  - rewrite decide_False by tauto. rewrite !sumAmounts_cons, IH. ring.
  - rewrite decide_True by done. rewrite !sumAmounts_cons, IH. ring.
Qed.

Lemma filter_all {A} (P : A → Prop) `{!∀ x, Decision (P x)} (l : list A) :
  Forall P l → filter P l = l.
Proof.
  induction 1 as [|x l Hx _ IH]; [done|].
  by rewrite filter_cons_True, IH.
Qed.

Lemma filter_swap {A} (P Q : A → Prop) `{!∀ x, Decision (P x)}
    `{!∀ x, Decision (Q x)} (l : list A) :
  filter P (filter Q l) = filter Q (filter P l).
Proof.
  induction l as [|x l IH]; [done|].
  rewrite !filter_cons.
  destruct (decide (Q x)), (decide (P x));
    rewrite ?filter_cons, ?decide_True, ?decide_False by done; by rewrite IH.
Qed.

Lemma map_replace_absent {A} (P : A → Prop) `{!∀ x, Decision (P x)}
    (y : A) (l : list A) :
  Forall (λ x, ¬ P x) l → map (λ x, if bool_decide (P x) then y else x) l = l.
Proof.
  induction 1 as [|x l Hx _ IH]; simpl; [done|].
  by rewrite bool_decide_eq_false_2, IH.
Qed.

Lemma find_app {A} (f : A → bool) (l1 l2 : list A) :
  List.find f (l1 ++ l2)
  = match List.find f l1 with Some x => Some x | None => List.find f l2 end.
Proof.
  induction l1 as [|x l1 IH]; simpl; [done|]. by destruct (f x).
Qed.

End Context.

(** X1. None of the eight operations of the context that write to the store
    (on expenses, budgets and savings goals) changes the state when nobody is
    signed in or when the persistence service answers with an error.  The
    ninth operation, [setCurrentMonth], has no such guard: it sets the
    selected month, and nothing else, whoever is signed in. *)
Theorem mutations_guarded (st : AppState) (storeError : bool)
    (expense : ExpenseData) (changed : Expense) (budget : Budget)
    (newGoal : GoalData) (goal : SavingsGoal)
    (id uuid createdAtIso m : string) (a : Qc) :
  (user st = None ∨ storeError = true →
   addExpense st expense uuid createdAtIso storeError = st
   ∧ updateExpense st changed storeError = st
   ∧ deleteExpense st id storeError = st
   ∧ updateBudget st budget storeError = st
   ∧ addSavingsGoal st newGoal uuid storeError = st
   ∧ updateSavingsGoal st goal storeError = st
   ∧ deleteSavingsGoal st id storeError = st
   ∧ updateSavingsAmount st id a storeError = st)
  ∧ currentMonth (setCurrentMonth st m) = m
  ∧ expenses (setCurrentMonth st m) = expenses st
  ∧ budgets (setCurrentMonth st m) = budgets st
  ∧ savingsGoals (setCurrentMonth st m) = savingsGoals st
  ∧ monthlySummaries (setCurrentMonth st m) = monthlySummaries st
  ∧ user (setCurrentMonth st m) = user st.
Proof.
  split; [|repeat split].
  intros Hguard.
  unfold addExpense, updateExpense, deleteExpense, updateBudget,
    addSavingsGoal, updateSavingsGoal, deleteSavingsGoal, updateSavingsAmount.
  destruct Hguard as [->| ->].
  - repeat split.
  - destruct (user st); [|repeat split].
    repeat split. by destruct (List.find _ _).
Qed.

(** Signed out, an expense is not added; with a store that answers with an
    error, a goal is not deleted; signed out, the month is still changed. *)
Lemma mutations_guarded_witness :
  addExpense (sampleState false []) (mkExpenseData (Qc_of_Z 5) "tea" "food"
     "2024-06-03") "id" "2024-06-03T10:00:00.000Z" false
  = sampleState false []
  ∧ deleteSavingsGoal (sampleState true [sampleGoal 100 80]) "g1" true
    = sampleState true [sampleGoal 100 80]
  ∧ currentMonth (setCurrentMonth (sampleState false []) "2024-05")
    = "2024-05".
Proof.
  split; [|split].
  - apply (proj1 (mutations_guarded (sampleState false []) false
             (mkExpenseData (Qc_of_Z 5) "tea" "food" "2024-06-03")
             (sampleExpense 1 "food" "2024-06-01")
             (sampleBudget "2024-06" "food" 1 1)
             (mkGoalData "Bike" (Qc_of_Z 300) 0 "2024-06-01" "2024-09-01"
                (Some "other") None)
             (sampleGoal 100 80) "g1" "id" "2024-06-03T10:00:00.000Z"
             "2024-05" 0)).
    left. reflexivity.
  - apply (proj1 (mutations_guarded (sampleState true [sampleGoal 100 80]) true
             (mkExpenseData (Qc_of_Z 5) "tea" "food" "2024-06-03")
             (sampleExpense 1 "food" "2024-06-01")
             (sampleBudget "2024-06" "food" 1 1)
             (mkGoalData "Bike" (Qc_of_Z 300) 0 "2024-06-01" "2024-09-01"
                (Some "other") None)
             (sampleGoal 100 80) "g1" "id" "2024-06-03T10:00:00.000Z"
             "2024-05" 0)).
    right. reflexivity.
  - apply (proj2 (mutations_guarded (sampleState false []) false
             (mkExpenseData (Qc_of_Z 5) "tea" "food" "2024-06-03")
             (sampleExpense 1 "food" "2024-06-01")
             (sampleBudget "2024-06" "food" 1 1)
             (mkGoalData "Bike" (Qc_of_Z 300) 0 "2024-06-01" "2024-09-01"
                (Some "other") None)
             (sampleGoal 100 80) "g1" "id" "2024-06-03T10:00:00.000Z"
             "2024-05" 0)).
Defined.

(** X2. With a user signed in and a store that accepts the write, [addExpense]
    puts the new expense, carrying the fresh id and the user's id, in front of
    the list.  For every month key that the expense's date starts with, the
    expenses of the month are then the new one followed by those of before,
    and the monthly total is the sum of the new amount and then, in their
    order, of the amounts counted before; for every other key the expenses of
    the month and the monthly total stay as they were. *)
Theorem addExpense_total (st : AppState) (expense : ExpenseData)
    (uuid createdAtIso : string) (u : User) :
  user st = Some u →
  let st' := addExpense st expense uuid createdAtIso false in
  let new := {| e_id := uuid; amount := d_amount expense;
                description := d_description expense;
                category := d_category expense;
                date := d_date expense; createdAt := createdAtIso;
                e_userId := u_id u |} in
  expenses st' = new :: expenses st
  ∧ (∀ m, String.prefix m (d_date expense) = true →
          filterExpensesByMonth (expenses st') m
          = new :: filterExpensesByMonth (expenses st) m
          ∧ calculateMonthlyTotal (expenses st') m
            = sumInOrder (d_amount expense
                          :: (amount <$> filterExpensesByMonth (expenses st) m)))
  ∧ (∀ m, String.prefix m (d_date expense) = false →
          filterExpensesByMonth (expenses st') m
          = filterExpensesByMonth (expenses st) m
          ∧ calculateMonthlyTotal (expenses st') m
            = calculateMonthlyTotal (expenses st) m).
Proof.
  intros Hu st' new. subst st' new. unfold addExpense. rewrite Hu. simpl.
  split; [done|]. split.
  - intros m Hp.
    assert (filterExpensesByMonth
              ({| e_id := uuid; amount := d_amount expense;
                  description := d_description expense;
                  category := d_category expense; date := d_date expense;
                  createdAt := createdAtIso; e_userId := u_id u |}
               :: expenses st) m
            = {| e_id := uuid; amount := d_amount expense;
                 description := d_description expense;
                 category := d_category expense; date := d_date expense;
                 createdAt := createdAtIso; e_userId := u_id u |}
              :: filterExpensesByMonth (expenses st) m) as Hf
      by (unfold filterExpensesByMonth; by rewrite filter_cons_True).
    split; [exact Hf|].
    unfold calculateMonthlyTotal. rewrite Hf, sumAmounts_inOrder.
    reflexivity.
  - intros m Hp.
    assert (filterExpensesByMonth
              ({| e_id := uuid; amount := d_amount expense;
                  description := d_description expense;
                  category := d_category expense; date := d_date expense;
                  createdAt := createdAtIso; e_userId := u_id u |}
               :: expenses st) m
            = filterExpensesByMonth (expenses st) m) as Hf.
    { unfold filterExpensesByMonth. rewrite filter_cons_False; [done|].
      simpl. by rewrite Hp. }
    split; [exact Hf|]. unfold calculateMonthlyTotal. by rewrite Hf.
Qed.

(** 20 on tea added on 20 June 2024 to the three expenses of June (100, 50
    and 30): the total of June is 200, the total of May stays 0. *)
Lemma addExpense_total_witness :
  calculateMonthlyTotal
    (expenses (addExpense
                 (withExpenses (sampleState true []) juneExpenses)
                 (mkExpenseData (Qc_of_Z 20) "tea" "food" "2024-06-20")
                 "id" "2024-06-20T10:00:00.000Z" false)) "2024-06"
  = Qc_of_Z 200
  ∧ calculateMonthlyTotal
      (expenses (addExpense
                   (withExpenses (sampleState true []) juneExpenses)
                   (mkExpenseData (Qc_of_Z 20) "tea" "food" "2024-06-20")
                   "id" "2024-06-20T10:00:00.000Z" false)) "2024-05"
    = calculateMonthlyTotal juneExpenses "2024-05".
Proof.
  split.
  - rewrite (proj2 (proj1 (proj2 (addExpense_total
                  (withExpenses (sampleState true []) juneExpenses)
                  (mkExpenseData (Qc_of_Z 20) "tea" "food" "2024-06-20")
                  "id" "2024-06-20T10:00:00.000Z"
                  {| u_id := "u"; email := "u@example.org" |} eq_refl))
               "2024-06" eq_refl)).
    apply Qc_is_canon. reflexivity.
  - exact (proj2 (proj2 (proj2 (addExpense_total
                  (withExpenses (sampleState true []) juneExpenses)
                  (mkExpenseData (Qc_of_Z 20) "tea" "food" "2024-06-20")
                  "id" "2024-06-20T10:00:00.000Z"
                  {| u_id := "u"; email := "u@example.org" |} eq_refl))
               "2024-05" eq_refl)).
Defined.

(** X3. With a user signed in and a store that accepts the write,
    [deleteExpense] keeps, in their order, exactly the expenses with another
    id; the expenses of every month are those of before without the ones
    carrying the id, and the total of a month in which no expense carries the
    id stays as it was; deleting an id that no expense has leaves the state
    as it was. *)
Theorem deleteExpense_removes (st : AppState) (id : string) (u : User) :
  user st = Some u →
  let es' := expenses (deleteExpense st id false) in
  (∀ e, e ∈ es' ↔ e ∈ expenses st ∧ e_id e ≠ id)
  ∧ es' `sublist_of` expenses st
  ∧ (∀ m, filterExpensesByMonth es' m
          = filter (λ e, e_id e ≠ id) (filterExpensesByMonth (expenses st) m))
  ∧ (∀ m, Forall (λ e, e_id e ≠ id) (filterExpensesByMonth (expenses st) m) →
          calculateMonthlyTotal es' m = calculateMonthlyTotal (expenses st) m)
  ∧ (Forall (λ e, e_id e ≠ id) (expenses st) →
     deleteExpense st id false = st).
Proof.
  intros Hu es'. subst es'. unfold deleteExpense. rewrite Hu. simpl.
  assert (∀ m, filterExpensesByMonth
                 (filter (λ e, e_id e ≠ id) (expenses st)) m
               = filter (λ e, e_id e ≠ id)
                   (filterExpensesByMonth (expenses st) m)) as Hmonth.
  { intros m. unfold filterExpensesByMonth.
    apply (filter_swap (λ e, String.prefix m (date e) = true)
             (λ e, e_id e ≠ id)). }
  split; [|split; [|split; [|split]]].
  - intros e. rewrite list_elem_of_filter. tauto.
  - apply sublist_filter.
  - exact Hmonth.
  - intros m Hno. unfold calculateMonthlyTotal.
    by rewrite Hmonth, filter_all.
  - intros Hno. rewrite filter_all by done. apply withExpenses_id.
Qed.

Lemma deleteExpense_removes_witness :
  deleteExpense (withExpenses (sampleState true []) juneExpenses) "x" false
  = withExpenses (sampleState true []) juneExpenses.
Proof.
  apply (proj2 (proj2 (proj2 (proj2
           (deleteExpense_removes
              (withExpenses (sampleState true []) juneExpenses) "x"
              {| u_id := "u"; email := "u@example.org" |} eq_refl))))).
  repeat constructor; discriminate.
Defined.

(** X4. With a user signed in and a store that accepts the write,
    [updateExpense] keeps the number of expenses and their ids in order,
    replaces every expense carrying the id of the changed one by it and
    leaves the others untouched; when no expense carries that id, nothing
    changes (the expense is not added). *)
Theorem updateExpense_replaces (st : AppState) (changed : Expense) (u : User) :
  user st = Some u →
  let es' := expenses (updateExpense st changed false) in
  e_id <$> es' = e_id <$> expenses st
  ∧ (∀ i e, expenses st !! i = Some e →
            es' !! i = Some (if bool_decide (e_id e = e_id changed)
                             then changed else e))
  ∧ (Forall (λ e, e_id e ≠ e_id changed) (expenses st) →
     updateExpense st changed false = st).
Proof.
  intros Hu es'. subst es'. unfold updateExpense. rewrite Hu. simpl.
  split; [|split].
  - change (map ?f ?l) with (f <$> l). rewrite <-list_fmap_compose.
    apply list_fmap_ext. intros _ e _. simpl. by case_bool_decide.
  - intros i e Hi. change (map ?f ?l) with (f <$> l).
    by rewrite list_lookup_fmap, Hi.
  - intros Hno.
    rewrite (map_replace_absent (λ e, e_id e = e_id changed)) by done.
    apply withExpenses_id.
Qed.

Lemma updateExpense_replaces_witness :
  updateExpense (withExpenses (sampleState true []) juneExpenses)
    (mkExpense "other" (Qc_of_Z 1) "tea" "food" "2024-06-09" "" "u") false
  = withExpenses (sampleState true []) juneExpenses.
Proof.
  apply (proj2 (proj2
           (updateExpense_replaces
              (withExpenses (sampleState true []) juneExpenses)
              (mkExpense "other" (Qc_of_Z 1) "tea" "food" "2024-06-09" "" "u")
              {| u_id := "u"; email := "u@example.org" |} eq_refl))).
  repeat constructor; discriminate.
Defined.

(** ** Storing a budget and reading it back *)

Section BudgetStore.
Implicit Types (bs : list Budget) (b : Budget) (m : string).

Lemma find_month_skip bs1 bs2 m :
  Forall (λ x, month x ≠ m) bs1 →
  List.find (λ x, bool_decide (month x = m)) (bs1 ++ bs2)
  = List.find (λ x, bool_decide (month x = m)) bs2.
Proof. intros Hno. by rewrite find_app, find_month_none. Qed.

(** The list after [updateBudget]: the first budget of the month replaced, or
    the budget appended when the month has none. *)
Lemma updateBudget_shape (st : AppState) b (u : User) :
  user st = Some u →
  (∃ pre old post,
      budgets st = pre ++ old :: post
      ∧ Forall (λ x, month x ≠ month b) pre ∧ month old = month b
      ∧ budgets (updateBudget st b false)
        = pre ++ withUserId b (u_id u) :: post)
  ∨ (Forall (λ x, month x ≠ month b) (budgets st)
     ∧ budgets (updateBudget st b false)
       = budgets st ++ [withUserId b (u_id u)]).
Proof.
  intros Hu. unfold updateBudget. rewrite Hu. simpl.
  destruct (list_find _ (budgets st)) as [[i old]|] eqn:Hfind.
  - left. apply list_find_Some in Hfind as (Hi & Hold & Hbefore).
    exists (take i (budgets st)), old, (drop (S i) (budgets st)).
    split; [by rewrite take_drop_middle|].
    split; [|split; [done|]].
    + apply Forall_forall. intros x Hx.
      apply list_elem_of_lookup in Hx as [j Hj].
      pose proof (lookup_lt_Some _ _ _ Hj) as Hlt.
      rewrite length_take in Hlt.
      rewrite lookup_take_lt in Hj by lia.
      apply (Hbefore j x Hj). lia.
    + simpl. apply insert_take_drop. by eapply lookup_lt_Some.
  - right. split; [|done]. by apply list_find_None in Hfind.
Qed.

End BudgetStore.

(** After [updateBudget], the budget found for the month of the stored budget
    is that budget. *)
Lemma updateBudget_current (st : AppState) (b : Budget) (u : User)
    (uuid : string) :
  user st = Some u →
  getCurrentBudget (budgets (updateBudget st b false)) (month b) uuid
  = withUserId b (u_id u).
Proof.
  intros Hu.
  destruct (updateBudget_shape st b u Hu)
    as [(pre & old & post & Hbs & Hpre & Hold & ->)|[Hno ->]];
    unfold getCurrentBudget.
  - by rewrite find_month_first.
  - rewrite find_month_skip by done. simpl. by rewrite bool_decide_eq_true_2.
Qed.

(** X5. With a user signed in and a store that accepts the write, a budget
    handed to [updateBudget] is what [getCurrentBudget] then returns for its
    month (with the user's id on it); the budget found for any other month is
    the same as before; the budget replaces the stored one of its month in
    place or, if there is none, goes to the end; and if no two stored budgets
    had the same month, this is still so afterwards. *)
Theorem updateBudget_roundtrip (st : AppState) (b : Budget) (u : User)
    (uuid : string) :
  user st = Some u →
  let bs' := budgets (updateBudget st b false) in
  getCurrentBudget bs' (month b) uuid = withUserId b (u_id u)
  ∧ (∀ m, m ≠ month b →
          getCurrentBudget bs' m uuid = getCurrentBudget (budgets st) m uuid)
  ∧ (month <$> bs' = month <$> budgets st
     ∨ ((month b ∉ (month <$> budgets st))
        ∧ month <$> bs' = (month <$> budgets st) ++ [month b]))
  ∧ (NoDup (month <$> budgets st) → NoDup (month <$> bs')).
Proof.
  intros Hu bs'. subst bs'.
  split; [by apply updateBudget_current|].
  destruct (updateBudget_shape st b u Hu)
    as [(pre & old & post & Hbs & Hpre & Hold & ->)|[Hno ->]].
  - assert (month <$> (pre ++ withUserId b (u_id u) :: post)
            = month <$> budgets st) as Hmonths.
    { rewrite Hbs, !fmap_app, !fmap_cons. simpl. by rewrite Hold. }
    split; [|split].
    + intros m Hm. unfold getCurrentBudget. rewrite Hbs, !find_app.
      destruct (List.find _ pre); [done|]. simpl.
      rewrite !bool_decide_eq_false_2; [done| |]; congruence.
    + by left.
    + by rewrite Hmonths.
  - assert (month b ∉ (month <$> budgets st)) as Hfresh.
    { intros Hin. apply list_elem_of_fmap in Hin as (x & Hx & Hin).
      rewrite Forall_forall in Hno. by apply (Hno x Hin). }
    split; [|split].
    + intros m Hm. unfold getCurrentBudget. rewrite find_app.
      destruct (List.find _ (budgets st)); [done|]. simpl.
      by rewrite bool_decide_eq_false_2 by congruence.
    + right. split; [done|]. by rewrite fmap_app.
    + intros Hnd. rewrite fmap_app. simpl.
      apply NoDup_app. split; [done|]. split.
      * intros x Hx Hx'. apply list_elem_of_singleton in Hx'. by subst x.
      * apply NoDup_singleton.
Qed.

Lemma updateBudget_roundtrip_witness :
  getCurrentBudget
    (budgets (updateBudget (sampleState true [])
                (sampleBudget "2024-06" "food" 200 500) false))
    "2024-06" "fresh"
  = withUserId (sampleBudget "2024-06" "food" 200 500) "u".
Proof.
  exact (proj1 (updateBudget_roundtrip (sampleState true [])
                  (sampleBudget "2024-06" "food" 200 500)
                  {| u_id := "u"; email := "u@example.org" |} "fresh"
                  eq_refl)).
Defined.

(** ** Savings goals: the bound on the current amount *)

Section GoalBound.
Implicit Types (st : AppState) (goal g : SavingsGoal).

Lemma handleAddFunds_Submitted goal (numAmount : option Qc) (id : string)
    (newTotal : Qc) :
  handleAddFunds goal numAmount = Submitted id newTotal →
  id = g_id goal ∧ currentAmount goal < newTotal
  ∧ newTotal ≤ targetAmount goal.
Proof.
  unfold handleAddFunds. destruct numAmount as [a|]; [|done].
  case_bool_decide as Ha; [done|]. case_bool_decide as Hex; [done|].
  intros [= <- <-]. split; [done|]. split.
  - apply Qcnot_le_lt in Ha.
    rewrite <-(Qcplus_0_r (currentAmount goal)) at 1.
    by apply Qcplus_lt_mono_l.
  - by apply Qcnot_lt_le.
Qed.

Lemma updateSavingsAmount_cases st (id : string) (a : Qc) (storeError : bool) :
  updateSavingsAmount st id a storeError = st
  ∨ savingsGoals (updateSavingsAmount st id a storeError)
    = (λ g, if bool_decide (g_id g = id) then withCurrentAmount g a else g)
      <$> savingsGoals st.
Proof.
  unfold updateSavingsAmount.
  destruct (user st); [|by left].
  destruct (List.find _ _); [|by left].
  destruct storeError; [by left|by right].
Qed.

Lemma same_id_same_goal (gs : list SavingsGoal) g goal :
  NoDup (g_id <$> gs) → g ∈ gs → goal ∈ gs → g_id g = g_id goal → g = goal.
Proof.
  intros Hnd Hg Hgoal Hid.
  apply list_elem_of_lookup in Hg as [i Hi].
  apply list_elem_of_lookup in Hgoal as [j Hj].
  assert (i = j) as ->; [|congruence].
  apply (NoDup_lookup _ i j (g_id g) Hnd); rewrite list_lookup_fmap.
  - by rewrite Hi.
  - by rewrite Hj, Hid.
Qed.

End GoalBound.

(** X6. Funding never breaks the bound of a savings goal: if the ids of the
    stored goals are distinct, the goal shown in the form is one of them and
    every stored goal has [0 <= currentAmount <= targetAmount], then after
    the funding operation, whatever was typed and whatever the store answers,
    every stored goal still has it, the goals and their ids are the same in
    the same order, and the current amount of the funded goal has not gone
    down. *)
Theorem funding_keeps_bound (st : AppState) (goal : SavingsGoal)
    (numAmount : option Qc) (storeError : bool) :
  NoDup (g_id <$> savingsGoals st) →
  goal ∈ savingsGoals st →
  Forall goalInvariant (savingsGoals st) →
  let st' := (fund st goal numAmount storeError).1 in
  Forall goalInvariant (savingsGoals st')
  ∧ g_id <$> savingsGoals st' = g_id <$> savingsGoals st
  ∧ (∀ g, g ∈ savingsGoals st' → g_id g = g_id goal →
          currentAmount goal ≤ currentAmount g).
Proof.
  intros Hnd Hin Hinv st'. subst st'. unfold fund.
  assert (∀ g, g ∈ savingsGoals st → g_id g = g_id goal →
            currentAmount goal ≤ currentAmount g) as Hsame.
  { intros g Hg Hid. rewrite (same_id_same_goal _ g goal Hnd Hg Hin Hid).
    apply Qcle_refl. }
  destruct (handleAddFunds goal numAmount) as [e|id newTotal] eqn:Hh; simpl;
    [done|].
  apply handleAddFunds_Submitted in Hh as (-> & Hlt & Hle).
  destruct (updateSavingsAmount_cases st (g_id goal) newTotal storeError)
    as [-> | ->]; [done|].
  split; [|split].
  - apply Forall_fmap.
    rewrite Forall_forall in Hinv. apply Forall_forall. intros g Hg.
    simpl. case_bool_decide as Hid; [|by apply Hinv].
    rewrite (same_id_same_goal _ g goal Hnd Hg Hin Hid).
    destruct (Hinv goal Hin) as [H0 _]. split; simpl; [|done].
    apply Qclt_le_weak. by eapply Qcle_lt_trans.
  - rewrite <-list_fmap_compose. apply list_fmap_ext. intros _ g _. simpl.
    by case_bool_decide.
  - intros g Hg Hid. apply list_elem_of_fmap in Hg as (g0 & -> & Hg0).
    case_bool_decide as Hid0; [simpl; by apply Qclt_le_weak|].
    by apply Hsame.
Qed.

Lemma funding_keeps_bound_witness :
  Forall goalInvariant
    (savingsGoals (fund (sampleState true [sampleGoal 100 80])
                     (sampleGoal 100 80) (Some (Qc_of_Z 20)) false).1).
Proof.
  apply (funding_keeps_bound (sampleState true [sampleGoal 100 80])
           (sampleGoal 100 80) (Some (Qc_of_Z 20)) false).
  - simpl. apply NoDup_singleton.
  - left.
  - repeat constructor; by vm_compute.
Defined.

Section Progress.
Implicit Types (g : SavingsGoal) (c t p : Qc).

Lemma hundred_pos : 0 < Qc_of_Z 100.
Proof. reflexivity. Qed.

Lemma ratio_times t c : 0 < t → c / t * Qc_of_Z 100 * t = c * Qc_of_Z 100.
Proof. intros Ht. field. by apply pos_nonzero. Qed.

(** For a positive target the percentage compares with 100 as the amount
    compares with the target, and is non-negative with the amount. *)
Lemma percent_ge_100 t c :
  0 < t → (Qc_of_Z 100 ≤ c / t * Qc_of_Z 100 ↔ t ≤ c).
Proof.
  intros Ht. split; intros H.
  - apply (Qcmult_lt_0_le_reg_r _ _ (Qc_of_Z 100) hundred_pos).
    rewrite <-(ratio_times t c Ht), (Qcmult_comm t).
    apply Qcmult_le_compat_r; [done|by apply Qclt_le_weak].
  - apply (Qcmult_lt_0_le_reg_r _ _ t Ht).
    rewrite ratio_times by done. rewrite (Qcmult_comm _ t).
    apply Qcmult_le_compat_r; [done|]. apply Qclt_le_weak, hundred_pos.
Qed.

Lemma percent_le_100 t c :
  0 < t → (c / t * Qc_of_Z 100 ≤ Qc_of_Z 100 ↔ c ≤ t).
Proof.
  intros Ht. split; intros H.
  - apply (Qcmult_lt_0_le_reg_r _ _ (Qc_of_Z 100) hundred_pos).
    rewrite <-(ratio_times t c Ht), (Qcmult_comm t).
    apply Qcmult_le_compat_r; [done|by apply Qclt_le_weak].
  - apply (Qcmult_lt_0_le_reg_r _ _ t Ht).
    rewrite ratio_times by done. rewrite (Qcmult_comm _ t).
    apply Qcmult_le_compat_r; [done|]. apply Qclt_le_weak, hundred_pos.
Qed.

Lemma percent_nonneg t c : 0 < t → 0 ≤ c → 0 ≤ c / t * Qc_of_Z 100.
Proof.
  intros Ht Hc. apply (Qcmult_lt_0_le_reg_r _ _ t Ht).
  rewrite ratio_times, Qcmult_0_l by done.
  rewrite <-(Qcmult_0_l (Qc_of_Z 100)).
  apply Qcmult_le_compat_r; [done|]. apply Qclt_le_weak, hundred_pos.
Qed.

End Progress.

(** X7. The savings progress always has a value.  For a goal with a positive
    target it reaches 100, which is when the goal list shows the goal as
    completed, exactly when the current amount has reached the target, and it
    lies between 0 and 100 when the current amount lies between 0 and the
    target; for a target that is not positive it is 0. *)
Theorem savings_progress_completed (g : SavingsGoal) :
  ∃ p, calculateSavingsProgress g = Some p
       ∧ (0 < targetAmount g →
          (Qc_of_Z 100 ≤ p ↔ targetAmount g ≤ currentAmount g)
          ∧ (goalInvariant g → 0 ≤ p ∧ p ≤ Qc_of_Z 100))
       ∧ (¬ 0 < targetAmount g → p = 0).
Proof.
  rewrite calculateSavingsProgress_percentOf.
  destruct (decide (0 < targetAmount g)) as [Ht|Ht].
  - rewrite percentOf_pos by done. eexists. split; [done|]. split; [|done].
    intros _. split; [by apply percent_ge_100|].
    intros [H0 Hle]. split; [by apply percent_nonneg|by apply percent_le_100].
  - rewrite percentOf_nonpos by done. eexists. split; [done|]. split; done.
Qed.

Lemma savings_progress_completed_witness :
  ∃ p, calculateSavingsProgress (sampleGoal 100 80) = Some p
       ∧ ¬ Qc_of_Z 100 ≤ p ∧ 0 ≤ p.
Proof.
  destruct (savings_progress_completed (sampleGoal 100 80))
    as (p & Hp & Hpos & _).
  exists p. split; [exact Hp|].
  destruct (Hpos eq_refl) as [Hiff Hrange]. split.
  - intros H100. apply Hiff in H100. revert H100. by vm_compute.
  - apply Hrange. split; by vm_compute.
Defined.

(** ** Forms *)

Section FormChecks.
Implicit Types (f : TextField) (q : Qc).

Lemma notPositive_false f :
  notPositive f = false ↔ ∃ q, f = Text (Some q) ∧ 0 < q.
Proof.
  unfold notPositive. destruct f as [|[q|]]; simpl.
  - split; [done|]. by intros (q & ? & _).
  - rewrite bool_decide_eq_false. split.
    + intros Hq. exists q. split; [done|]. by apply Qcnot_le_lt.
    + intros (q' & [= <-] & Hq). by apply Qclt_not_le.
  - split; [done|]. by intros (q & ? & _).
Qed.

Lemma notNonNegative_false f :
  notNonNegative f = false ↔ ∃ q, f = Text (Some q) ∧ 0 ≤ q.
Proof.
  unfold notNonNegative. destruct f as [|[q|]]; simpl.
  - split; [done|]. by intros (q & ? & _).
  - rewrite bool_decide_eq_false. split.
    + intros Hq. exists q. split; [done|]. by apply Qcnot_lt_le.
    + intros (q' & [= <-] & Hq). by apply Qcle_not_lt.
  - split; [done|]. by intros (q & ? & _).
Qed.

Lemma numberGt_false (t c : Qc) :
  numberGt (Text (Some c)) (Text (Some t)) = false ↔ c ≤ t.
Proof.
  unfold numberGt. simpl. rewrite bool_decide_eq_false.
  split; [apply Qcnot_lt_le|apply Qcle_not_lt].
Qed.

Lemma truthyString_true (s : string) :
  truthyString s = true ↔ s ≠ EmptyString.
Proof. by destruct s. Qed.

(** The goal form is accepted exactly when none of its five checks fires. *)
Lemma validateGoalForm_checks (trim : string → string) (gf : GoalForm) :
  validateGoalForm trim gf = true
  ↔ truthyString (trim (gf_name gf)) = true
    ∧ notPositive (gf_targetAmount gf) = false
    ∧ notNonNegative (gf_currentAmount gf) = false
    ∧ numberGt (gf_currentAmount gf) (gf_targetAmount gf) = false
    ∧ truthyString (gf_targetDate gf) = true.
Proof.
  unfold validateGoalForm, goalFormErrors. cbv zeta.
  destruct (truthyString (trim (gf_name gf)));
    destruct (notPositive (gf_targetAmount gf));
    destruct (notNonNegative (gf_currentAmount gf));
    destruct (numberGt (gf_currentAmount gf) (gf_targetAmount gf));
    destruct (truthyString (gf_targetDate gf));
    (split; [intros H; try (by vm_compute in H); by repeat split
            |intros (? & ? & ? & ? & ?); try discriminate; reflexivity]).
Qed.

Lemma validateExpenseForm_checks (trim : string → string) (xf : ExpenseForm) :
  validateExpenseForm trim xf = true
  ↔ notPositive (xf_amount xf) = false
    ∧ truthyString (trim (xf_description xf)) = true
    ∧ truthyString (xf_date xf) = true.
Proof.
  unfold validateExpenseForm, expenseFormErrors. cbv zeta.
  destruct (notPositive (xf_amount xf));
    destruct (truthyString (trim (xf_description xf)));
    destruct (truthyString (xf_date xf));
    (split; [intros H; try (by vm_compute in H); by repeat split
            |intros (? & ? & ?); try discriminate; reflexivity]).
Qed.

End FormChecks.

(** X8. The savings goal form is accepted exactly when the trimmed name and
    the target date are not empty and the two amounts are numbers with
    [target > 0] and [0 <= current <= target]; a refused form asks nothing of
    the context; an accepted one asks the context to add the goal with the
    name, the two amounts, the target date and the category of the form and
    with today as its start date or, when a goal is edited, to update it to
    these values under its id, owner and icon, the start date becoming today
    here too; the goal asked for is within the bound
    [0 <= currentAmount <= targetAmount]. *)
Theorem goal_form_guarantees (trim : string → string) (gf : GoalForm)
    (today : JsDate.t) :
  (validateGoalForm trim gf = true
   ↔ trim (gf_name gf) ≠ EmptyString
     ∧ (∃ t c, gf_targetAmount gf = Text (Some t)
               ∧ gf_currentAmount gf = Text (Some c)
               ∧ 0 < t ∧ 0 ≤ c ∧ c ≤ t)
     ∧ gf_targetDate gf ≠ EmptyString)
  ∧ (validateGoalForm trim gf = false →
     ∀ editGoal, goalHandleSubmit trim gf editGoal today = NoGoalRequest)
  ∧ (validateGoalForm trim gf = true →
     ∃ t c, gf_targetAmount gf = Text (Some t)
            ∧ gf_currentAmount gf = Text (Some c)
            ∧ goalHandleSubmit trim gf None today
              = RequestAddSavingsGoal
                  {| gd_name := gf_name gf; gd_targetAmount := t;
                     gd_currentAmount := c; gd_startDate := formatDay today;
                     gd_targetDate := gf_targetDate gf;
                     gd_category := Some (gf_category gf);
                     gd_icon := None |}
            ∧ ∀ old,
                goalHandleSubmit trim gf (Some old) today
                = RequestUpdateSavingsGoal
                    {| g_id := g_id old; name := gf_name gf;
                       targetAmount := t; currentAmount := c;
                       startDate := formatDay today;
                       targetDate := gf_targetDate gf;
                       g_category := Some (gf_category gf);
                       icon := icon old; g_userId := g_userId old |}
                ∧ goalInvariant
                    {| g_id := g_id old; name := gf_name gf;
                       targetAmount := t; currentAmount := c;
                       startDate := formatDay today;
                       targetDate := gf_targetDate gf;
                       g_category := Some (gf_category gf);
                       icon := icon old; g_userId := g_userId old |}).
Proof.
  assert (validateGoalForm trim gf = true
          ↔ trim (gf_name gf) ≠ EmptyString
            ∧ (∃ t c, gf_targetAmount gf = Text (Some t)
                      ∧ gf_currentAmount gf = Text (Some c)
                      ∧ 0 < t ∧ 0 ≤ c ∧ c ≤ t)
            ∧ gf_targetDate gf ≠ EmptyString) as Hvalid.
  { rewrite validateGoalForm_checks, !truthyString_true,
      notPositive_false, notNonNegative_false.
    split.
    - intros (Hn & (t & Ht & Htpos) & (c & Hc & Hcpos) & Hgt & Hd).
      split; [done|]. split; [|done]. exists t, c.
      rewrite Ht, Hc in Hgt. apply numberGt_false in Hgt. done.
    - intros (Hn & (t & c & Ht & Hc & Htpos & Hcpos & Hle) & Hd).
      split; [done|]. split; [by exists t|]. split; [by exists c|].
      split; [|done]. rewrite Ht, Hc. by apply numberGt_false. }
  split; [exact Hvalid|]. split.
  - intros Hno editGoal. unfold goalHandleSubmit. by rewrite Hno.
  - intros Hyes.
    destruct (proj1 Hvalid Hyes)
      as (_ & (t & c & Ht & Hc & Htpos & Hcpos & Hle) & _).
    exists t, c. split; [done|]. split; [done|].
    unfold goalHandleSubmit. rewrite Hyes, Ht, Hc. cbv zeta.
    split; [reflexivity|]. intros old. split; [reflexivity|].
    unfold goalInvariant. by cbn [currentAmount targetAmount].
Qed.

(** A form without target amount asks nothing; the form for a bicycle at
    300, nothing saved yet, filled in on 10 June 2024, asks to add that goal
    with the start date 2024-06-10. *)
Lemma goal_form_guarantees_witness :
  goalHandleSubmit (λ s, s)
    (mkGoalForm "Bike" (Text None) (Text (Some 0)) "2024-09-01" "other")
    (Some (sampleGoal 100 80)) (noon 2024 6 10)
  = NoGoalRequest
  ∧ ∃ t c,
      Text (Some (Qc_of_Z 300)) = Text (Some t)
      ∧ Text (Some 0) = Text (Some c)
      ∧ goalHandleSubmit (λ s, s)
          (mkGoalForm "Bike" (Text (Some (Qc_of_Z 300))) (Text (Some 0))
             "2024-09-01" "other") None (noon 2024 6 10)
        = RequestAddSavingsGoal
            {| gd_name := "Bike"; gd_targetAmount := t;
               gd_currentAmount := c;
               gd_startDate := formatDay (noon 2024 6 10);
               gd_targetDate := "2024-09-01";
               gd_category := Some "other"; gd_icon := None |}.
Proof.
  split.
  - apply (proj1 (proj2 (goal_form_guarantees (λ s, s)
                           (mkGoalForm "Bike" (Text None) (Text (Some 0))
                              "2024-09-01" "other") (noon 2024 6 10)))).
    reflexivity.
  - destruct (proj2 (proj2 (goal_form_guarantees (λ s, s)
                (mkGoalForm "Bike" (Text (Some (Qc_of_Z 300)))
                   (Text (Some 0)) "2024-09-01" "other") (noon 2024 6 10)))
                eq_refl) as (t & c & Ht & Hc & Hadd & _).
    exists t, c. split; [exact Ht|]. split; [exact Hc|]. exact Hadd.
Defined.

(** X9. The budget form submits nothing exactly when the total is empty, not
    a number or negative.  A submitted budget is for the current month, has
    the typed, non-negative total, has a limit exactly for the categories
    whose field holds a positive number, that number being the limit, and
    keeps the id of the stored budget of the month when there is one; once
    stored by [updateBudget] it is what [getCurrentBudget] returns for the
    current month. *)
Theorem budget_form_guarantees (st : AppState) (total : TextField)
    (categoryBudgets : gmap string TextField) (uuid : string) :
  (budgetHandleSubmit st total categoryBudgets uuid = None
   ↔ ¬ ∃ q, total = Text (Some q) ∧ 0 ≤ q)
  ∧ ∀ b, budgetHandleSubmit st total categoryBudgets uuid = Some b →
      month b = currentMonth st
      ∧ total = Text (Some (totalBudget b)) ∧ 0 ≤ totalBudget b
      ∧ (∀ c limit, categories b !! c = Some limit
                    ↔ categoryBudgets !! c = Some (Text (Some limit))
                      ∧ 0 < limit)
      ∧ (∀ old, List.find (λ x, bool_decide (month x = currentMonth st))
                  (budgets st) = Some old →
                b_id old ≠ EmptyString → b_id b = b_id old)
      ∧ (∀ u fresh, user st = Some u →
           getCurrentBudget (budgets (updateBudget st b false))
             (currentMonth st) fresh
           = withUserId b (u_id u)).
Proof.
  unfold budgetHandleSubmit. cbv zeta.
  destruct (notNonNegative total) eqn:Htotal.
  - split; [|done]. split; [|done]. intros _ Hok.
    apply notNonNegative_false in Hok. congruence.
  - apply notNonNegative_false in Htotal as (q & -> & Hq).
    split; [split; [done|intros []; by exists q]|].
    intros b [= <-]. simpl.
    split; [done|]. split; [done|]. split; [done|]. split; [|split].
    + intros c limit. rewrite lookup_omap.
      destruct (categoryBudgets !! c) as [[|[x|]]|]; simpl;
        try (split; [done|by intros [? _]]).
      case_bool_decide as Hx.
      * split; [by intros [= ->]|by intros [[= ->] _]].
      * split; [done|]. intros [[= ->] Hpos]. done.
    + intros old -> Hid. by rewrite (proj2 (truthyString_true _) Hid).
    + intros u fresh Hu.
      by rewrite <-(updateBudget_current st _ u fresh Hu).
Qed.

Lemma budget_form_guarantees_witness :
  omap parseCategoryBudget
    ({[ "food" := Text (Some (Qc_of_Z 200)); "gifts" := EmptyText ]}
       : gmap string TextField) !! "food" = Some (Qc_of_Z 200)
  ∧ getCurrentBudget
      (budgets
         (updateBudget (sampleState true [])
            {| b_id := "id"; month := "2024-06";
               categories :=
                 omap parseCategoryBudget
                   {[ "food" := Text (Some (Qc_of_Z 200));
                      "gifts" := EmptyText ]};
               totalBudget := Qc_of_Z 500; b_userId := None |} false))
      "2024-06" "other"
    = withUserId
        {| b_id := "id"; month := "2024-06";
           categories :=
             omap parseCategoryBudget
               {[ "food" := Text (Some (Qc_of_Z 200));
                  "gifts" := EmptyText ]};
           totalBudget := Qc_of_Z 500; b_userId := None |} "u".
Proof.
  destruct (proj2 (budget_form_guarantees (sampleState true [])
                     (Text (Some (Qc_of_Z 500)))
                     {[ "food" := Text (Some (Qc_of_Z 200));
                        "gifts" := EmptyText ]} "id")
              {| b_id := "id"; month := "2024-06";
                 categories :=
                   omap parseCategoryBudget
                     {[ "food" := Text (Some (Qc_of_Z 200));
                        "gifts" := EmptyText ]};
                 totalBudget := Qc_of_Z 500; b_userId := None |} eq_refl)
    as (_ & _ & _ & Hcat & _ & Hstored).
  split.
  - apply Hcat. split; reflexivity.
  - exact (Hstored {| u_id := "u"; email := "u@example.org" |} "other"
             eq_refl).
Defined.

Section Positive.
Implicit Types (es : list Expense) (m : string).

Lemma sumAmounts_nonneg es :
  Forall (λ e, 0 < amount e) es → 0 ≤ sumAmounts es.
Proof.
  induction 1 as [|e es He _ IH]; [by rewrite sumAmounts_nil|].
  rewrite sumAmounts_cons. apply Qclt_le_weak. by apply Qcplus_pos_nonneg.
Qed.

Lemma sumAmounts_pos e es :
  Forall (λ e, 0 < amount e) (e :: es) → 0 < sumAmounts (e :: es).
Proof.
  intros Hall. apply Forall_cons in Hall as [He Hes].
  rewrite sumAmounts_cons. apply Qcplus_pos_nonneg; [done|].
  by apply sumAmounts_nonneg.
Qed.

Lemma Forall_filter_keep {A} (P Q : A → Prop) `{!∀ x, Decision (Q x)}
    (l : list A) :
  Forall P l → Forall P (filter Q l).
Proof.
  rewrite !Forall_forall. intros Hall x Hx.
  apply list_elem_of_filter in Hx as [_ Hx]. by apply Hall.
Qed.

End Positive.

(** X10. When every amount is positive, as the expense form makes sure, a
    monthly total is never negative and is zero exactly when the month has no
    expense, and every value of the per-category map is positive and at most
    the monthly total. *)
Theorem positive_amounts_aggregates (es : list Expense) (m : string) :
  Forall (λ e, 0 < amount e) es →
  0 ≤ calculateMonthlyTotal es m
  ∧ (calculateMonthlyTotal es m = 0 ↔ filterExpensesByMonth es m = [])
  ∧ (∀ c v, calculateExpensesByCategory es m !! c = Some v →
            0 < v ∧ v ≤ calculateMonthlyTotal es m).
Proof.
  intros Hall.
  assert (Forall (λ e, 0 < amount e) (filterExpensesByMonth es m)) as Hsel
    by by apply Forall_filter_keep.
  unfold calculateMonthlyTotal, calculateExpensesByCategory.
  split; [by apply sumAmounts_nonneg|]. split.
  - split; [|by intros ->].
    destruct (filterExpensesByMonth es m) as [|e l]; [done|].
    intros Hzero. pose proof (sumAmounts_pos e l Hsel) as Hpos.
    rewrite Hzero in Hpos. by apply Qclt_not_eq in Hpos.
  - intros c v. rewrite byCategory_lookup.
    destruct (ofCategory c (filterExpensesByMonth es m)) as [|e l] eqn:Hc;
      [done|].
    intros Hv.
    assert (v = sumAmounts (e :: l)) as ->
      by (rewrite sumAmounts_sumList; congruence).
    assert (Forall (λ e, 0 < amount e) (e :: l)) as Hcat.
    { rewrite <-Hc. by apply Forall_filter_keep. }
    split; [by apply sumAmounts_pos|].
    rewrite (sumAmounts_split (λ e, category e = c)
               (filterExpensesByMonth es m)).
    fold (ofCategory c (filterExpensesByMonth es m)). rewrite Hc.
    rewrite <-(Qcplus_0_r (sumAmounts (e :: l))) at 1.
    apply Qcplus_le_mono_l. apply sumAmounts_nonneg.
    by apply Forall_filter_keep.
Qed.

Lemma positive_amounts_aggregates_witness :
  0 ≤ calculateMonthlyTotal juneExpenses "2024-06"
  ∧ (calculateMonthlyTotal juneExpenses "2025-01" = 0
     ↔ filterExpensesByMonth juneExpenses "2025-01" = []).
Proof.
  assert (Forall (λ e, 0 < amount e) juneExpenses) as Hpos
    by (repeat constructor).
  split.
  - exact (proj1 (positive_amounts_aggregates juneExpenses "2024-06" Hpos)).
  - exact (proj1 (proj2 (positive_amounts_aggregates juneExpenses "2025-01"
                           Hpos))).
Defined.

(** X11. The expense form is accepted exactly when the amount is a positive
    number and the trimmed description and the date are not empty; a refused
    form changes nothing; an edit keeps the id, the creation time and the
    owner of the edited expense; and if every stored amount is positive it is
    still so after the form was submitted, whatever was typed and whatever
    the store answers. *)
Theorem expense_form_guarantees (trim : string → string) (st : AppState)
    (xf : ExpenseForm) (editExpense : option Expense)
    (uuid createdAtIso : string) (storeError : bool) :
  (validateExpenseForm trim xf = true
   ↔ (∃ a, xf_amount xf = Text (Some a) ∧ 0 < a)
     ∧ trim (xf_description xf) ≠ EmptyString
     ∧ xf_date xf ≠ EmptyString)
  ∧ (validateExpenseForm trim xf = false →
     submitExpenseForm trim st xf editExpense uuid createdAtIso storeError
     = st)
  ∧ (∀ old e, expenseHandleSubmit trim xf (Some old) = RequestUpdateExpense e →
              e_id e = e_id old ∧ createdAt e = createdAt old
              ∧ e_userId e = e_userId old ∧ 0 < amount e)
  ∧ (Forall (λ e, 0 < amount e) (expenses st) →
     Forall (λ e, 0 < amount e)
       (expenses (submitExpenseForm trim st xf editExpense uuid createdAtIso
                    storeError))).
Proof.
  assert (validateExpenseForm trim xf = true
          ↔ (∃ a, xf_amount xf = Text (Some a) ∧ 0 < a)
            ∧ trim (xf_description xf) ≠ EmptyString
            ∧ xf_date xf ≠ EmptyString) as Hvalid.
  { by rewrite validateExpenseForm_checks, !truthyString_true,
      notPositive_false. }
  split; [exact Hvalid|].
  unfold submitExpenseForm, expenseHandleSubmit.
  destruct (validateExpenseForm trim xf).
  - destruct (proj1 Hvalid eq_refl) as ((a & Ha & Hpos) & _ & _).
    split; [done|]. split.
    + intros old e [= <-]. simpl. by rewrite Ha.
    + intros Hall. destruct editExpense as [old|].
      * unfold updateExpense. destruct (user st); [|done].
        destruct storeError; [done|]. simpl.
        apply Forall_forall. intros e He.
        apply list_elem_of_fmap in He as (e0 & -> & He0).
        rewrite Forall_forall in Hall.
        case_bool_decide; [simpl; by rewrite Ha|by apply Hall].
      * unfold addExpense. destruct (user st); [|done].
        destruct storeError; [done|]. simpl.
        apply Forall_cons. split; [simpl; by rewrite Ha|done].
  - split; [done|]. split; [done|]. done.
Qed.

Lemma expense_form_guarantees_witness :
  submitExpenseForm (λ s, s) (sampleState true [])
    (mkExpenseForm (Text (Some 0)) "tea" "food" "2024-06-03") None "id"
    "2024-06-03T10:00:00.000Z" false
  = sampleState true []
  ∧ Forall (λ e, 0 < amount e)
      (expenses (submitExpenseForm (λ s, s)
                   (withExpenses (sampleState true []) juneExpenses)
                   (mkExpenseForm (Text (Some (Qc_of_Z 7))) "tea" "food"
                      "2024-06-03") None "id" "2024-06-03T10:00:00.000Z"
                   false)).
Proof.
  split.
  - apply (proj1 (proj2 (expense_form_guarantees (λ s, s)
             (sampleState true [])
             (mkExpenseForm (Text (Some 0)) "tea" "food" "2024-06-03") None
             "id" "2024-06-03T10:00:00.000Z" false))).
    reflexivity.
  - apply (proj2 (proj2 (proj2 (expense_form_guarantees (λ s, s)
             (withExpenses (sampleState true []) juneExpenses)
             (mkExpenseForm (Text (Some (Qc_of_Z 7))) "tea" "food"
                "2024-06-03") None "id" "2024-06-03T10:00:00.000Z" false)))).
    repeat constructor.
Defined.

(** ** Header and budget overview *)

Section Overview.
Implicit Types (st : AppState) (c : string) (es : list Expense).

Lemma or_default_zero (o : option Qc) : Num.or_default o 0 = default 0 o.
Proof.
  destruct o as [v|]; [|done]. unfold Num.or_default. simpl.
  destruct (Num.truthy v) eqn:Hv; [done|]. by apply truthy_false in Hv.
Qed.

Lemma find_month_Some (bs : list Budget) (m : string) (b : Budget) :
  List.find (λ x, bool_decide (month x = m)) bs = Some b → month b = m.
Proof.
  intros Hf. apply List.find_some in Hf as [_ Hm].
  by apply bool_decide_eq_true in Hm.
Qed.

Lemma getCurrentBudget_month (bs : list Budget) (m uuid : string) :
  month (getCurrentBudget bs m uuid) = m.
Proof.
  unfold getCurrentBudget.
  destruct (List.find _ bs) as [b|] eqn:Hf; [|done].
  by apply find_month_Some in Hf.
Qed.

Lemma percent_gt_100 (t s : Qc) :
  0 < t → (Qc_of_Z 100 < s / t * Qc_of_Z 100 ↔ t < s).
Proof.
  intros Ht. rewrite !Qclt_nge. by rewrite percent_le_100.
Qed.

Lemma arrayFromSet_acc (l acc : list string) :
  NoDup acc →
  NoDup (fold_left (λ set x, if bool_decide (x ∈ set) then set
                             else set ++ [x]) l acc)
  ∧ ∀ x, x ∈ fold_left (λ set x, if bool_decide (x ∈ set) then set
                                 else set ++ [x]) l acc
         ↔ x ∈ acc ∨ x ∈ l.
Proof.
  revert acc. induction l as [|y l IH]; intros acc Hacc; simpl.
  - split; [done|]. intros x. rewrite elem_of_nil. tauto.
  - case_bool_decide as Hy.
    + destruct (IH acc Hacc) as [Hnd Hin]. split; [done|].
      intros x. rewrite Hin, elem_of_cons.
      split; [tauto|]. intros [?|[->|?]]; tauto.
    + assert (NoDup (acc ++ [y])) as Hacc'.
      { apply NoDup_app. split; [done|]. split; [|apply NoDup_singleton].
        intros x Hx Hx'. apply list_elem_of_singleton in Hx'. by subst x. }
      destruct (IH _ Hacc') as [Hnd Hin]. split; [done|].
      intros x. rewrite Hin, elem_of_app, !elem_of_cons, elem_of_nil.
      tauto.
Qed.

Lemma arrayFromSet_spec (l : list string) :
  NoDup (arrayFromSet l) ∧ ∀ x, x ∈ arrayFromSet l ↔ x ∈ l.
Proof.
  destruct (arrayFromSet_acc l [] (NoDup_nil_2)) as [Hnd Hin].
  split; [done|]. intros x. unfold arrayFromSet. rewrite Hin, elem_of_nil.
  tauto.
Qed.

Lemma sumList_cons (x : Qc) (l : list Qc) : sumList (x :: l) = x + sumList l.
Proof. reflexivity. Qed.

Lemma arrayFromSet_fresh (keys acc : list string) :
  NoDup (acc ++ keys) →
  fold_left (λ set x, if bool_decide (x ∈ set) then set else set ++ [x])
    keys acc = acc ++ keys.
Proof.
  revert acc. induction keys as [|y keys IH]; intros acc Hnd; simpl.
  - by rewrite app_nil_r.
  - rewrite bool_decide_eq_false_2.
    + rewrite IH; rewrite <-app_assoc; done.
    + apply NoDup_app in Hnd as (_ & Hdisj & _). intros Hy.
      apply (Hdisj y Hy). left.
Qed.

Lemma arrayFromSet_grows (l acc : list string) :
  ∃ rest,
    fold_left (λ set x, if bool_decide (x ∈ set) then set else set ++ [x])
      l acc = acc ++ rest.
Proof.
  revert acc. induction l as [|y l IH]; intros acc; simpl.
  - exists []. by rewrite app_nil_r.
  - case_bool_decide; [apply IH|].
    destruct (IH (acc ++ [y])) as [rest ->]. exists (y :: rest).
    by rewrite <-app_assoc.
Qed.

Lemma arrayFromSet_prefix (keys l : list string) :
  NoDup keys → ∃ rest, arrayFromSet (keys ++ l) = keys ++ rest.
Proof.
  intros Hnd. unfold arrayFromSet. rewrite fold_left_app.
  rewrite (arrayFromSet_fresh keys []) by done. apply arrayFromSet_grows.
Qed.

End Overview.

(** X12. The remaining budget shown in the header is the one the budget
    overview computes, for every state; and when the budget of the month has
    a positive total, the overview's alert "You've exceeded your monthly
    budget" ([remaining < 0]) shows exactly when the progress is above 100. *)
Theorem header_overview_agree (st : AppState) (uuid : string) :
  headerRemainingBudget st = overviewRemaining st uuid
  ∧ (0 < totalBudget (overviewCurrentBudget st uuid) →
     ∃ p, overviewProgress st uuid = Some p
          ∧ (overviewRemaining st uuid < 0 ↔ Qc_of_Z 100 < p)).
Proof.
  split.
  - unfold headerRemainingBudget, overviewRemaining, overviewCurrentBudget,
      overviewTotalSpent, getCurrentBudget. cbv zeta.
    rewrite or_default_zero.
    by destruct (List.find _ (budgets st)).
  - intros Hpos. unfold overviewProgress, overviewRemaining.
    rewrite calculateBudgetProgress_percentOf, percentOf_pos by done.
    eexists. split; [done|].
    replace (month (overviewCurrentBudget st uuid)) with (currentMonth st)
      by (symmetry; apply getCurrentBudget_month).
    fold (overviewTotalSpent st). rewrite percent_gt_100 by done.
    set (t := totalBudget _). set (s := overviewTotalSpent st).
    rewrite (Qcplus_lt_mono_r (t - s) 0 s).
    by replace (t - s + s) with t by ring; rewrite Qcplus_0_l.
Qed.

Lemma header_overview_agree_witness :
  ∃ p, overviewProgress
         (withBudgets (withExpenses (sampleState true []) juneExpenses)
            [sampleBudget "2024-06" "food" 100 150]) "id" = Some p
       ∧ (overviewRemaining
            (withBudgets (withExpenses (sampleState true []) juneExpenses)
               [sampleBudget "2024-06" "food" 100 150]) "id" < 0
          ↔ Qc_of_Z 100 < p).
Proof.
  apply (proj2 (header_overview_agree
                  (withBudgets (withExpenses (sampleState true []) juneExpenses)
                     [sampleBudget "2024-06" "food" 100 150]) "id")).
  reflexivity.
Defined.

(** X13. The rows of the category breakdown: the active categories are
    listed once each; they are the categories with a limit in the month's
    budget, which come first and in the order of the budget's keys, together
    with the categories of the month's expenses; and the total of each
    category is the value of that category in [calculateExpensesByCategory],
    or 0 when it has none. *)
Theorem category_rows_listed (st : AppState) (uuid : string)
    (keys : list string) :
  keysOf (categories (overviewCurrentBudget st uuid)) keys →
  NoDup (getActiveCategories st keys)
  ∧ (∀ c, c ∈ getActiveCategories st keys
          ↔ is_Some (categories (overviewCurrentBudget st uuid) !! c)
            ∨ ∃ e, e ∈ overviewMonthlyExpenses st ∧ category e = c)
  ∧ (∃ rest, getActiveCategories st keys = keys ++ rest)
  ∧ ∀ c, getCategoryTotal st c
         = default 0 (calculateExpensesByCategory (expenses st)
                        (currentMonth st) !! c).
Proof.
  intros [Hkeys Hdom]. unfold getActiveCategories. cbv zeta.
  destruct (arrayFromSet_spec
              (keys ++ (category <$> overviewMonthlyExpenses st)))
    as [Hnd Hin].
  split; [done|]. split; [|split].
  - intros c. rewrite Hin, elem_of_app, Hdom, list_elem_of_fmap.
    split; (intros [?|(e & ? & ?)]; [by left|right; by exists e]).
  - by apply arrayFromSet_prefix.
  - intros c. unfold getCategoryTotal, calculateExpensesByCategory.
    fold (overviewMonthlyExpenses st).
    fold (ofCategory c (overviewMonthlyExpenses st)).
    fold (sumAmounts (ofCategory c (overviewMonthlyExpenses st))).
    rewrite byCategory_lookup.
    destruct (ofCategory c (overviewMonthlyExpenses st)) eqn:Hc; [done|].
    simpl. by rewrite sumAmounts_sumList.
Qed.

(** June 2024 with a limit on gifts and the three expenses on food and
    housing: gifts comes first, and each category is listed once. *)
Lemma category_rows_listed_witness :
  NoDup (getActiveCategories
           (withBudgets (withExpenses (sampleState true []) juneExpenses)
              [sampleBudget "2024-06" "gifts" 200 500]) ["gifts"])
  ∧ ∃ rest,
      getActiveCategories
        (withBudgets (withExpenses (sampleState true []) juneExpenses)
           [sampleBudget "2024-06" "gifts" 200 500]) ["gifts"]
      = ["gifts"] ++ rest.
Proof.
  assert (keysOf
            (categories
               (overviewCurrentBudget
                  (withBudgets (withExpenses (sampleState true [])
                                  juneExpenses)
                     [sampleBudget "2024-06" "gifts" 200 500]) "id"))
            ["gifts"]) as Hkeys.
  { split; [apply NoDup_singleton|]. intros k.
    change (categories _) with ({[ "gifts" := Qc_of_Z 200 ]} : gmap string Qc).
    rewrite list_elem_of_singleton. split.
    - intros ->. by rewrite lookup_singleton_eq.
    - intros [v Hv]. by apply lookup_singleton_Some in Hv as [-> _]. }
  destruct (category_rows_listed _ "id" ["gifts"] Hkeys)
    as (Hnd & _ & Hfirst & _).
  split; [exact Hnd | exact Hfirst].
Defined.

(** X14. The progress of a row of the category breakdown is the value of
    [calculateCategoryBudgetProgress] whenever the category has a positive
    limit in the month's budget.  For a category without limit the two
    differ: the helper gives 0, the row gives 100 as soon as something was
    spent in the category, and 0 otherwise. *)
Theorem overview_category_progress (st : AppState) (uuid : string)
    (c : ExpenseCategory) :
  (∀ limit, categories (overviewCurrentBudget st uuid) !! c = Some limit →
            0 < limit →
            overviewCategoryProgress st uuid c
            = calculateCategoryBudgetProgress (overviewCurrentBudget st uuid)
                (expenses st) c)
  ∧ (categories (overviewCurrentBudget st uuid) !! c = None →
     calculateCategoryBudgetProgress (overviewCurrentBudget st uuid)
       (expenses st) c = Some 0
     ∧ overviewCategoryProgress st uuid c
       = Some (if bool_decide (0 < getCategoryTotal st c)
               then Qc_of_Z 100 else 0)).
Proof.
  assert (month (overviewCurrentBudget st uuid) = currentMonth st) as Hmonth
    by apply getCurrentBudget_month.
  unfold overviewCategoryProgress, calculateCategoryBudgetProgress,
    getCategoryTotal, overviewMonthlyExpenses. cbv zeta.
  rewrite Hmonth. split.
  - intros limit Hc Hpos. rewrite Hc, or_default_Some_pos by done.
    rewrite (proj2 (gt0_true limit) Hpos).
    unfold Num.truthy. by rewrite bool_decide_eq_false_2 by by apply pos_nonzero.
  - intros Hc. rewrite Hc. simpl. split; [done|].
    unfold Num.gt0. by case_bool_decide.
Qed.

Lemma overview_category_progress_witness :
  overviewCategoryProgress
    (withBudgets (withExpenses (sampleState true []) juneExpenses)
       [sampleBudget "2024-06" "food" 100 150]) "id" "food"
  = calculateCategoryBudgetProgress (sampleBudget "2024-06" "food" 100 150)
      juneExpenses "food"
  ∧ overviewCategoryProgress
      (withBudgets (withExpenses (sampleState true []) juneExpenses)
         [sampleBudget "2024-06" "food" 100 150]) "id" "housing"
    = Some (Qc_of_Z 100).
Proof.
  split.
  - apply (proj1 (overview_category_progress
                    (withBudgets
                       (withExpenses (sampleState true []) juneExpenses)
                       [sampleBudget "2024-06" "food" 100 150]) "id" "food")
             (Qc_of_Z 100)); reflexivity.
  - apply (proj2 (overview_category_progress
                    (withBudgets
                       (withExpenses (sampleState true []) juneExpenses)
                       [sampleBudget "2024-06" "food" 100 150]) "id"
                    "housing")).
    reflexivity.
Defined.

(** ** The current month in the rolling summary *)

Section CurrentMonth.
Local Open Scope Z_scope.

Lemma monthsBefore_zero (y m : Z) : 0 ≤ m ≤ 11 → monthsBefore y m 0 = (y, m).
Proof.
  intros Hm. unfold monthsBefore. cbv zeta.
  f_equal; Z.div_mod_to_equations; lia.
Qed.

(** At offset 0 [setMonth] leaves a valid date in its month. *)
Lemma monthKey_zero (now : JsDate.t) :
  JsDate.valid now → monthKey now 0 = getCurrentMonth now.
Proof.
  intros (Hm & Hd & _).
  pose proof (daysInMonth_range (JsDate.fullYear now) (JsDate.monthIndex now))
    as Hdim.
  rewrite monthKey_in_month.
  - unfold calendarKey, getCurrentMonth. rewrite monthsBefore_zero by done.
    by apply formatYearMonth_fields.
  - lia.
  - rewrite monthsBefore_zero by done. simpl. lia.
Qed.

End CurrentMonth.

(** X15. Whatever the day of the month, the last entry of the rolling summary
    is the one of the current month, [getCurrentMonth()], with the monthly
    total and the per-category sums of that month; so after the summaries
    were refreshed, the last point of the trend chart is the total that the
    budget overview shows while the current month is selected. *)
Theorem summary_ends_with_current_month (now : JsDate.t) (st : AppState) :
  JsDate.valid now →
  last (getLastSixMonthsSummary now (expenses st))
  = Some {| mt_month := getCurrentMonth now;
            total := calculateMonthlyTotal (expenses st) (getCurrentMonth now);
            mt_categories :=
              calculateExpensesByCategory (expenses st) (getCurrentMonth now) |}
  ∧ (currentMonth st = getCurrentMonth now →
     total <$> last (monthlySummaries (refreshSummaries now st))
     = Some (overviewTotalSpent st)).
Proof.
  intros Hvalid.
  assert (last (getLastSixMonthsSummary now (expenses st))
          = Some {| mt_month := getCurrentMonth now;
                    total := calculateMonthlyTotal (expenses st)
                               (getCurrentMonth now);
                    mt_categories :=
                      calculateExpensesByCategory (expenses st)
                        (getCurrentMonth now) |}) as Hlast.
  { rewrite getLastSixMonthsSummary_offsets, fmap_last.
    change (last [5; 4; 3; 2; 1; 0]%Z) with (Some 0%Z).
    rewrite <-(monthKey_zero now Hvalid).
    cbn [fmap option_fmap option_map]. by rewrite summaryEntry_eq. }
  split; [exact Hlast|].
  intros Hcur. unfold refreshSummaries, overviewTotalSpent.
  cbn [monthlySummaries]. by rewrite Hlast, Hcur.
Qed.

Lemma summary_ends_with_current_month_witness :
  mt_month <$> last (getLastSixMonthsSummary (noon 2024 3 31) juneExpenses)
  = Some "2024-03".
Proof.
  assert (JsDate.valid (noon 2024 3 31)) as Hvalid.
  { unfold JsDate.valid, noon, JsDate.daysInMonth. simpl. lia. }
  pose proof (proj1 (summary_ends_with_current_month (noon 2024 3 31)
                       (withExpenses (sampleState true []) juneExpenses)
                       Hvalid)) as Hlast.
  change (expenses (withExpenses (sampleState true []) juneExpenses))
    with juneExpenses in Hlast.
  rewrite Hlast. cbn [fmap option_fmap option_map mt_month]. f_equal.
Defined.

(** ** Month keys as prefixes of dates *)

Section Decimal.
Import JsDate.
Implicit Types (n fuel : nat) (acc : string).

Lemma digitsFuel_small fuel n acc :
  (n < 10)%nat → digitsFuel (S fuel) n acc = String (digit n) acc.
Proof.
  intros Hn. cbn [digitsFuel]. cbv zeta.
  by rewrite Nat.div_small, Nat.mod_small.
Qed.

Lemma digitsFuel_big fuel n acc :
  (10 ≤ n)%nat →
  digitsFuel (S fuel) n acc
  = digitsFuel fuel (n / 10) (String (digit (n mod 10)) acc).
Proof.
  intros Hn. cbn [digitsFuel]. cbv zeta.
  destruct (Nat.eqb_spec (n / 10) 0) as [Hz|]; [|done].
  apply Nat.div_small_iff in Hz; lia.
Qed.

Lemma div_facts n :
  (n / 10 / 10 = n / 100 ∧ n / 10 / 10 / 10 = n / 1000)%nat.
Proof. rewrite !Nat.Div0.div_div. done. Qed.

Lemma pad_four n :
  (n / 1000 < 10)%nat →
  (zeros (4 - String.length (toDecimal n)) ++ toDecimal n)%string
  = fourDigits n.
Proof.
  intros Hn. unfold toDecimal, fourDigits.
  destruct (div_facts n) as [H100 H1000].
  destruct (le_lt_dec 10 n) as [H10|H10].
  2: { rewrite digitsFuel_small by done.
       rewrite (Nat.div_small n 1000), (Nat.div_small n 100),
         (Nat.div_small n 10), (Nat.mod_small n 10) by lia.
       reflexivity. }
  destruct (le_lt_dec 100 n) as [Hc|Hc].
  2: { replace (S n) with (S (S (n - 1))) by lia.
       rewrite digitsFuel_big by done.
       rewrite digitsFuel_small by (apply Nat.Div0.div_lt_upper_bound; lia).
       rewrite (Nat.div_small n 1000), (Nat.div_small n 100) by lia.
       rewrite (Nat.mod_small (n / 10) 10)
         by (apply Nat.Div0.div_lt_upper_bound; lia).
       reflexivity. }
  destruct (le_lt_dec 1000 n) as [Hm|Hm].
  2: { replace (S n) with (S (S (S (n - 2)))) by lia.
       rewrite digitsFuel_big by done.
       rewrite digitsFuel_big by (apply Nat.div_le_lower_bound; lia).
       rewrite digitsFuel_small
         by (rewrite H100; apply Nat.Div0.div_lt_upper_bound; lia).
       rewrite (Nat.div_small n 1000) by lia. rewrite H100.
       rewrite (Nat.mod_small (n / 100) 10)
         by (apply Nat.Div0.div_lt_upper_bound; lia).
       reflexivity. }
  replace (S n) with (S (S (S (S (n - 3))))) by lia.
  rewrite digitsFuel_big by done.
  rewrite digitsFuel_big by (apply Nat.div_le_lower_bound; lia).
  rewrite digitsFuel_big
    by (rewrite H100; apply Nat.div_le_lower_bound; lia).
  rewrite digitsFuel_small by by rewrite H1000.
  rewrite H1000, H100. reflexivity.
Qed.

Lemma pad_two n :
  (n < 100)%nat →
  (zeros (2 - String.length (toDecimal n)) ++ toDecimal n)%string
  = twoDigits n.
Proof.
  intros Hn. unfold toDecimal, twoDigits.
  destruct (le_lt_dec 10 n) as [H10|H10].
  - replace (S n) with (S (S (n - 1))) by lia.
    rewrite digitsFuel_big by done.
    rewrite digitsFuel_small by (apply Nat.Div0.div_lt_upper_bound; lia).
    reflexivity.
  - rewrite digitsFuel_small by done.
    rewrite (Nat.div_small n 10), (Nat.mod_small n 10) by lia.
    reflexivity.
Qed.

Lemma digit_inj (a b : nat) : (a < 10)%nat → (b < 10)%nat → digit a = digit b → a = b.
Proof.
  intros Ha Hb Heq. unfold digit in Heq.
  apply (f_equal Ascii.nat_of_ascii) in Heq.
  rewrite !Ascii.nat_ascii_embedding in Heq by lia. lia.
Qed.

Lemma mod10_lt n : (n mod 10 < 10)%nat.
Proof. apply Nat.mod_upper_bound. lia. Qed.

Lemma fourDigits_inj n1 n2 :
  (n1 / 1000 < 10)%nat → (n2 / 1000 < 10)%nat →
  fourDigits n1 = fourDigits n2 → n1 = n2.
Proof.
  intros H1 H2 [= Ha Hb Hc Hd].
  apply (digit_inj (n1 / 1000) (n2 / 1000)) in Ha; [|done..].
  apply (digit_inj (n1 / 100 mod 10) (n2 / 100 mod 10)) in Hb;
    [|apply mod10_lt..].
  apply (digit_inj (n1 / 10 mod 10) (n2 / 10 mod 10)) in Hc;
    [|apply mod10_lt..].
  apply (digit_inj (n1 mod 10) (n2 mod 10)) in Hd; [|apply mod10_lt..].
  pose proof (Nat.div_mod_eq n1 10) as A1.
  pose proof (Nat.div_mod_eq n2 10) as A2.
  pose proof (Nat.div_mod_eq (n1 / 10) 10) as B1.
  pose proof (Nat.div_mod_eq (n2 / 10) 10) as B2.
  pose proof (Nat.div_mod_eq (n1 / 100) 10) as C1.
  pose proof (Nat.div_mod_eq (n2 / 100) 10) as C2.
  rewrite (Nat.Div0.div_div n1 10 10) in B1.
  rewrite (Nat.Div0.div_div n2 10 10) in B2.
  rewrite (Nat.Div0.div_div n1 100 10) in C1.
  rewrite (Nat.Div0.div_div n2 100 10) in C2.
  change (10 * 10)%nat with 100%nat in *.
  change (100 * 10)%nat with 1000%nat in *.
  lia.
Qed.

Lemma twoDigits_inj n1 n2 :
  (n1 < 100)%nat → (n2 < 100)%nat → twoDigits n1 = twoDigits n2 → n1 = n2.
Proof.
  intros H1 H2 [= Ha Hb].
  apply (digit_inj (n1 / 10) (n2 / 10)) in Ha;
    [|apply Nat.Div0.div_lt_upper_bound; lia..].
  apply (digit_inj (n1 mod 10) (n2 mod 10)) in Hb; [|apply mod10_lt..].
  pose proof (Nat.div_mod_eq n1 10). pose proof (Nat.div_mod_eq n2 10). lia.
Qed.

Local Open Scope Z_scope.

(** For a year of four digits at most the key has the shape [yyyy-MM]. *)
Lemma formatYearMonth_digits (d : t) :
  1 ≤ fullYear d ≤ 9999 → 0 ≤ monthIndex d ≤ 11 →
  formatYearMonth d
  = (fourDigits (Z.to_nat (fullYear d)) ++ "-"
     ++ twoDigits (Z.to_nat (monthIndex d + 1)))%string.
Proof.
  intros Hy Hm. unfold formatYearMonth, addLeadingZeros. cbv zeta.
  rewrite (proj2 (Z.ltb_lt 0 (fullYear d))) by lia.
  rewrite !(proj2 (Z.ltb_ge _ 0)) by lia.
  rewrite !Z.abs_eq by lia.
  change (String.append EmptyString ?s) with s.
  rewrite pad_four, pad_two; [reflexivity|lia|].
  apply Nat.Div0.div_lt_upper_bound. lia.
Qed.

Lemma formatDay_digits (d : t) :
  1 ≤ fullYear d ≤ 9999 → 0 ≤ monthIndex d ≤ 11 →
  formatDay d
  = (fourDigits (Z.to_nat (fullYear d)) ++ "-"
     ++ twoDigits (Z.to_nat (monthIndex d + 1)) ++ "-"
     ++ addLeadingZeros (dayOfMonth d) 2)%string.
Proof.
  intros Hy Hm. unfold formatDay. by rewrite formatYearMonth_digits.
Qed.

End Decimal.

Lemma prefix_app_l (s t : string) : String.prefix s (s ++ t) = true.
Proof.
  induction s as [|c s IH]; [by destruct t|].
  simpl. destruct (Ascii.ascii_dec c c); [exact IH|done].
Qed.

Lemma prefix_key_day (a1 a2 a3 a4 a5 a6 b1 b2 b3 b4 b5 b6 : Ascii.ascii)
    (rest : string) :
  String.prefix
    (String a1 (String a2 (String a3 (String a4 EmptyString)))
     ++ "-" ++ String a5 (String a6 EmptyString))
    (String b1 (String b2 (String b3 (String b4 EmptyString)))
     ++ "-" ++ String b5 (String b6 EmptyString) ++ rest) = true →
  String a1 (String a2 (String a3 (String a4 EmptyString)))
  = String b1 (String b2 (String b3 (String b4 EmptyString)))
  ∧ String a5 (String a6 EmptyString) = String b5 (String b6 EmptyString).
Proof.
  simpl.
  repeat match goal with
         | |- context [Ascii.ascii_dec ?a ?b] =>
             destruct (Ascii.ascii_dec a b) as [->|]; [|intros; discriminate]
         end.
  done.
Qed.

(** X16.  The month key and the dates agree on the calendar month: for years
    of the era on four digits, an expense whose date is a day written
    [yyyy-MM-dd] is kept by [filterExpensesByMonth] for the key
    [getCurrentMonth] makes of a date exactly when the day lies in the year
    and month of that date.  In particular an expense entered with the
    default date of the expense form is listed under the current month. *)
Theorem month_filter_is_calendar_month
    (es : list Expense) (e : Expense) (now day : JsDate.t) :
  (1 ≤ JsDate.fullYear now ≤ 9999)%Z → (0 ≤ JsDate.monthIndex now ≤ 11)%Z →
  (1 ≤ JsDate.fullYear day ≤ 9999)%Z → (0 ≤ JsDate.monthIndex day ≤ 11)%Z →
  e ∈ es →
  date e = formatDay day →
  e ∈ filterExpensesByMonth es (getCurrentMonth now)
  ↔ JsDate.fullYear day = JsDate.fullYear now
    ∧ JsDate.monthIndex day = JsDate.monthIndex now.
Proof.
  intros Hy Hm Hy' Hm' Hin Hdate.
  rewrite filterExpensesByMonth_elem, Hdate. unfold getCurrentMonth.
  split.
  - intros [Hp _]. revert Hp.
    rewrite formatDay_digits, formatYearMonth_digits by done.
    unfold fourDigits at 1 2, twoDigits at 1 2.
    intros [Hfour Htwo]%prefix_key_day.
    apply fourDigits_inj in Hfour;
      [|apply Nat.Div0.div_lt_upper_bound; lia..].
    apply twoDigits_inj in Htwo; [|lia..]. lia.
  - intros [Hyear Hmonth]. split; [|done].
    unfold formatDay, JsDate.formatYearMonth.
    rewrite Hyear, Hmonth. apply prefix_app_l.
Qed.

Lemma month_filter_is_calendar_month_witness :
  sampleExpense 10 "food" "2024-06-15"
    ∈ filterExpensesByMonth
        [sampleExpense 10 "food" "2024-06-15"]
        (getCurrentMonth (noon 2024 6 30))
  ↔ JsDate.fullYear (noon 2024 6 15) = JsDate.fullYear (noon 2024 6 30)
    ∧ JsDate.monthIndex (noon 2024 6 15)
      = JsDate.monthIndex (noon 2024 6 30).
Proof.
  apply (month_filter_is_calendar_month
           [sampleExpense 10 "food" "2024-06-15"]
           (sampleExpense 10 "food" "2024-06-15")
           (noon 2024 6 30) (noon 2024 6 15)).
  - simpl. lia.
  - simpl. lia.
  - simpl. lia.
  - simpl. lia.
  - apply list_elem_of_here.
  - vm_compute. reflexivity.
Defined.

(** ** Sorting *)

Section JsSort.
Context {A : Type}.
Implicit Types (cmp : A → A → Qc) (l : list A) (x : A).

Lemma insertBy_perm cmp x l : insertBy cmp x l ≡ₚ x :: l.
Proof.
  induction l as [|y l IH]; [done|]. cbn [insertBy].
  destruct (Num.gt0 (cmp x y)); [|done].
  rewrite IH. apply Permutation_swap.
Qed.

Lemma jsSort_perm cmp l : jsSort cmp l ≡ₚ l.
Proof.
  induction l as [|x l IH]; [done|].
  unfold jsSort. cbn [foldr]. rewrite insertBy_perm. by f_equiv.
Qed.

Lemma jsSort_elem cmp l x : x ∈ jsSort cmp l ↔ x ∈ l.
Proof. by rewrite jsSort_perm. Qed.

Lemma insertBy_sorted cmp x l :
  consistent cmp →
  StronglySorted (λ a b, cmp a b ≤ 0) l →
  StronglySorted (λ a b, cmp a b ≤ 0) (insertBy cmp x l).
Proof.
  intros [Htotal Htrans]. induction 1 as [|y l Hs IH Hy].
  { repeat constructor. }
  cbn [insertBy]. unfold Num.gt0. case_bool_decide as Hgt.
  - constructor; [done|].
    rewrite (insertBy_perm cmp x l). constructor; [|done]. by apply Htotal.
  - apply Qcle_not_lt in Hgt || apply Qcnot_lt_le in Hgt.
    constructor; [by constructor|].
    constructor; [done|].
    eapply Forall_impl; [exact Hy|]. intros z Hz. by eapply Htrans.
Qed.

Lemma jsSort_sorted cmp l :
  consistent cmp → StronglySorted (λ a b, cmp a b ≤ 0) (jsSort cmp l).
Proof.
  intros Hc. induction l as [|x l IH]; [constructor|].
  unfold jsSort. cbn [foldr]. by apply insertBy_sorted.
Qed.

Lemma jsSort_head cmp l h :
  consistent cmp → head (jsSort cmp l) = Some h →
  h ∈ l ∧ ∀ x, x ∈ l → cmp h x ≤ 0 ∨ x = h.
Proof.
  intros Hc Hh. pose proof (jsSort_sorted cmp l Hc) as Hs.
  destruct (jsSort cmp l) as [|y s] eqn:E; [done|].
  injection Hh as ->. apply StronglySorted_inv in Hs as [_ Hall].
  split.
  - apply (jsSort_elem cmp). rewrite E. left.
  - intros x Hx. apply (jsSort_elem cmp) in Hx. rewrite E in Hx.
    apply elem_of_cons in Hx as [->|Hx]; [by right|left].
    by eapply (proj1 (Forall_forall _ _) Hall).
Qed.

Lemma jsSort_head_None cmp l : head (jsSort cmp l) = None → l = [].
Proof.
  intros Hh. destruct (jsSort cmp l) as [|y s] eqn:E; [|done].
  pose proof (jsSort_perm cmp l) as Hp. rewrite E in Hp.
  by apply Permutation_nil_l in Hp.
Qed.


End JsSort.

Lemma ascending_consistent {A : Type} (key : A → Qc) :
  consistent (λ a b, key a - key b).
Proof.
  split.
  - intros a b Hab. apply Qclt_le_weak.
    apply (Qcplus_lt_mono_r _ _ (key a - key b)).
    replace (key b - key a + (key a - key b)) with 0 by ring.
    by rewrite Qcplus_0_l.
  - intros a b c Hab Hbc.
    replace (key a - key c) with ((key a - key b) + (key b - key c)) by ring.
    replace 0 with (0 + 0) by ring. by apply Qcplus_le_compat.
Qed.

Lemma diff_nonpos (x y : Qc) : x - y ≤ 0 ↔ x ≤ y.
Proof.
  rewrite (Qcle_minus_iff (x - y) 0), (Qcle_minus_iff x y).
  by replace (0 + - (x - y)) with (y + - x) by ring.
Qed.

Lemma sumList_perm (l l' : list Qc) : l ≡ₚ l' → sumList l = sumList l'.
Proof.
  induction 1 as [|x l l' _ IH|x y l|l l' l'' _ IH1 _ IH2];
    rewrite ?sumList_cons; [done|by rewrite IH|ring|congruence].
Qed.

Lemma descending_consistent {A : Type} (key : A → Qc) :
  consistent (λ a b, key b - key a).
Proof.
  split.
  - intros a b Hab. apply Qclt_le_weak.
    apply (Qcplus_lt_mono_r _ _ (key b - key a)).
    replace (key a - key b + (key b - key a)) with 0 by ring.
    by rewrite Qcplus_0_l.
  - intros a b c Hab Hbc.
    replace (key c - key a) with ((key b - key a) + (key c - key b)) by ring.
    replace 0 with (0 + 0) by ring. by apply Qcplus_le_compat.
Qed.

(** ** The list of expenses *)

Section ExpenseList.
Variables (toLowerCase : string → string) (getTime : string → Qc).
Implicit Types (st : AppState) (v : ListView) (field : SortField).

Lemma handleSort_keeps v field :
  searchTerm (handleSort v field) = searchTerm v
  ∧ categoryFilter (handleSort v field) = categoryFilter v.
Proof. unfold handleSort. by destruct (sortField v), field. Qed.

Lemma matchesExpense_handleSort st v field e :
  matchesExpense toLowerCase st (handleSort v field) e
  = matchesExpense toLowerCase st v e.
Proof.
  unfold matchesExpense.
  by destruct (handleSort_keeps v field) as [-> ->].
Qed.

Lemma includes_empty (s : string) : includes s EmptyString = true.
Proof. by destruct s. Qed.


End ExpenseList.

(** X17.  Sorting never changes which expenses are listed: after
    [handleSort], on either column, the list holds the expenses it held, each
    as often, the search term and the category filter being kept; and a third
    click on a column gives the order of the first. *)
Theorem expense_list_sort_keeps_rows
    (toLowerCase : string → string) (getTime : string → Qc)
    (st : AppState) (v : ListView) (field : SortField) :
  filteredAndSortedExpenses toLowerCase getTime st (handleSort v field)
  ≡ₚ filteredAndSortedExpenses toLowerCase getTime st v
  ∧ searchTerm (handleSort v field) = searchTerm v
  ∧ categoryFilter (handleSort v field) = categoryFilter v
  ∧ handleSort (handleSort (handleSort v field) field) field
    = handleSort v field.
Proof.
  split; [|split; [|split]]; try apply handleSort_keeps.
  - unfold filteredAndSortedExpenses. rewrite !jsSort_perm.
    erewrite list_filter_iff; [done|].
    intros e. by rewrite matchesExpense_handleSort.
  - destruct v as [s c f d]. by destruct f, d, field.
Qed.

(** X18.  With an empty search term and the category filter on 'all' the
    list holds exactly the expenses of the selected month, the ones that
    [calculateMonthlyTotal] adds up for the header and the budget overview,
    each as often as the state holds it -- whatever the sort column and
    direction. *)
Theorem expense_list_is_month
    (toLowerCase : string → string) (getTime : string → Qc)
    (st : AppState) (v : ListView) :
  toLowerCase EmptyString = EmptyString →
  searchTerm v = EmptyString →
  categoryFilter v = "all" →
  filteredAndSortedExpenses toLowerCase getTime st v
  ≡ₚ filterExpensesByMonth (expenses st) (currentMonth st).
Proof.
  intros Hlower Hsearch Hall.
  unfold filteredAndSortedExpenses, filterExpensesByMonth.
  rewrite jsSort_perm. erewrite list_filter_iff; [done|].
  intros e. unfold matchesExpense. cbv zeta.
  rewrite Hsearch, Hlower, includes_empty, Hall.
  rewrite bool_decide_eq_true_2 by done.
  by rewrite !andb_true_r.
Qed.

Lemma expense_list_is_month_witness :
  filteredAndSortedExpenses (λ s, s) (λ _, 0)
    (withExpenses (sampleState true [])
       (sampleExpense 70 "food" "2024-05-20" :: juneExpenses)) initialView
  ≡ₚ filterExpensesByMonth
       (expenses (withExpenses (sampleState true [])
                    (sampleExpense 70 "food" "2024-05-20" :: juneExpenses)))
       (currentMonth (withExpenses (sampleState true [])
                        (sampleExpense 70 "food" "2024-05-20"
                           :: juneExpenses))).
Proof.
  apply (expense_list_is_month (λ s, s) (λ _, 0)
           (withExpenses (sampleState true [])
              (sampleExpense 70 "food" "2024-05-20" :: juneExpenses))
           initialView).
  - reflexivity.
  - reflexivity.
  - reflexivity.
Defined.


(** ** The list of savings goals *)



(** ** Spending insights *)

Section Insights.
Implicit Types (st : AppState) (c : string) (x : Qc).

Lemma categoryEntries_elem st c x :
  (c, x) ∈ categoryEntries st ↔ currentMonthExpensesByCategory st !! c = Some x.
Proof.
  unfold categoryEntries. cbv zeta. rewrite list_elem_of_omap. split.
  - intros (k & _ & Hk).
    destruct (currentMonthExpensesByCategory st !! k) as [y|] eqn:E; [|done].
    cbn in Hk. by injection Hk as -> ->.
  - intros Hc. exists c. rewrite Hc. split; [|done].
    apply arrayFromSet_spec, list_elem_of_fmap.
    assert (c ∈ dom (currentMonthExpensesByCategory st)) as Hdom
      by (apply elem_of_dom; eauto).
    apply byCategory_dom in Hdom as (e & He & Hcat). eauto.
Qed.

Lemma entries_keys (m : gmap string Qc) (keys : list string) :
  NoDup keys →
  NoDup (omap (λ c, (λ x, (c, x)) <$> m !! c) keys).*1
  ∧ ∀ c, c ∈ (omap (λ c, (λ x, (c, x)) <$> m !! c) keys).*1 → c ∈ keys.
Proof.
  induction 1 as [|k ks Hk Hnd [IHn IHe]]; [split; [constructor|done]|].
  cbn [omap list_omap]. destruct (m !! k) as [y|]; cbn.
  - split.
    + constructor; [|done]. intros Hin. by apply Hk, IHe.
    + intros c [->|Hc]%elem_of_cons; [left|right; by apply IHe].
  - split; [done|]. intros c Hc. right. by apply IHe.
Qed.

Lemma categoryEntries_NoDup st : NoDup (categoryEntries st).*1.
Proof. apply entries_keys, arrayFromSet_spec. Qed.

Lemma categoryEntries_length st :
  length (categoryEntries st) = size (dom (currentMonthExpensesByCategory st)).
Proof.
  rewrite <-(length_fmap fst). unfold size, set_size. cbn.
  apply Permutation_length, NoDup_Permutation.
  - apply categoryEntries_NoDup.
  - apply NoDup_elements.
  - intros c. rewrite elem_of_elements, elem_of_dom, list_elem_of_fmap.
    split.
    + intros ([c' x] & -> & Hin). apply categoryEntries_elem in Hin. eauto.
    + intros [x Hx]. exists (c, x). split; [done|].
      by apply categoryEntries_elem.
Qed.

End Insights.

(** X21.  The categories compared in the insights are the leading ones of
    the month: as many as there are categories with an expense in the selected
    month, five at most, each once, and none of the categories left out has
    more spent on it than one of those listed. *)
Theorem top_categories_lead (st : AppState) :
  let spent := currentMonthExpensesByCategory st in
  let top := getTopCategories st in
  length top = Nat.min 5 (size (dom spent))
  ∧ NoDup top
  ∧ (∀ c, c ∈ top → c ∈ dom spent)
  ∧ (∀ c c' x x', c ∈ top → c' ∉ top →
       spent !! c = Some x → spent !! c' = Some x' → x' ≤ x)
  ∧ spent = calculateExpensesByCategory (expenses st) (currentMonth st).
Proof.
  intros spent top. unfold top, getTopCategories.
  set (cmp := λ a b : string * Qc, b.2 - a.2).
  pose proof (jsSort_perm cmp (categoryEntries st)) as Hperm.
  pose proof (jsSort_sorted cmp (categoryEntries st)
                (descending_consistent snd)) as Hsorted.
  rewrite <-(take_drop 5 (jsSort cmp (categoryEntries st))) in Hsorted.
  assert (∀ c x, (c, x) ∈ take 5 (jsSort cmp (categoryEntries st)) →
                 spent !! c = Some x) as Htake.
  { intros c x Hin. apply categoryEntries_elem. rewrite <-Hperm.
    rewrite <-(take_drop 5 (jsSort cmp (categoryEntries st))).
    apply elem_of_app. by left. }
  split; [|split; [|split; [|split]]].
  - rewrite length_fmap, length_take, Hperm. f_equal.
    apply categoryEntries_length.
  - pose proof (categoryEntries_NoDup st) as Hnd.
    rewrite <-Hperm in Hnd.
    rewrite <-(take_drop 5 (jsSort cmp (categoryEntries st))) in Hnd.
    rewrite fmap_app in Hnd. by apply NoDup_app in Hnd as [? _].
  - intros c ([c0 x] & -> & Hin)%list_elem_of_fmap.
    apply elem_of_dom. exists x. by apply Htake.
  - intros c c' x x' ([c0 x0] & -> & Hin)%list_elem_of_fmap Hout Hx Hx'.
    cbn in Hx. rewrite (Htake _ _ Hin) in Hx. injection Hx as ->.
    assert ((c', x') ∈ drop 5 (jsSort cmp (categoryEntries st))) as Hdrop.
    { apply categoryEntries_elem in Hx'. rewrite <-Hperm in Hx'.
      rewrite <-(take_drop 5 (jsSort cmp (categoryEntries st))) in Hx'.
      apply elem_of_app in Hx' as [Hx'|Hx']; [|done].
      destruct Hout. apply list_elem_of_fmap. by exists (c', x'). }
    pose proof (StronglySorted_app_1_elem_of _ _ _ _ _ Hsorted Hin Hdrop)
      as Hle.
    by apply (diff_nonpos x' x).
  - reflexivity.
Qed.

Section Stats.
Implicit Types (st : AppState) (ms : list MonthlyTotal).

Lemma filter_none {A} (P : A → Prop) `{!∀ x, Decision (P x)} (l : list A) :
  (∀ x, x ∈ l → ¬ P x) → filter P l = [].
Proof.
  induction l as [|a l IH]; intros Hno; [done|].
  rewrite filter_cons_False by (apply Hno; left).
  apply IH. intros x Hx. apply Hno. by right.
Qed.

Lemma highestMonth_max st h :
  highestMonth st = Some h →
  h ∈ monthlySummaries st
  ∧ ∀ m, m ∈ monthlySummaries st → total m ≤ total h.
Proof.
  intros Hh.
  apply (jsSort_head _ _ _ (descending_consistent total)) in Hh as [Hin Hall].
  split; [done|]. intros m Hm.
  destruct (Hall m Hm) as [Hle| ->]; [by apply diff_nonpos|apply Qcle_refl].
Qed.

End Stats.

(** X22.  The months of the spending statistics: the month shown as the
    highest is one of the summaries and no summary has a higher total; the
    month shown as the lowest, if there is one, has the least of the totals
    above zero, and there is none exactly when no total is above zero. *)
Theorem spending_stats_bounds (st : AppState) (h : MonthlyTotal) :
  highestMonth st = Some h →
  h ∈ monthlySummaries st
  ∧ (∀ m, m ∈ monthlySummaries st → total m ≤ total h)
  ∧ (∀ l, lowestMonth st = Some l →
       l ∈ monthlySummaries st ∧ 0 < total l ∧ total l ≤ total h
       ∧ ∀ m, m ∈ monthlySummaries st → 0 < total m → total l ≤ total m)
  ∧ (lowestMonth st = None
     ↔ ∀ m, m ∈ monthlySummaries st → total m ≤ 0).
Proof.
  intros Hh. destruct (highestMonth_max st h Hh) as [Hin Hmax].
  split; [done|]. split; [done|]. split.
  - intros l Hl. unfold lowestMonth in Hl.
    apply (jsSort_head _ _ _ (ascending_consistent total)) in Hl
      as [[Hpos Hl]%list_elem_of_filter Hall].
    apply gt0_true in Hpos.
    split; [done|]. split; [done|]. split; [by apply Hmax|].
    intros m Hm Hmpos.
    destruct (Hall m) as [Hle| ->].
    + apply list_elem_of_filter. split; [|done]. by apply gt0_true.
    + by apply diff_nonpos.
    + apply Qcle_refl.
  - unfold lowestMonth. split.
    + intros Hnone m Hm. apply jsSort_head_None in Hnone.
      apply Qcnot_lt_le. intros Hpos.
      assert (m ∈ filter (λ m, Num.gt0 (total m) = true)
                    (monthlySummaries st))
        as Hf by (apply list_elem_of_filter; split;
                  [by apply gt0_true|done]).
      rewrite Hnone in Hf. by apply elem_of_nil in Hf.
    + intros Hall.
      assert (filter (λ m, Num.gt0 (total m) = true) (monthlySummaries st)
              = []) as ->; [|done].
      apply filter_none. intros m Hm Hpos. apply gt0_true in Hpos.
      by apply (Qclt_not_le _ _ Hpos), Hall.
Qed.

Lemma spending_stats_bounds_witness :
  mkMonthlyTotal "2024-06" (Qc_of_Z 180) ∅ ∈ monthlySummaries sampleStats
  ∧ (∀ m, m ∈ monthlySummaries sampleStats → total m ≤ Qc_of_Z 180)
  ∧ (∀ l, lowestMonth sampleStats = Some l →
       l ∈ monthlySummaries sampleStats ∧ 0 < total l
       ∧ total l ≤ Qc_of_Z 180
       ∧ ∀ m, m ∈ monthlySummaries sampleStats → 0 < total m →
              total l ≤ total m)
  ∧ (lowestMonth sampleStats = None
     ↔ ∀ m, m ∈ monthlySummaries sampleStats → total m ≤ 0).
Proof.
  apply (spending_stats_bounds sampleStats
           (mkMonthlyTotal "2024-06" (Qc_of_Z 180) ∅)).
  vm_compute. reflexivity.
Defined.

(** ** The allocation shown in the budget form *)

Section Allocation.
Implicit Types (cb : gmap string TextField) (f : TextField).

Lemma omap_cons_case {A B} (g : A → option B) (a : A) (l : list A) :
  omap g (a :: l)
  = match g a with Some y => y :: omap g l | None => omap g l end.
Proof. reflexivity. Qed.

Lemma sumValues_omap_list cb :
  sumValues (omap parseCategoryBudget cb)
  = sumList (omap parseCategoryBudget (map_to_list cb).*2).
Proof.
  induction cb as [|i x m Hi IH] using map_ind.
  - by rewrite omap_empty, map_to_list_empty, sumValues_empty.
  - rewrite (sumList_perm _ (omap parseCategoryBudget (x :: (map_to_list m).*2))).
    2:{ apply omap_Permutation.
        change (x :: (map_to_list m).*2) with (((i, x) :: map_to_list m).*2).
        apply fmap_Permutation. by apply map_to_list_insert. }
    rewrite omap_cons_case, omap_insert.
    destruct (parseCategoryBudget x) as [y|].
    + rewrite sumValues_insert_fresh by (by rewrite lookup_omap, Hi).
      rewrite sumList_cons, IH. ring.
    + rewrite delete_id by (by rewrite lookup_omap, Hi). exact IH.
Qed.

Lemma allocated_list (vals : list TextField) (acc : Qc) :
  Forall (λ f, fieldIsEmpty f = true ∨ notNonNegative f = false) vals →
  fold_left (λ sum amount, s ← sum; n ← fieldNumber amount; Some (s + n))
    (filter (λ amount, fieldIsEmpty amount = false) vals) (Some acc)
  = Some (acc + sumList (omap parseCategoryBudget vals)).
Proof.
  intros Hall. revert acc.
  induction Hall as [|f vals Hf _ IH]; intros acc.
  - cbn. by rewrite Qcplus_0_r.
  - destruct f as [|[q|]].
    + rewrite filter_cons_False by done. rewrite omap_cons_case.
      cbn [parseCategoryBudget]. apply IH.
    + destruct Hf as [Hf|Hf]; [done|].
      apply notNonNegative_false in Hf as (q' & [= <-] & Hq).
      rewrite filter_cons_True by done.
      cbn [fold_left fieldNumber mbind option_bind]. rewrite IH.
      rewrite omap_cons_case. cbn [parseCategoryBudget].
      case_bool_decide as Hpos.
      * rewrite sumList_cons. f_equal. ring.
      * assert (q = 0) as ->.
        { apply Qcle_antisym; [by apply Qcnot_lt_le|done]. }
        f_equal. ring.
    + destruct Hf as [Hf|Hf]; [done|].
      by apply notNonNegative_false in Hf as (q' & [=] & _).
Qed.

End Allocation.

(** X23.  When every category field of the budget form is empty or holds a
    number that is not negative, the allocation the form shows is the sum of
    the category limits it submits, and the unallocated amount is the
    submitted total less that sum. *)
Theorem budget_form_allocation (st : AppState) (total : TextField)
    (categoryBudgets : gmap string TextField) (uuid : string) (b : Budget) :
  map_Forall (λ _ f, fieldIsEmpty f = true ∨ notNonNegative f = false)
    categoryBudgets →
  budgetHandleSubmit st total categoryBudgets uuid = Some b →
  allocatedAmount categoryBudgets = Some (sumValues (categories b))
  ∧ unallocatedAmount total categoryBudgets
    = Some (totalBudget b - sumValues (categories b)).
Proof.
  intros Hall Hb. unfold budgetHandleSubmit in Hb. cbv zeta in Hb.
  destruct (notNonNegative total) eqn:Htotal; [done|].
  apply notNonNegative_false in Htotal as (q & -> & Hq).
  injection Hb as <-. cbn [categories totalBudget].
  assert (allocatedAmount categoryBudgets
          = Some (sumValues (omap parseCategoryBudget categoryBudgets)))
    as Halloc.
  { unfold allocatedAmount. rewrite allocated_list.
    - by rewrite Qcplus_0_l, sumValues_omap_list.
    - apply Forall_fmap, Forall_forall. intros [c f] Hin.
      apply elem_of_map_to_list in Hin. exact (Hall c f Hin). }
  split; [done|].
  unfold unallocatedAmount. by rewrite Halloc.
Qed.

Lemma budget_form_allocation_witness :
  allocatedAmount
    {[ "food" := Text (Some (Qc_of_Z 200)); "gifts" := EmptyText ]}
  = Some (sumValues (omap parseCategoryBudget
            {[ "food" := Text (Some (Qc_of_Z 200)); "gifts" := EmptyText ]}))
  ∧ unallocatedAmount (Text (Some (Qc_of_Z 500)))
      {[ "food" := Text (Some (Qc_of_Z 200)); "gifts" := EmptyText ]}
    = Some (Qc_of_Z 500
            - sumValues (omap parseCategoryBudget
                {[ "food" := Text (Some (Qc_of_Z 200));
                   "gifts" := EmptyText ]})).
Proof.
  assert (map_Forall
            (λ (_ : string) f, fieldIsEmpty f = true ∨ notNonNegative f = false)
            ({[ "food" := Text (Some (Qc_of_Z 200)); "gifts" := EmptyText ]}
               : gmap string TextField)) as Hfields.
  { apply (bool_decide_unpack _). vm_compute. exact I. }
  exact (budget_form_allocation (sampleState true [])
           (Text (Some (Qc_of_Z 500)))
           {[ "food" := Text (Some (Qc_of_Z 200)); "gifts" := EmptyText ]}
           "id"
           {| b_id := "id"; month := "2024-06";
              categories :=
                omap parseCategoryBudget
                  {[ "food" := Text (Some (Qc_of_Z 200));
                     "gifts" := EmptyText ]};
              totalBudget := Qc_of_Z 500; b_userId := None |}
           Hfields eq_refl).
Defined.
